(** * install.py: the Ghostty build-and-install orchestrator

    A shallow embedding of [install.py].  The script is a sequence of
    filesystem operations, downloads and subprocess calls; it is modelled
    here as a state-and-error monad over an explicit [World] (filesystem,
    working directory, containers, and the trace of what the process did),
    run against an [Env] that fixes what the outside world answers (which
    primitive raises, what a download delivers, what a subprocess returns).

    Python control flow is kept as it is written: [sys.exit] is an outcome
    of its own ([Exit]) that [except Exception] does not catch, a raised
    exception is [Raise], and [try]/[finally] runs its handler on every
    outcome. *)

From Stdlib Require Import ZArith.
From stdpp Require Import gmap strings list fin_maps pretty.

Open Scope Z_scope.
Open Scope string_scope.
Open Scope list_scope.

(** ** Data *)

(** A [Path] object, as the list of its components below the root. *)
Abbreviation path := (list string).

Inductive node :=
  | File (content : string)
  | Dir.

(** The exception classes the script tells apart (its [except] clauses name
    [CalledProcessError] and [FileNotFoundError]); every other subclass of
    [Exception] is [OtherError]. *)
Inductive exn_kind :=
  | CalledProcessError
  | FileNotFoundError
  | RuntimeError
  | OtherError.

Record exn := Exn { exn_kind_of : exn_kind; exn_msg : string }.

(** The primitive operations of the script: library calls that touch the
    outside world.  A subprocess is keyed by its argument vector, the
    working directory it inherits and the directory put in front of its
    [PATH], if any. *)
Inductive op :=
  | Urlretrieve (url : string) (destination : path)
  | TarExtract (mode : string) (archive extract_to : path)
  | ZipExtract (archive extract_to : path)
  | Run (cmd : list string) (cwd : path) (path_front : option path)
  | NamedTemporaryFile
  | Mkdtemp
  | Write (p : path)
  | Read (p : path)
  | Unlink (p : path)
  | Rmtree (p : path)
  | Mkdir (p : path)
  | Rename (src dst : path)
  | Move (src dst : path)
  | Copy2 (src dst : path)
  | Chmod (p : path)
  | Chdir (p : path).

Inductive level := INFO | SUCCESS | WARNING | ERROR.

Inductive event :=
  | EvLog (l : level) (message : string)
  | EvPrint (text : string)
  | EvOp (o : op).

#[global] Instance node_eq_dec : EqDecision node.
Proof. solve_decision. Defined.
#[global] Instance exn_kind_eq_dec : EqDecision exn_kind.
Proof. solve_decision. Defined.
#[global] Instance exn_eq_dec : EqDecision exn.
Proof. solve_decision. Defined.
#[global] Instance op_eq_dec : EqDecision op.
Proof. solve_decision. Defined.
#[global] Instance level_eq_dec : EqDecision level.
Proof. solve_decision. Defined.
#[global] Instance event_eq_dec : EqDecision event.
Proof. solve_decision. Defined.

(** What the outside world answers. *)
Record Env := {
  (** [Path.home()] *)
  home : path;
  (** the exception a primitive raises, if it raises *)
  fault : op -> option exn;
  (** the bytes a URL serves *)
  remote : string -> string;
  (** what a failed transfer leaves at its destination: nothing, or a
      truncated file *)
  truncated : string -> option string;
  (** the members [extractall] writes for an archive with these bytes,
      relative to the extraction directory; on a decode error, the members
      written before the error *)
  members : string -> string -> list (path * node);
  (** return code, stdout and stderr of a subprocess that ran to its end *)
  completed : list string -> path -> option path -> Z * string * string;
  (** what [zig build] leaves on disk *)
  zig_build_effect : gmap path node -> gmap path node;
  (** what [podman cp] copies out of [name:/path], relative to its target *)
  container_tree : string -> list (path * node);
  (** the name [NamedTemporaryFile] picks *)
  tmp_key_file : path;
  (** the directory [mkdtemp] creates *)
  tmp_dir : path;
  (** the eight characters drawn by [random.choices] *)
  random_suffix : string
}.

Record World := {
  fs : gmap path node;
  cwd : path;
  containers : gset string;
  trace : list event
}.

Inductive outcome (A : Type) :=
  | Ret (a : A)
  | Raise (e : exn)
  | Exit (code : Z).
Arguments Ret {A} a.
Arguments Raise {A} e.
Arguments Exit {A} code.

Definition M (A : Type) : Type := World -> outcome A * World.

(** ** Paths and strings *)

(** [p / s] *)
Definition join (p : path) (s : string) : path := p ++ [s].
Infix "//" := join (at level 40, left associativity).

(** [str(p)] *)
Definition path_str (p : path) : string := "/" +:+ String.concat "/" p.

(** [p.name] *)
Definition name (p : path) : string := List.last p "".

(** [s.replace(old, new)] for a non-empty [old]: every non-overlapping
    occurrence, left to right.  [skip] counts the characters of a match
    still to be dropped. *)
Fixpoint replace_from (old new : string) (skip : nat) (s : string) : string :=
  match s with
  | EmptyString => EmptyString
  | String c s' =>
      match skip with
      | S k => replace_from old new k s'
      | O =>
          if String.prefix old s
          then new +:+ replace_from old new (String.length old - 1)%nat s'
          else String c (replace_from old new 0 s')
      end
  end.

Definition replace (old new s : string) : string := replace_from old new 0 s.

(** ** The monad *)

#[global] Instance M_ret : MRet M := fun A a w => (Ret a, w).

#[global] Instance M_bind : MBind M := fun A B f m w =>
  match m w with
  | (Ret a, w1) => f a w1
  | (Raise e, w1) => (Raise e, w1)
  | (Exit c, w1) => (Exit c, w1)
  end.

(** [raise e] *)
Definition raise {A} (e : exn) : M A := fun w => (Raise e, w).

(** [sys.exit(code)] *)
Definition sys_exit {A} (code : Z) : M A := fun w => (Exit code, w).

(** [try: body except <classes> as e: handler(e)]: only exceptions of the
    named classes are caught; [SystemExit] never is. *)
Definition try_except_if {A} (caught : exn -> bool) (body : M A) (handler : exn -> M A) : M A :=
  fun w =>
    match body w with
    | (Raise e, w1) => if caught e then handler e w1 else (Raise e, w1)
    | r => r
    end.

(** [try: body except Exception as e: handler(e)] *)
Definition try_except {A} (body : M A) (handler : exn -> M A) : M A :=
  try_except_if (fun _ => true) body handler.

(** [try: body finally: cleanup].  The cleanup runs on every outcome of the
    body; when the cleanup itself raises or exits, that replaces the
    outcome of the body. *)
Definition try_finally {A} (body : M A) (cleanup : M unit) : M A :=
  fun w =>
    match body w with
    | (o, w1) =>
        match cleanup w1 with
        | (Ret _, w2) => (o, w2)
        | (Raise e, w2) => (Raise e, w2)
        | (Exit c, w2) => (Exit c, w2)
        end
    end.

Definition emit (e : event) : M unit := fun w =>
  (Ret tt, {| fs := fs w; cwd := cwd w; containers := containers w;
              trace := trace w ++ [e] |}).

Definition set_fs (f : gmap path node -> gmap path node) : M unit := fun w =>
  (Ret tt, {| fs := f (fs w); cwd := cwd w; containers := containers w;
              trace := trace w |}).

Definition set_cwd (p : path) : M unit := fun w =>
  (Ret tt, {| fs := fs w; cwd := p; containers := containers w;
              trace := trace w |}).

Definition set_containers (f : gset string -> gset string) : M unit := fun w =>
  (Ret tt, {| fs := fs w; cwd := cwd w; containers := f (containers w);
              trace := trace w |}).

Definition get_fs : M (gmap path node) := fun w => (Ret (fs w), w).

(** [os.getcwd()], [Path.cwd()] *)
Definition getcwd : M path := fun w => (Ret (cwd w), w).

(** [print], and the four loggers (the colour codes are left out of the
    message) *)
Definition print (text : string) : M unit := emit (EvPrint text).
Definition log_info (message : string) : M unit := emit (EvLog INFO message).
Definition log_success (message : string) : M unit := emit (EvLog SUCCESS message).
Definition log_warning (message : string) : M unit := emit (EvLog WARNING message).
Definition log_error (message : string) : M unit := emit (EvLog ERROR message).

(** ** Filesystem helpers *)

(** The filesystem is a finite map from paths to files and (empty)
    directories; a path that leads to an entry is a directory without
    being an entry itself. *)

(** the entries at [d] and below it, and all the others *)
Definition beneath (d : path) (m : gmap path node) : gmap path node :=
  filter (fun kv => d `prefix_of` kv.1) m.

Definition outside (d : path) (m : gmap path node) : gmap path node :=
  filter (fun kv => ¬ d `prefix_of` kv.1) m.

(** what is at [p]: a file, a directory, or nothing *)
Definition stat (m : gmap path node) (p : path) : option node :=
  match m !! p with
  | Some n => Some n
  | None => if decide (beneath p m = ∅) then None else Some Dir
  end.

Definition write_tree (target : path) (entries : list (path * node))
    (m : gmap path node) : gmap path node :=
  foldl (fun acc kv => <[target ++ kv.1 := kv.2]> acc) m entries.

Definition move_tree (src dst : path) (m : gmap path node) : gmap path node :=
  write_tree dst
    (List.map (fun kv => (drop (length src) kv.1, kv.2))
       (List.filter (fun kv => bool_decide (src `prefix_of` kv.1)) (map_to_list m)))
    (outside src m).

Section Script.
Context (env : Env).

(** records the operation, then raises what the environment says *)
Definition attempt (o : op) : M unit := fun w =>
  match emit (EvOp o) w with
  | (_, w1) =>
      match fault env o with
      | Some e => (Raise e, w1)
      | None => (Ret tt, w1)
      end
  end.

(** [p.exists()] *)
Definition exists_ (p : path) : M bool := fun w =>
  (Ret (bool_decide (is_Some (stat (fs w) p))), w).

(** [urllib.request.urlretrieve(url, destination)] *)
Definition urlretrieve (url : string) (destination : path) : M unit :=
  emit (EvOp (Urlretrieve url destination));;
  match fault env (Urlretrieve url destination) with
  | Some e =>
      match truncated env url with
      | Some bytes => set_fs (insert destination (File bytes))
      | None => mret tt
      end;;
      raise e
  | None => set_fs (insert destination (File (remote env url)))
  end.

(** [with tarfile.open(archive, mode) as tar: tar.extractall(extract_to)] *)
Definition tar_extractall (mode : string) (archive extract_to : path) : M unit :=
  emit (EvOp (TarExtract mode archive extract_to));;
  m ← get_fs;
  match stat m archive with
  | Some (File bytes) =>
      set_fs (write_tree extract_to (members env mode bytes));;
      match fault env (TarExtract mode archive extract_to) with
      | Some e => raise e
      | None => mret tt
      end
  | _ => raise (Exn FileNotFoundError (path_str archive))
  end.

(** [with zipfile.ZipFile(archive, "r") as z: z.extractall(extract_to)] *)
Definition zip_extractall (archive extract_to : path) : M unit :=
  emit (EvOp (ZipExtract archive extract_to));;
  m ← get_fs;
  match stat m archive with
  | Some (File bytes) =>
      set_fs (write_tree extract_to (members env "zip" bytes));;
      match fault env (ZipExtract archive extract_to) with
      | Some e => raise e
      | None => mret tt
      end
  | _ => raise (Exn FileNotFoundError (path_str archive))
  end.

(** [subprocess.run(cmd, capture_output=True, ...)] *)
Definition subprocess_run (cmd : list string) (path_front : option path)
    : M (Z * string * string) :=
  d ← getcwd;
  attempt (Run cmd d path_front);;
  mret (completed env cmd d path_front).

(** [subprocess.run(cmd, capture_output=True, check=True)] *)
Definition subprocess_run_check (cmd : list string) : M (Z * string * string) :=
  r ← subprocess_run cmd None;
  if decide (r.1.1 = 0) then mret r
  else raise (Exn CalledProcessError "non-zero exit status").

(** [p.unlink()], [os.unlink(p)] *)
Definition unlink (p : path) : M unit :=
  attempt (Unlink p);;
  m ← get_fs;
  match stat m p with
  | Some (File _) => set_fs (delete p)
  | Some Dir => raise (Exn OtherError "Is a directory")
  | None => raise (Exn FileNotFoundError (path_str p))
  end.

(** [shutil.rmtree(p)] *)
Definition rmtree (p : path) : M unit :=
  attempt (Rmtree p);;
  m ← get_fs;
  match stat m p with
  | Some Dir => set_fs (outside p)
  | Some (File _) => raise (Exn OtherError "Not a directory")
  | None => raise (Exn FileNotFoundError (path_str p))
  end.

(** [p.mkdir(exist_ok=True)], [p.mkdir(parents=True, exist_ok=True)]:
    directories above [p] are not tracked *)
Definition mkdir (p : path) : M unit :=
  attempt (Mkdir p);;
  m ← get_fs;
  match stat m p with
  | Some (File _) => raise (Exn OtherError "File exists")
  | Some Dir => mret tt
  | None => set_fs (insert p Dir)
  end.

(** [src.rename(dst)] *)
Definition rename (src dst : path) : M unit :=
  attempt (Rename src dst);;
  m ← get_fs;
  match stat m src with
  | Some _ => set_fs (move_tree src dst)
  | None => raise (Exn FileNotFoundError (path_str src))
  end.

(** [shutil.move(src, dst)] *)
Definition move (src dst : path) : M unit :=
  attempt (Move src dst);;
  m ← get_fs;
  match stat m src with
  | Some _ =>
      match stat m dst with
      | Some Dir => set_fs (move_tree src (dst // name src))
      | _ => set_fs (move_tree src dst)
      end
  | None => raise (Exn FileNotFoundError (path_str src))
  end.

(** [shutil.copy2(src, dst)] *)
Definition copy2 (src dst : path) : M unit :=
  attempt (Copy2 src dst);;
  m ← get_fs;
  match stat m src with
  | Some (File bytes) =>
      (* a [dst] that is a directory takes the file under its own name *)
      let target := match stat m dst with
                    | Some Dir => dst // name src
                    | _ => dst
                    end in
      match stat m target with
      | Some Dir => raise (Exn OtherError "Is a directory")
      | _ => set_fs (insert target (File bytes))
      end
  | Some Dir => raise (Exn OtherError "Is a directory")
  | None => raise (Exn FileNotFoundError (path_str src))
  end.

(** [p.chmod(0o755)]: permission bits are not tracked *)
Definition chmod (p : path) : M unit := attempt (Chmod p).

(** [os.chdir(p)] *)
Definition chdir (p : path) : M unit :=
  attempt (Chdir p);;
  set_cwd p.

(** [with open(p, "r", encoding="utf-8") as f: f.read()] *)
Definition read_text (p : path) : M string :=
  attempt (Read p);;
  m ← get_fs;
  match stat m p with
  | Some (File bytes) => mret bytes
  | Some Dir => raise (Exn OtherError "Is a directory")
  | None => raise (Exn FileNotFoundError (path_str p))
  end.

(** [with open(p, "w", encoding="utf-8") as f: f.write(content)] *)
Definition write_text (p : path) (content : string) : M unit :=
  attempt (Write p);;
  m ← get_fs;
  match stat m p with
  | Some Dir => raise (Exn OtherError "Is a directory")
  | _ => set_fs (insert p (File content))
  end.

(** ** The script *)

(** lines 53-66 *)
Definition download_file (url : string) (destination : path) (pull_always : bool)
    : M unit :=
  present ← exists_ destination;
  if present && negb pull_always then
    log_info ("File " +:+ name destination +:+ " already exists, skipping download")
  else
    log_info ("Downloading " +:+ url +:+ " to " +:+ path_str destination);;
    try_except
      (urlretrieve url destination;;
       log_success ("Downloaded " +:+ name destination))
      (fun e =>
         log_error ("Failed to download " +:+ url +:+ ": " +:+ exn_msg e);;
         sys_exit 1).

(** lines 69-78 *)
Definition extract_tar_gz (archive_path extract_to : path) : M unit :=
  log_info ("Extracting " +:+ name archive_path +:+ " to " +:+ path_str extract_to);;
  try_except
    (tar_extractall "r:gz" archive_path extract_to;;
     log_success ("Extracted " +:+ name archive_path))
    (fun e =>
       log_error ("Failed to extract " +:+ path_str archive_path +:+ ": " +:+ exn_msg e);;
       sys_exit 1).

(** lines 81-90 *)
Definition extract_tar_xz (archive_path extract_to : path) : M unit :=
  log_info ("Extracting " +:+ name archive_path +:+ " to " +:+ path_str extract_to);;
  try_except
    (tar_extractall "r:xz" archive_path extract_to;;
     log_success ("Extracted " +:+ name archive_path))
    (fun e =>
       log_error ("Failed to extract " +:+ path_str archive_path +:+ ": " +:+ exn_msg e);;
       sys_exit 1).

(** lines 93-102 *)
Definition extract_zip (archive_path extract_to : path) : M unit :=
  log_info ("Extracting " +:+ name archive_path +:+ " to " +:+ path_str extract_to);;
  try_except
    (zip_extractall archive_path extract_to;;
     log_success ("Extracted " +:+ name archive_path))
    (fun e =>
       log_error ("Failed to extract " +:+ path_str archive_path +:+ ": " +:+ exn_msg e);;
       sys_exit 1).

(** the two commands [validate_signature] runs *)
Definition minisign_probe : list string := ["minisign"; "-v"].
Definition minisign_verify (key_file_path archive_path : path) : list string :=
  ["minisign"; "-V"; "-p"; path_str key_file_path; "-m"; path_str archive_path].

(** lines 121-148: the body of the [try] *)
Definition validate_signature_body (archive_path : path) (public_key : string)
    : M bool :=
  (* with tempfile.NamedTemporaryFile(mode="w", suffix=".pub", delete=False) *)
  attempt NamedTemporaryFile;;
  set_fs (insert (tmp_key_file env) (File ""));;
  write_text (tmp_key_file env) public_key;;
  let key_file_path := tmp_key_file env in
  log_info ("Using public key: " +:+ String.substring 0 50 public_key +:+ "...");;
  result ← subprocess_run (minisign_verify key_file_path archive_path) None;
  unlink key_file_path;;
  if decide (result.1.1 = 0) then
    log_success "Signature validation passed";;
    mret true
  else
    log_error ("Signature validation failed: " +:+ result.2);;
    log_error ("minisign stdout: " +:+ result.1.2);;
    mret false.

(** lines 105-152 *)
Definition validate_signature (archive_path signature_path : path)
    (public_key : string) : M bool :=
  log_info "Validating signature...";;
  try_except_if
    (fun e => bool_decide (exn_kind_of e = CalledProcessError
                           ∨ exn_kind_of e = FileNotFoundError))
    (subprocess_run_check minisign_probe;; mret tt)
    (fun _ =>
       log_error "minisign is not installed. Please install it to validate signatures.";;
       log_info "Install with: sudo dnf install minisign";;
       sys_exit 1);;
  try_except
    (validate_signature_body archive_path public_key)
    (fun e =>
       log_error ("Error during signature validation: " +:+ exn_msg e);;
       mret false).

(** lines 155-202 *)
Definition setup_zig (compiler_dir : path) (zig_version : string)
    (pull_always : bool) : M unit :=
  let zig_binary := compiler_dir // "zig" in
  present ← exists_ zig_binary;
  if present && negb pull_always then
    log_info "Zig compiler already exists, skipping download"
  else
    log_info ("Setting up Zig compiler version " +:+ zig_version +:+ "...");;
    mkdir compiler_dir;;
    let zig_url := "https://ziglang.org/download/" +:+ zig_version
                   +:+ "/zig-x86_64-linux-" +:+ zig_version +:+ ".tar.xz" in
    let zig_archive := compiler_dir // "zig.tar.xz" in
    download_file zig_url zig_archive pull_always;;
    extract_tar_xz zig_archive compiler_dir;;
    let extracted_dir := compiler_dir // ("zig-x86_64-linux-" +:+ zig_version) in
    extracted ← exists_ extracted_dir;
    (if (extracted : bool) then
       let zig_src := extracted_dir // "zig" in
       has_zig ← exists_ zig_src;
       (if (has_zig : bool) then rename zig_src zig_binary else mret tt);;
       let lib_src := extracted_dir // "lib" in
       let lib_dst := compiler_dir // "lib" in
       has_lib ← exists_ lib_src;
       (if (has_lib : bool) then
          has_dst ← exists_ lib_dst;
          (if (has_dst : bool) then rmtree lib_dst else mret tt);;
          rename lib_src lib_dst
        else mret tt);;
       rmtree extracted_dir
     else mret tt);;
    unlink zig_archive;;
    log_success "Zig compiler setup complete".

(** the command [build_ghostty] runs *)
Definition zig_build : list string :=
  ["zig"; "build"; "-p"; path_str (home env // ".local"); "-Doptimize=ReleaseFast"].

(** lines 217-237: the body of the [try] *)
Definition build_ghostty_body (compiler_dir : path) : M unit :=
  result ← subprocess_run zig_build (Some compiler_dir);
  set_fs (zig_build_effect env);;
  if decide (result.1.1 ≠ 0) then
    log_error "Build failed!";;
    log_error result.2;;
    sys_exit 1
  else
    log_success "Build completed successfully".

(** lines 205-240 *)
Definition build_ghostty (ghostty_dir compiler_dir : path) : M unit :=
  log_info "Building Ghostty...";;
  original_cwd ← getcwd;
  chdir ghostty_dir;;
  try_finally
    (build_ghostty_body compiler_dir)
    (chdir original_cwd).

(** the three artifacts of an installation *)
Definition ghostty_binary : path := home env // ".local" // "bin" // "ghostty".
Definition app_desktop : path :=
  home env // ".local" // "share" // "applications" // "ghostty.desktop".
Definition dolphin_desktop : path :=
  home env // ".local" // "share" // "kio" // "servicemenus"
    // "com.mitchellh.ghostty.desktop".

(** lines 254-289 *)
Definition install_app_desktop_file (ghostty_dir : path) : M unit :=
  log_info "Installing application desktop file...";;
  let source_desktop := ghostty_dir // "dist" // "linux" // "app.desktop.in" in
  present ← exists_ source_desktop;
  if negb present then
    log_error ("Desktop file not found at " +:+ path_str source_desktop)
  else
    let applications_dir := home env // ".local" // "share" // "applications" in
    mkdir applications_dir;;
    let dest_desktop := applications_dir // "ghostty.desktop" in
    try_except
      (content ← read_text source_desktop;
       let ghostty_path := path_str (home env // ".local" // "bin" // "ghostty") in
       let content := replace "@GHOSTTY@" ghostty_path content in
       let content := replace "@NAME@" "Ghostty" content in
       let content := replace "@APPID@" "com.mitchellh.ghostty" content in
       write_text dest_desktop content;;
       log_success ("Application desktop file installed to " +:+ path_str dest_desktop))
      (fun e =>
         log_error ("Failed to install application desktop file: " +:+ exn_msg e)).

(** lines 292-318 *)
Definition install_dolphin_desktop_file (ghostty_dir : path) : M unit :=
  log_info "Installing Dolphin service menu desktop file...";;
  let source_desktop := ghostty_dir // "dist" // "linux" // "ghostty_dolphin.desktop" in
  present ← exists_ source_desktop;
  if negb present then
    log_error ("Dolphin desktop file not found at " +:+ path_str source_desktop)
  else
    let kio_dir := home env // ".local" // "share" // "kio" // "servicemenus" in
    mkdir kio_dir;;
    let dest_desktop := kio_dir // "com.mitchellh.ghostty.desktop" in
    try_except
      (copy2 source_desktop dest_desktop;;
       log_success ("Dolphin service menu desktop file installed to "
                    +:+ path_str dest_desktop))
      (fun e =>
         log_error ("Failed to install Dolphin service menu desktop file: "
                    +:+ exn_msg e)).

(** lines 243-251 *)
Definition install_desktop_file (ghostty_dir : path) : M unit :=
  log_info "Installing desktop files...";;
  install_app_desktop_file ghostty_dir;;
  install_dolphin_desktop_file ghostty_dir.

(** One of the three blocks of lines 328-372: remove [p] if it is there,
    and append to [removed_items] or to [failed_items]. *)
Definition remove_item (label what : string) (p : path)
    (items : list string * list string) : M (list string * list string) :=
  present ← exists_ p;
  if (present : bool) then
    try_except
      (unlink p;;
       let removed_items := items.1 ++ [label +:+ ": " +:+ path_str p] in
       log_success ("Removed " +:+ what +:+ ": " +:+ path_str p);;
       mret (removed_items, items.2))
      (fun e =>
         let failed_items :=
           items.2 ++ [label +:+ ": " +:+ path_str p +:+ " (" +:+ exn_msg e +:+ ")"] in
         log_error ("Failed to remove " +:+ what +:+ " " +:+ path_str p
                    +:+ ": " +:+ exn_msg e);;
         mret (items.1, failed_items))
  else
    log_info (label +:+ " not found, skipping removal");;
    mret items.

(** lines 325-372: the three removals; returns [removed_items] and
    [failed_items] *)
Definition uninstall_items : M (list string * list string) :=
  items ← remove_item "Binary" "binary" ghostty_binary ([], []);
  items ← remove_item "Application desktop file" "application desktop file"
            app_desktop items;
  remove_item "Dolphin service menu" "Dolphin service menu" dolphin_desktop items.

(** [for item in items: log(f"  - {item}")] *)
Fixpoint log_items (log : string -> M unit) (items : list string) : M unit :=
  match items with
  | [] => mret tt
  | item :: rest => log ("  - " +:+ item);; log_items log rest
  end.

(** lines 321-389 *)
Definition uninstall_ghostty : M unit :=
  log_info "Uninstalling Ghostty...";;
  items ← uninstall_items;
  let removed_items := items.1 in
  let failed_items := items.2 in
  (if bool_decide (removed_items ≠ []) then
     log_success ("Successfully removed " +:+ pretty (length removed_items)
                  +:+ " items:");;
     log_items log_info removed_items
   else mret tt);;
  (if bool_decide (failed_items ≠ []) then
     log_error ("Failed to remove " +:+ pretty (length failed_items) +:+ " items:");;
     log_items log_error failed_items;;
     sys_exit 1
   else mret tt);;
  if bool_decide (removed_items = []) && bool_decide (failed_items = []) then
    log_warning "No Ghostty artifacts found to remove"
  else
    log_success "Ghostty uninstallation completed successfully".

(** lines 392-406 *)
Definition verify_build : M bool :=
  let local_dir := home env // ".local" in
  let bin_dir := local_dir // "bin" in
  log_info "Verifying build artifacts...";;
  let ghostty_binary := bin_dir // "ghostty" in
  present ← exists_ ghostty_binary;
  if (present : bool) then
    log_success ("Ghostty binary found at " +:+ path_str ghostty_binary);;
    mret true
  else
    log_error ("Ghostty binary not found at " +:+ path_str ghostty_binary);;
    mret false.

(** lines 409-419 *)
Definition check_podman : M bool :=
  try_except_if
    (fun e => bool_decide (exn_kind_of e = CalledProcessError
                           ∨ exn_kind_of e = FileNotFoundError))
    (subprocess_run_check ["podman"; "--version"];;
     mret true)
    (fun _ =>
       log_error "podman is not installed. Please install it to use --container";;
       log_info "Install with: sudo dnf install podman";;
       mret false).

(** [subprocess.run(["podman", "cp", src, str(target)], ...)]: a copy that
    exits 0 has put the tree at [src] under [target] *)
Definition podman_cp (src : string) (target : path) : M (Z * string * string) :=
  result ← subprocess_run ["podman"; "cp"; src; path_str target] None;
  (if decide (result.1.1 = 0)
   then set_fs (write_tree target (container_tree env src))
   else mret tt);;
  mret result.

(** [subprocess.run(["podman", "create", "--name", name, image], ...)] *)
Definition podman_create (container_name image : string) : M (Z * string * string) :=
  result ← subprocess_run ["podman"; "create"; "--name"; container_name; image] None;
  (if decide (result.1.1 = 0)
   then set_containers (fun c => {[container_name]} ∪ c)
   else mret tt);;
  mret result.

(** [subprocess.run(["podman", "rm", name], capture_output=True)] *)
Definition podman_rm (container_name : string) : M (Z * string * string) :=
  result ← subprocess_run ["podman"; "rm"; container_name] None;
  (if decide (result.1.1 = 0)
   then set_containers (fun c => c ∖ {[container_name]})
   else mret tt);;
  mret result.

(** lines 422-470 *)
Definition extract_artifacts_from_container (container_name version : string)
    (temp_dir : path) : M (path * path) :=
  log_info "Extracting binary from container...";;
  let binary_path := temp_dir // "ghostty" in
  result ← podman_cp (container_name +:+ ":/build/output/bin/ghostty") binary_path;
  (if decide (result.1.1 ≠ 0) then
     log_error ("Failed to extract binary from container: " +:+ result.2);;
     raise (Exn RuntimeError "Binary extraction failed")
   else mret tt);;
  log_success "Binary extracted successfully";;
  log_info "Extracting desktop files from container...";;
  let dist_dir := temp_dir // "dist" in
  result ← podman_cp (container_name +:+ ":/build/ghostty-" +:+ version +:+ "/dist")
             dist_dir;
  (if decide (result.1.1 ≠ 0) then
     log_error ("Failed to extract desktop files from container: " +:+ result.2);;
     raise (Exn RuntimeError "Desktop files extraction failed")
   else mret tt);;
  log_success "Desktop files extracted successfully";;
  mret (binary_path, dist_dir).

(** lines 495-510 *)
Definition build_cmd (version zig_version : string) (no_cache : bool) : list string :=
  let build_cmd :=
    ["podman"; "build"; "-t"; "ghostty-builder:" +:+ version;
     "--build-arg"; "GHOSTTY_VERSION=" +:+ version;
     "--build-arg"; "ZIG_VERSION=" +:+ zig_version;
     "-f"; "Containerfile"; "."] in
  if no_cache then take 2 build_cmd ++ ["--no-cache"] ++ drop 2 build_cmd
  else build_cmd.

(** lines 552-575: the body of the inner [try] *)
Definition container_install (container_name version : string) (temp_dir : path)
    : M unit :=
  '(binary_path, dist_dir) ←
    extract_artifacts_from_container container_name version temp_dir;
  log_info "Installing binary to ~/.local/bin...";;
  let bin_dir := home env // ".local" // "bin" in
  mkdir bin_dir;;
  let dest_binary := bin_dir // "ghostty" in
  copy2 binary_path dest_binary;;
  chmod dest_binary;;
  log_success ("Binary installed to " +:+ path_str dest_binary);;
  log_info "Installing desktop files...";;
  let ghostty_temp_dir := temp_dir // "ghostty-source" in
  mkdir ghostty_temp_dir;;
  move dist_dir (ghostty_temp_dir // "dist");;
  install_desktop_file ghostty_temp_dir.

(** lines 577-584: the inner [finally] *)
Definition container_cleanup (container_name : string) : M unit :=
  log_info "Cleaning up container...";;
  podman_rm container_name;;
  log_success "Container removed".

(** lines 586-589: the outer [finally] *)
Definition temp_dir_cleanup (temp_dir : path) : M unit :=
  present ← exists_ temp_dir;
  if (present : bool) then rmtree temp_dir else mret tt.

(** lines 532-589: the outer [try] with its [finally] *)
Definition container_extract (container_name version : string) (temp_dir : path)
    : M unit :=
  try_finally
    (log_info "Creating temporary container for artifact extraction...";;
     result ← podman_create container_name ("ghostty-builder:" +:+ version);
     (if decide (result.1.1 ≠ 0) then
        log_error ("Failed to create container: " +:+ result.2);;
        sys_exit 1
      else mret tt);;
     try_finally
       (container_install container_name version temp_dir)
       (container_cleanup container_name))
    (temp_dir_cleanup temp_dir).

(** [tempfile.mkdtemp(prefix="ghostty-container-")] *)
Definition mkdtemp : M path :=
  attempt Mkdtemp;;
  set_fs (insert (tmp_dir env) Dir);;
  mret (tmp_dir env).

(** lines 481-523: the checks and the image build *)
Definition container_image (version zig_version : string) (no_cache : bool)
    : M unit :=
  available ← check_podman;
  (if negb available then sys_exit 1 else mret tt);;
  here ← getcwd;
  let containerfile := here // "Containerfile" in
  present ← exists_ containerfile;
  (if negb present then
     log_error ("Containerfile not found at " +:+ path_str containerfile);;
     log_error "Please ensure Containerfile is in the current directory";;
     sys_exit 1
   else mret tt);;
  log_info ("Building Ghostty " +:+ version +:+ " using container with Zig "
            +:+ zig_version +:+ "...");;
  log_info "Building container image (this may take a few minutes)...";;
  result ← subprocess_run (build_cmd version zig_version no_cache) None;
  (if decide (result.1.1 ≠ 0) then
     log_error "Container build failed!";;
     (if decide (result.1.2 ≠ "") then print result.1.2 else mret tt);;
     (if decide (result.2 ≠ "") then print result.2 else mret tt);;
     sys_exit 1
   else mret tt);;
  log_success "Container image built successfully".

(** line 527 *)
Definition container_name : string := "ghostty-extract-" +:+ random_suffix env.

(** lines 473-597 *)
Definition build_ghostty_container (version zig_version : string) (no_cache : bool)
    : M unit :=
  container_image version zig_version no_cache;;
  let container_name := container_name in
  temp_dir ← mkdtemp;
  container_extract container_name version temp_dir;;
  ok ← verify_build;
  if (ok : bool) then
    log_success "Container build verification passed!";;
    log_info "Ghostty has been successfully built and installed to $HOME/.local"
  else
    log_error "Container build verification failed!";;
    sys_exit 1.

(** the parsed command line, lines 665-673 *)
Record Args := {
  version : string;
  uninstall : bool;
  container : bool;
  zig_version : string;
  no_cache : bool;
  pull_always : bool;
  skip_signature : bool;
  skip_build : bool
}.

(** line 703 *)
Definition public_key : string :=
  "untrusted comment: minisign public key 0x23149WL2sEpT" +:+ String (Ascii.ascii_of_nat 10) ""
  +:+ "RWQlAjJC23149WL2sEpT/l0QKy7hMIFhYdQOFy0Z7z7PbneUgvlsnYcV".

(** lines 681-698: the container path *)
Definition main_container (args : Args) : M unit :=
  (if skip_build args
   then log_warning "--skip-build ignored when using --container" else mret tt);;
  (if skip_signature args
   then log_warning
          "--skip-signature ignored when using --container (signature always verified)"
   else mret tt);;
  (if pull_always args
   then log_warning
          "--pull-always ignored when using --container (always downloads fresh)"
   else mret tt);;
  (if no_cache args
   then log_info "Using --no-cache: container will be rebuilt without cache"
   else mret tt);;
  build_ghostty_container (version args) (zig_version args) (no_cache args).

(** lines 700-718: the release archive and its signature; returns
    [ghostty_archive] and [signature_file] *)
Definition main_fetch (args : Args) : M (path * path) :=
  log_info ("Building Ghostty version " +:+ version args);;
  let ghostty_url := "https://release.files.ghostty.org/" +:+ version args
                     +:+ "/ghostty-" +:+ version args +:+ ".tar.gz" in
  here ← getcwd;
  let ghostty_archive := here // ("ghostty-" +:+ version args +:+ ".tar.gz") in
  download_file ghostty_url ghostty_archive (pull_always args);;
  let signature_url := "https://release.files.ghostty.org/" +:+ version args
                       +:+ "/ghostty-" +:+ version args +:+ ".tar.gz.minisig" in
  here ← getcwd;
  let signature_file := here // ("ghostty-" +:+ version args +:+ ".tar.gz.minisig") in
  download_file signature_url signature_file (pull_always args);;
  mret (ghostty_archive, signature_file).

(** lines 720-726: the signature gate *)
Definition main_verify (args : Args) (ghostty_archive signature_file : path)
    : M unit :=
  if skip_signature args then
    log_warning "Skipping signature validation (not recommended)"
  else
    valid ← validate_signature ghostty_archive signature_file public_key;
    if negb valid then
      log_error "Signature validation failed, aborting build";;
      sys_exit 1
    else mret tt.

(** lines 728-735: the clean extraction; returns [ghostty_dir] *)
Definition main_extract (args : Args) (ghostty_archive : path) : M path :=
  here ← getcwd;
  let ghostty_dir := here // ("ghostty-" +:+ version args) in
  present ← exists_ ghostty_dir;
  (if (present : bool) then rmtree ghostty_dir else mret tt);;
  here ← getcwd;
  extract_tar_gz ghostty_archive here;;
  mret ghostty_dir.

(** lines 737-760 *)
Definition main_build (args : Args) (ghostty_dir : path) : M unit :=
  if skip_build args then
    log_info "Skipping build and installation steps";;
    log_success ("Ghostty source code extracted to " +:+ path_str ghostty_dir);;
    log_info "Use the script without --skip-build to build and install Ghostty"
  else
    here ← getcwd;
    let compiler_dir := here // "compiler" in
    setup_zig compiler_dir (zig_version args) (pull_always args);;
    build_ghostty ghostty_dir compiler_dir;;
    install_desktop_file ghostty_dir;;
    ok ← verify_build;
    if (ok : bool) then
      log_success "Build verification passed!";;
      log_info "Ghostty has been successfully built and installed to $HOME/.local"
    else
      log_error "Build verification failed!";;
      sys_exit 1.

(** lines 700-760: the local path *)
Definition main_local (args : Args) : M unit :=
  '(ghostty_archive, signature_file) ← main_fetch args;
  main_verify args ghostty_archive signature_file;;
  ghostty_dir ← main_extract args ghostty_archive;
  main_build args ghostty_dir.

(** lines 666-760: [main] once the command line is parsed *)
Definition main (args : Args) : M unit :=
  if uninstall args then uninstall_ghostty
  else if container args then main_container args
  else main_local args.

End Script.

(** The exit status of the process: 0 when [main] returns, the argument of
    [sys.exit], and 1 for an exception nobody caught. *)
Definition exit_status {A} (o : outcome A) : Z :=
  match o with
  | Ret _ => 0
  | Exit code => code
  | Raise _ => 1
  end.

Definition run_script (env : Env) (args : Args) (w : World) : Z * World :=
  match main env args w with
  | (o, w') => (exit_status o, w')
  end.

(** ** The command line *)

(** What [parser.parse_args()] of line 665 makes of the command line,
    with the parser of lines 602-663: the namespace with the eight
    attributes; or, for [-h] and [--help], the help text, printed before
    the process exits with status 0; or, for a command line the parser
    rejects, the usage and the error message, printed before the process
    exits with status 2. *)
Inductive parsed :=
  | Namespace (args : Args)
  | HelpRequested (text : string)
  | Rejected (message : string).

(** lines 602-665 *)
Definition parse_args (argparse : list string -> parsed) (argv : list string)
    : M Args :=
  match argparse argv with
  | Namespace args => mret args
  | HelpRequested text => print text;; sys_exit 0
  | Rejected message => print message;; sys_exit 2
  end.

(** lines 600-760: [main()] from the command line on *)
Definition main_argv (env : Env) (argparse : list string -> parsed)
    (argv : list string) : M unit :=
  args ← parse_args argparse argv;
  main env args.

Definition run_command (env : Env) (argparse : list string -> parsed)
    (argv : list string) (w : World) : Z * World :=
  match main_argv env argparse argv w with
  | (o, w') => (exit_status o, w')
  end.

(** ** Sample environments and worlds *)

Definition no_fault : op -> option exn := fun _ => None.

Definition fault_at (o : op) (e : exn) : op -> option exn :=
  fun o' => if decide (o' = o) then Some e else None.

(** a release archive with a source tree, a working toolchain, a container
    that holds the same tree *)
Definition sample_env (faults : op -> option exn)
    (exit_of : list string -> Z) : Env :=
  {| home := ["home"; "user"];
     fault := faults;
     remote := fun url => "bytes of " +:+ url;
     truncated := fun _ => Some "byt";
     members := fun mode bytes =>
       [ (["ghostty-1.2.0"], Dir);
         (["ghostty-1.2.0"; "build.zig"], File "build");
         (["ghostty-1.2.0"; "dist"; "linux"; "app.desktop.in"],
          File "Exec=@GHOSTTY@ Name=@NAME@ Id=@APPID@");
         (["ghostty-1.2.0"; "dist"; "linux"; "ghostty_dolphin.desktop"],
          File "dolphin") ];
     completed := fun cmd _ _ => (exit_of cmd, "out", "err");
     zig_build_effect := insert ["home"; "user"; ".local"; "bin"; "ghostty"] (File "ELF");
     container_tree := fun src =>
       if String.eqb src "ghostty-extract-k3x9q2m7:/build/output/bin/ghostty"
       then [ ([], File "ELF") ]
       else [ ([], Dir); (["linux"], Dir);
              (["linux"; "app.desktop.in"],
               File "Exec=@GHOSTTY@ Name=@NAME@ Id=@APPID@");
              (["linux"; "ghostty_dolphin.desktop"], File "dolphin") ];
     tmp_key_file := ["tmp"; "tmpq1w2e3.pub"];
     tmp_dir := ["tmp"; "ghostty-container-r4t5"];
     random_suffix := "k3x9q2m7" |}.

Definition all_succeed : list string -> Z := fun _ => 0.

(** [minisign -V] exits with status 1, every other command with 0 *)
Definition verifier_rejects : list string -> Z := fun cmd =>
  if decide (cmd !! 1%nat = Some "-V") then 1 else 0.

(** [podman cp] exits with status 125, every other command with 0 *)
Definition copy_fails : list string -> Z := fun cmd =>
  if decide (cmd !! 1%nat = Some "cp") then 125 else 0.

(** everything works; the verifier rejects the archive; nothing can be
    copied out of the container *)
Definition quiet_env : Env := sample_env no_fault all_succeed.
Definition rejecting_env : Env := sample_env no_fault verifier_rejects.
Definition copy_failing_env : Env := sample_env no_fault copy_fails.

Definition sample_world (files : list (path * node)) : World :=
  {| fs := list_to_map files; cwd := ["work"]; containers := ∅; trace := [] |}.

Definition sample_args : Args :=
  {| version := "1.2.0"; uninstall := false; container := false;
     zig_version := "0.14.1"; no_cache := false; pull_always := false;
     skip_signature := false; skip_build := false |}.

Definition uninstall_args : Args :=
  {| version := "1.2.0"; uninstall := true; container := false;
     zig_version := "0.14.1"; no_cache := false; pull_always := false;
     skip_signature := false; skip_build := false |}.

Definition container_args : Args :=
  {| version := "1.2.0"; uninstall := false; container := true;
     zig_version := "0.14.1"; no_cache := true; pull_always := false;
     skip_signature := false; skip_build := false |}.

(** an empty working directory *)
Definition empty_world : World := sample_world [(["work"], Dir)].

(** a working directory with the container recipe *)
Definition recipe_world : World :=
  sample_world [(["work"], Dir); (["work"; "Containerfile"], File "FROM fedora")].

(** a working directory with the release archive and a stale source tree *)
Definition stale_world : World :=
  sample_world [(["work"], Dir);
                (["work"; "ghostty-1.2.0.tar.gz"], File "archive");
                (["work"; "ghostty-1.2.0"], Dir);
                (["work"; "ghostty-1.2.0"; "old.zig"], File "stale")].

(** ** More sample environments and worlds *)

(** [minisign] is not installed: starting it raises *)
Definition verifier_not_installed : op -> option exn :=
  fault_at (Run minisign_probe ["work"] None)
    (Exn FileNotFoundError "[Errno 2] No such file or directory: 'minisign'").

(** the connection drops while the release archive is fetched *)
Definition connection_lost : op -> option exn :=
  fault_at
    (Urlretrieve "https://release.files.ghostty.org/1.2.0/ghostty-1.2.0.tar.gz"
       ["work"; "ghostty-1.2.0.tar.gz"])
    (Exn OtherError "<urlopen error [Errno 104] Connection reset by peer>").

(** an environment whose [.tar.xz] archives hold a toolchain *)
Definition toolchain_env : Env :=
  {| home := ["home"; "user"];
     fault := no_fault;
     remote := fun url => "bytes of " +:+ url;
     truncated := fun _ => None;
     members := fun mode bytes =>
       if String.eqb mode "r:xz"
       then [ (["zig-x86_64-linux-0.14.1"], Dir);
              (["zig-x86_64-linux-0.14.1"; "zig"], File "zig ELF");
              (["zig-x86_64-linux-0.14.1"; "lib"], Dir);
              (["zig-x86_64-linux-0.14.1"; "lib"; "std.zig"], File "std") ]
       else [ (["ghostty-1.2.0"], Dir);
              (["ghostty-1.2.0"; "build.zig"], File "build") ];
     completed := fun cmd _ _ => (0, "out", "err");
     zig_build_effect := insert ["home"; "user"; ".local"; "bin"; "ghostty"] (File "ELF");
     container_tree := fun _ => [];
     tmp_key_file := ["tmp"; "tmpq1w2e3.pub"];
     tmp_dir := ["tmp"; "ghostty-container-r4t5"];
     random_suffix := "k3x9q2m7" |}.

(** the container flags, with the flags of a local build on top *)
Definition container_args_with_local_flags : Args :=
  {| version := "1.2.0"; uninstall := false; container := true;
     zig_version := "0.14.1"; no_cache := true; pull_always := true;
     skip_signature := true; skip_build := true |}.

(** a home directory with the binary installed *)
Definition installed_world : World :=
  sample_world [(["home"; "user"; ".local"; "bin"; "ghostty"], File "ELF")].

(** the container recipe, and the binary of an earlier release *)
Definition upgrade_world : World :=
  sample_world [(["work"], Dir);
                (["work"; "Containerfile"], File "FROM fedora");
                (["home"; "user"; ".local"; "bin"; "ghostty"],
                 File "ELF of 1.1.0")].

(** ** Vocabulary of the signature check *)

(** the probe [minisign -v] ran and exited with status 0 *)
Definition verifier_available (env : Env) (w : World) : Prop :=
  fault env (Run minisign_probe (cwd w) None) = None
  ∧ (completed env minisign_probe (cwd w) None).1.1 = 0.

(** one of the primitives in the [try] of [validate_signature] raises *)
Definition internal_error (env : Env) (archive_path : path) (w : World) : Prop :=
  is_Some (fault env NamedTemporaryFile)
  ∨ is_Some (fault env (Write (tmp_key_file env)))
  ∨ is_Some (fault env (Run (minisign_verify (tmp_key_file env) archive_path)
                          (cwd w) None))
  ∨ is_Some (fault env (Unlink (tmp_key_file env))).

(** the verifier's output is not valid UTF-8, so [subprocess.run(...,
    text=True)] raises while decoding it *)
Definition undecodable_output : op -> option exn :=
  fault_at
    (Run (minisign_verify ["tmp"; "tmpq1w2e3.pub"] ["work"; "ghostty-1.2.0.tar.gz"])
       ["work"] None)
    (Exn OtherError "'utf-8' codec can't decode byte 0xff in position 0").

(** ** Vocabulary of the uninstaller *)

(** the three artifacts, with the label the summary gives them *)
Definition artifacts (env : Env) : list (string * path) :=
  [ ("Binary", ghostty_binary env);
    ("Application desktop file", app_desktop env);
    ("Dolphin service menu", dolphin_desktop env) ].

(** What happens to one artifact, read off the filesystem and the
    environment: it is not there and is skipped, or [unlink] removes it,
    or [unlink] raises. *)
Inductive removal :=
  | Skipped
  | Removed
  | Failed (e : exn).

Definition removal_of (env : Env) (m : gmap path node) (p : path) : removal :=
  match stat m p with
  | None => Skipped
  | Some n =>
      match fault env (Unlink p) with
      | Some e => Failed e
      | None =>
          match n with
          | File _ => Removed
          | Dir => Failed (Exn OtherError "Is a directory")
          end
      end
  end.

(** the lines of [removed_items] and of [failed_items], and the files left *)
Definition removed_lines (env : Env) (m : gmap path node) : list string :=
  flat_map (fun a => match removal_of env m a.2 with
                     | Removed => [a.1 +:+ ": " +:+ path_str a.2]
                     | _ => []
                     end) (artifacts env).

Definition failed_lines (env : Env) (m : gmap path node) : list string :=
  flat_map (fun a => match removal_of env m a.2 with
                     | Failed e => [a.1 +:+ ": " +:+ path_str a.2
                                    +:+ " (" +:+ exn_msg e +:+ ")"]
                     | _ => []
                     end) (artifacts env).

Definition remaining (env : Env) (m : gmap path node) : gmap path node :=
  foldl (fun acc a => match removal_of env m a.2 with
                      | Removed => delete a.2 acc
                      | _ => acc
                      end) m (artifacts env).

(** ** Kinds of events *)

(** unpacking an archive *)
Definition is_extraction (e : event) : bool :=
  match e with
  | EvOp (TarExtract _ _ _) | EvOp (ZipExtract _ _) => true
  | _ => false
  end.

(** running the signature verifier *)
Definition is_validation (e : event) : bool :=
  match e with
  | EvOp (Run (program :: _) _ _) => String.eqb program "minisign"
  | _ => false
  end.

(** the run from [w] to [w'] adds events, all of them in [P] *)
Definition emitting (P : event -> Prop) (w w' : World) : Prop :=
  ∃ l, trace w' = trace w ++ l ∧ Forall P l.

(** the run from [w] to [w'] keeps [I] *)
Definition keeping (I : World -> Prop) (w w' : World) : Prop :=
  I w -> I w'.

(** ** Vocabulary of the extraction step *)

(** where [main] unpacks the release *)
Definition source_dir (args : Args) (w : World) : path :=
  cwd w // ("ghostty-" +:+ version args).

(** nothing is in the way of the extraction: there is no stale tree, or
    there is one and [shutil.rmtree] removes it *)
Definition stale_tree_removable (env : Env) (args : Args) (w : World) : Prop :=
  stat (fs w) (source_dir args w) = None
  ∨ (stat (fs w) (source_dir args w) = Some Dir
     ∧ fault env (Rmtree (source_dir args w)) = None).

(** ** Vocabulary of the container build *)

(** the temporary directory is there, and the process is still in the
    directory [c] *)
Definition temp_dir_intact (env : Env) (c : path) (w : World) : Prop :=
  fs w !! tmp_dir env = Some Dir ∧ cwd w = c.

(** the two commands around the life of the container instance *)
Definition create_cmd (env : Env) (version : string) : list string :=
  ["podman"; "create"; "--name"; container_name env; "ghostty-builder:" +:+ version].

Definition rm_cmd (env : Env) : list string :=
  ["podman"; "rm"; container_name env].

(** [podman create] ran in directory [c] and exited with status 0 *)
Definition container_created (env : Env) (version : string) (c : path) : Prop :=
  fault env (Run (create_cmd env version) c None) = None
  ∧ (completed env (create_cmd env version) c None).1.1 = 0.

(** [podman rm] runs in directory [c] and exits with status 0 *)
Definition container_removable (env : Env) (c : path) : Prop :=
  fault env (Run (rm_cmd env) c None) = None
  ∧ (completed env (rm_cmd env) c None).1.1 = 0.

(** ** Vocabulary of the descriptor installation *)

(** the application descriptor made from its template: the three
    substitutions of [install_app_desktop_file], in their order *)
Definition render (env : Env) (template : string) : string :=
  replace "@APPID@" "com.mitchellh.ghostty"
    (replace "@NAME@" "Ghostty"
       (replace "@GHOSTTY@" (path_str (ghostty_binary env)) template)).

(** the two descriptor sources of a source tree *)
Definition app_template (ghostty_dir : path) : path :=
  ghostty_dir // "dist" // "linux" // "app.desktop.in".
Definition dolphin_source (ghostty_dir : path) : path :=
  ghostty_dir // "dist" // "linux" // "ghostty_dolphin.desktop".

(** the success messages of the two installations *)
Definition app_installed (env : Env) : event :=
  EvLog SUCCESS ("Application desktop file installed to "
                 +:+ path_str (app_desktop env)).
Definition dolphin_installed (env : Env) : event :=
  EvLog SUCCESS ("Dolphin service menu desktop file installed to "
                 +:+ path_str (dolphin_desktop env)).

(** ** Reading a run *)

(** the events of a run from [w] to [w'] *)
Definition since (w w' : World) : list event :=
  drop (length (trace w)) (trace w').

(** how often an event occurs *)
Definition occurrences (e : event) (l : list event) : nat :=
  length (filter (eq e) l).

(** ** Vocabulary of the probes and of the container steps *)

(** the exception classes the two availability probes handle *)
Definition probe_handles (e : exn) : bool :=
  bool_decide (exn_kind_of e = CalledProcessError ∨ exn_kind_of e = FileNotFoundError).

Definition podman_probe : list string := ["podman"; "--version"].

(** the operations of a run, in their order *)
Definition operations (l : list event) : list op :=
  omap (fun e => match e with EvOp o => Some o | _ => None end) l.

(** the two copies out of the container *)
Definition cp_binary_cmd (container_name : string) (temp_dir : path) : list string :=
  ["podman"; "cp"; container_name +:+ ":/build/output/bin/ghostty";
   path_str (temp_dir // "ghostty")].
Definition cp_dist_cmd (container_name version : string) (temp_dir : path)
    : list string :=
  ["podman"; "cp"; container_name +:+ ":/build/ghostty-" +:+ version +:+ "/dist";
   path_str (temp_dir // "dist")].

(** [podman --version] ran and exited with status 0 *)
Definition podman_available (env : Env) (w : World) : Prop :=
  fault env (Run podman_probe (cwd w) None) = None
  ∧ (completed env podman_probe (cwd w) None).1.1 = 0.

(** [podman --version] could not be started, or exited with another status *)
Definition podman_missing (env : Env) (w : World) : Prop :=
  match fault env (Run podman_probe (cwd w) None) with
  | Some e => probe_handles e = true
  | None => (completed env podman_probe (cwd w) None).1.1 ≠ 0
  end.

(** [podman build] ran and exited with this status *)
Definition image_build_status (env : Env) (version zig_version : string)
    (no_cache : bool) (w : World) : option Z :=
  match fault env (Run (build_cmd version zig_version no_cache) (cwd w) None) with
  | Some _ => None
  | None =>
      Some (completed env (build_cmd version zig_version no_cache) (cwd w) None).1.1
  end.

(** ** Vocabulary of what a run touches and does *)

(** the run from [w] to [w'] stays in the working directory and leaves
    every path that is not [own] as it was *)
Definition untouched (own : path -> Prop) (w w' : World) : Prop :=
  cwd w' = cwd w ∧ ∀ p, ¬ own p -> fs w' !! p = fs w !! p.

(** an operation that starts no program, fetches nothing and deletes
    nothing *)
Definition quiet (o : op) : bool :=
  match o with
  | Run _ _ _ | Urlretrieve _ _ | Unlink _ | Rmtree _ => false
  | _ => true
  end.

(** the world [w] after another history: [t] in front of its trace *)
Definition with_trace (t : list event) (w : World) : World :=
  {| fs := fs w; cwd := cwd w; containers := containers w;
     trace := t ++ trace w |}.

(** [acts c P m]: started in the directory [c], [m] ends in [c], adds
    only events in [P], exits with status 1 if it exits, and does the
    same after any other history *)
Definition acts (c : path) (P : event -> Prop) {A} (m : M A) : Prop :=
  ∀ w o w', m w = (o, w') -> cwd w = c ->
    cwd w' = c
    ∧ emitting P w w'
    ∧ (∀ code, o = Exit code -> code = 1)
    ∧ ∀ t, m (with_trace t w) = (o, with_trace t w').

(** [ends c P m]: the same, except that only a run that returns is known
    to end in [c] *)
Definition ends (c : path) (P : event -> Prop) {A} (m : M A) : Prop :=
  ∀ w o w', m w = (o, w') -> cwd w = c ->
    emitting P w w'
    ∧ (∀ code, o = Exit code -> code = 1)
    ∧ (∀ a, o = Ret a -> cwd w' = c).

(** the files of a release, of the toolchain, and where [main] puts them *)
Definition release_url (version : string) : string :=
  "https://release.files.ghostty.org/" +:+ version
  +:+ "/ghostty-" +:+ version +:+ ".tar.gz".
Definition signature_url (version : string) : string :=
  "https://release.files.ghostty.org/" +:+ version
  +:+ "/ghostty-" +:+ version +:+ ".tar.gz.minisig".
Definition zig_url (zig_version : string) : string :=
  "https://ziglang.org/download/" +:+ zig_version
  +:+ "/zig-x86_64-linux-" +:+ zig_version +:+ ".tar.xz".
Definition release_archive (c : path) (version : string) : path :=
  c // ("ghostty-" +:+ version +:+ ".tar.gz").
Definition signature_file (c : path) (version : string) : path :=
  c // ("ghostty-" +:+ version +:+ ".tar.gz.minisig").

(** the programs started, the files fetched and the paths deleted by a
    local build in the directory [c] *)
Definition local_ops (env : Env) (args : Args) (c : path) : list op :=
  [ Urlretrieve (release_url (version args)) (release_archive c (version args));
    Urlretrieve (signature_url (version args)) (signature_file c (version args)) ]
  ++ (if skip_signature args then []
      else [ Run minisign_probe c None;
             Run (minisign_verify (tmp_key_file env)
                    (release_archive c (version args))) c None;
             Unlink (tmp_key_file env) ])
  ++ [ Rmtree (c // ("ghostty-" +:+ version args)) ]
  ++ (if skip_build args then []
      else [ Urlretrieve (zig_url (zig_version args))
               (c // "compiler" // "zig.tar.xz");
             Rmtree (c // "compiler" // "lib");
             Rmtree (c // "compiler"
                       // ("zig-x86_64-linux-" +:+ zig_version args));
             Unlink (c // "compiler" // "zig.tar.xz");
             Run (zig_build env) (c // ("ghostty-" +:+ version args))
               (Some (c // "compiler")) ]).

(** by a container build *)
Definition container_ops (env : Env) (args : Args) (c : path) : list op :=
  [ Run podman_probe c None;
    Run (build_cmd (version args) (zig_version args) (no_cache args)) c None;
    Run (create_cmd env (version args)) c None;
    Run (cp_binary_cmd (container_name env) (tmp_dir env)) c None;
    Run (cp_dist_cmd (container_name env) (version args) (tmp_dir env)) c None;
    Run (rm_cmd env) c None;
    Rmtree (tmp_dir env) ].

(** by the uninstaller *)
Definition uninstall_ops (env : Env) : list op :=
  [ Unlink (ghostty_binary env);
    Unlink (app_desktop env);
    Unlink (dolphin_desktop env) ].

Definition loud_ops (env : Env) (args : Args) (c : path) : list op :=
  if uninstall args then uninstall_ops env
  else if container args then container_ops env args c
  else local_ops env args c.

Definition permitted (env : Env) (args : Args) (c : path) (e : event) : Prop :=
  match e with
  | EvOp o => quiet o = true ∨ o ∈ loud_ops env args c
  | _ => True
  end.

(** the lines [main] logs for the flags a container build ignores *)
Definition container_notices (args : Args) : list event :=
  (if skip_build args
   then [EvLog WARNING "--skip-build ignored when using --container"] else [])
  ++ (if skip_signature args
      then [EvLog WARNING
              "--skip-signature ignored when using --container (signature always verified)"]
      else [])
  ++ (if pull_always args
      then [EvLog WARNING
              "--pull-always ignored when using --container (always downloads fresh)"]
      else [])
  ++ (if no_cache args
      then [EvLog INFO "Using --no-cache: container will be rebuilt without cache"]
      else []).

(** ** Vocabulary of the toolchain setup *)

(** the directory a toolchain archive unpacks into *)
Definition zig_dir (zig_version : string) : string :=
  "zig-x86_64-linux-" +:+ zig_version.

(** what is at the destination of [download_file] when it has returned:
    the file that was there, or what the URL serves *)
Definition fetched (env : Env) (url : string) (destination : path)
    (pull_always : bool) (m : gmap path node) : option node :=
  if bool_decide (is_Some (stat m destination)) && negb pull_always
  then m !! destination
  else Some (File (remote env url)).

(** an event that is neither of the two installation reports *)
Definition no_report (env : Env) (e : event) : Prop :=
  e ≠ app_installed env ∧ e ≠ dolphin_installed env.

(** ** Vocabulary of the two source trees *)

(** what the release archive with the content [bytes] has at [rel] below
    the [dist] directory of its source tree *)
Definition release_dist (env : Env) (args : Args) (bytes : string) (rel : path)
    : option node :=
  write_tree [] (members env "r:gz" bytes) ∅
    !! (("ghostty-" +:+ version args) :: "dist" :: rel).

(** what the container has at [rel] below the [dist] directory that is
    copied out of it *)
Definition container_dist (env : Env) (args : Args) (rel : path) : option node :=
  write_tree []
    (container_tree env
       (container_name env +:+ ":/build/ghostty-" +:+ version args +:+ "/dist"))
    ∅ !! rel.

(** the toolchain leaves [p] as it is *)
Definition build_keeps (env : Env) (p : path) : Prop :=
  ∀ m, zig_build_effect env m !! p = m !! p.

(** the descriptor tree has been copied below the temporary directory,
    and there is no source directory yet *)
Definition dist_copied (env : Env) (c v : string) (m : gmap path node) : Prop :=
  (∀ rel n,
     write_tree [] (container_tree env (c +:+ ":/build/ghostty-" +:+ v +:+ "/dist"))
       ∅ !! rel = Some n ->
     m !! ((tmp_dir env // "dist") ++ rel) = Some n)
  ∧ stat m (tmp_dir env // "ghostty-source") = None.

(** * Properties *)

Ltac unfold_monad :=
  unfold mbind, M_bind, mret, M_ret, try_except, try_except_if, try_finally,
    raise, sys_exit, log_info, log_success, log_warning, log_error, print,
    attempt, emit, set_fs, set_cwd, set_containers, get_fs, getcwd, exists_ in *.

Ltac decide_by_compute :=
  refine (bool_decide_unpack _ _); vm_compute; exact I.

Ltac since_simpl :=
  unfold since; cbn [trace fs cwd containers];
  rewrite <- ?(assoc_L (++)); rewrite ?drop_app_length; cbn [app].

Section Acquisition.
Context (env : Env).

(** C3: [download_file] with the destination present and no forced
    refresh transfers nothing, returns, and leaves the filesystem as it
    was; in every other case it transfers once from the URL to the
    destination, and a failed transfer ends the process with exit
    status 1. *)
Theorem download_file_fetch url destination pull_always w o w' :
  download_file env url destination pull_always w = (o, w') ->
  (is_Some (stat (fs w) destination) ∧ pull_always = false ->
     o = Ret tt ∧ fs w' = fs w
     ∧ ∀ u d, EvOp (Urlretrieve u d) ∉ since w w')
  ∧ (¬ (is_Some (stat (fs w) destination) ∧ pull_always = false) ->
     occurrences (EvOp (Urlretrieve url destination)) (since w w') = 1%nat
     ∧ (fault env (Urlretrieve url destination) = None ->
          o = Ret tt
          ∧ fs w' = <[destination := File (remote env url)]> (fs w))
     ∧ (∀ e, fault env (Urlretrieve url destination) = Some e ->
          o = Exit 1 ∧ exit_status o ≠ 0)).
Proof.
  intros Hrun. unfold download_file, urlretrieve in Hrun. unfold_monad.
  cbn in Hrun. split.
  - intros [Hsome ->]. case_bool_decide; [|done].
    cbn in Hrun. simplify_eq. repeat split.
    intros u d. since_simpl. rewrite list_elem_of_singleton. discriminate.
  - intros Hnot.
    assert (bool_decide (is_Some (stat (fs w) destination)) && negb pull_always = false)
      as Hcond.
    { apply not_true_is_false. intros [H1 H2]%andb_prop.
      apply Hnot. split; [by apply bool_decide_eq_true in H1|].
      by destruct pull_always. }
    rewrite Hcond in Hrun.
    destruct (fault env (Urlretrieve url destination)) as [e|] eqn:Hf;
      [destruct (truncated env url)|]; cbn in Hrun; simplify_eq;
      (split; [since_simpl; unfold occurrences; cbn;
               repeat (case_decide; simplify_eq; cbn); done|]);
      split; try done; intros; simplify_eq; done.
Qed.

End Acquisition.

(** [download_file_fetch] at a cached archive: nothing is transferred. *)
Lemma download_file_fetch_witness :
  let env := sample_env no_fault all_succeed in
  let w := sample_world [(["work"; "ghostty-1.2.0.tar.gz"], File "cached")] in
  let r := download_file env "https://release.files.ghostty.org/1.2.0/ghostty-1.2.0.tar.gz"
             ["work"; "ghostty-1.2.0.tar.gz"] false w in
  r.1 = Ret tt ∧ fs r.2 = fs w
  ∧ ∀ u d, EvOp (Urlretrieve u d) ∉ since w r.2.
Proof.
  intros env w r.
  refine (proj1 (download_file_fetch env _ _ false w r.1 r.2 _) _).
  - apply surjective_pairing.
  - split; [|reflexivity]. vm_compute. eauto.
Defined.

Section LocalBuild.
Context (env : Env).

(** C7: [build_ghostty] runs the toolchain with the source directory as
    working directory and, whatever the toolchain does (returns zero,
    returns non-zero so that the process exits with status 1, or cannot
    be started), ends by changing back to the directory it started in;
    unless that last [os.chdir] itself raises, the working directory is
    the original one again. *)
Theorem build_ghostty_restores_cwd ghostty_dir compiler_dir w o w' :
  build_ghostty env ghostty_dir compiler_dir w = (o, w') ->
  (fault env (Chdir ghostty_dir) = None ->
     EvOp (Run (zig_build env) ghostty_dir (Some compiler_dir)) ∈ since w w'
     ∧ (∀ cmd d front, EvOp (Run cmd d front) ∈ since w w' -> d = ghostty_dir)
     ∧ last (since w w') = Some (EvOp (Chdir (cwd w))))
  ∧ (fault env (Chdir (cwd w)) = None -> cwd w' = cwd w)
  ∧ (fault env (Chdir ghostty_dir) = None ->
     fault env (Run (zig_build env) ghostty_dir (Some compiler_dir)) = None ->
     (completed env (zig_build env) ghostty_dir (Some compiler_dir)).1.1 ≠ 0 ->
     fault env (Chdir (cwd w)) = None ->
     o = Exit 1 ∧ cwd w' = cwd w).
Proof.
  intros Hrun.
  unfold build_ghostty, build_ghostty_body, chdir, subprocess_run in Hrun.
  unfold_monad. cbn in Hrun.
  destruct (fault env (Chdir ghostty_dir)) as [e1|] eqn:Hin; cbn in Hrun.
  { simplify_eq. cbn. repeat split; intros; simplify_eq; done. }
  destruct (fault env (Run (zig_build env) ghostty_dir (Some compiler_dir)))
    as [e2|] eqn:Hzig; cbn in Hrun.
  - destruct (fault env (Chdir (cwd w))) as [e3|] eqn:Hback; cbn in Hrun;
      simplify_eq; (split; [intros _; since_simpl; split;
        [set_solver|split; [|done]];
        intros cmd d front Hin'; set_unfold; naive_solver|]);
      split; intros; simplify_eq; done.
  - destruct (decide ((completed env (zig_build env) ghostty_dir
                         (Some compiler_dir)).1.1 ≠ 0)) as [Hrc|Hrc];
      cbn in Hrun;
      destruct (fault env (Chdir (cwd w))) as [e3|] eqn:Hback; cbn in Hrun;
      simplify_eq; (split; [intros _; since_simpl; split;
        [set_solver|split; [|done]];
        intros cmd d front Hin'; set_unfold; naive_solver|]);
      split; intros; simplify_eq; done.
Qed.

End LocalBuild.

(** [build_ghostty_restores_cwd] at a toolchain that exits with status 2:
    the process exits with status 1 from the directory it started in. *)
Lemma build_ghostty_restores_cwd_witness :
  let env := sample_env no_fault (fun _ => 2) in
  let w := sample_world [(["work"; "ghostty-1.2.0"], Dir)] in
  let r := build_ghostty env ["work"; "ghostty-1.2.0"] ["work"; "compiler"] w in
  r.1 = Exit 1 ∧ cwd r.2 = ["work"].
Proof.
  intros env w r.
  refine (proj2 (proj2 (build_ghostty_restores_cwd env ["work"; "ghostty-1.2.0"]
            ["work"; "compiler"] w r.1 r.2 _)) _ _ _ _).
  - apply surjective_pairing.
  - reflexivity.
  - reflexivity.
  - vm_compute. discriminate.
  - reflexivity.
Defined.

Section Verification.
Context (env : Env).

(** C10: once the probe has shown the verifier to be there, an exception
    raised by any primitive inside [validate_signature] (creating or
    writing the key file, running the verifier, removing the key file)
    makes it return [False]: it neither raises nor exits.  The caller's
    gate then ends the build with exit status 1, as for a signature that
    does not match. *)
Theorem validate_signature_error_is_false args archive_path signature_path w :
  verifier_available env w ->
  internal_error env archive_path w ->
  skip_signature args = false ->
  (∃ w', validate_signature env archive_path signature_path public_key w
         = (Ret false, w'))
  ∧ (∃ w', main_verify env args archive_path signature_path w = (Exit 1, w')
           ∧ last (trace w')
             = Some (EvLog ERROR "Signature validation failed, aborting build")).
Proof.
  intros [Hprobe Hrc] Herr Hskip.
  unfold main_verify. rewrite Hskip.
  unfold validate_signature, validate_signature_body, subprocess_run_check,
    subprocess_run, write_text, unlink, internal_error in *.
  unfold_monad. cbn in *. rewrite Hprobe. cbn. rewrite Hrc.
  destruct (decide (0 = 0)) as [_|]; [|done]. cbn.
  destruct (fault env NamedTemporaryFile) as [e1|]; cbn;
    [split; eexists; [|split]; try reflexivity; cbn; by rewrite last_snoc|].
  destruct (fault env (Write (tmp_key_file env))) as [e2|]; cbn;
    [split; eexists; [|split]; try reflexivity; cbn; by rewrite last_snoc|].
  unfold stat. rewrite !lookup_insert_eq. cbn.
  destruct (fault env (Run (minisign_verify _ _) (cwd w) None)) as [e3|]; cbn;
    [split; eexists; [|split]; try reflexivity; cbn; by rewrite last_snoc|].
  destruct (fault env (Unlink (tmp_key_file env))) as [e4|]; cbn;
    [split; eexists; [|split]; try reflexivity; cbn; by rewrite last_snoc|].
  exfalso. destruct Herr as [[? ?]|[[? ?]|[[? ?]|[? ?]]]]; discriminate.
Qed.

End Verification.

(** [validate_signature_error_is_false] at a verifier whose output cannot
    be decoded. *)
Lemma validate_signature_error_is_false_witness :
  let env := sample_env undecodable_output all_succeed in
  let w := sample_world [(["work"; "ghostty-1.2.0.tar.gz"], File "archive")] in
  (∃ w', validate_signature env ["work"; "ghostty-1.2.0.tar.gz"]
           ["work"; "ghostty-1.2.0.tar.gz.minisig"] public_key w = (Ret false, w'))
  ∧ (∃ w', main_verify env sample_args ["work"; "ghostty-1.2.0.tar.gz"]
             ["work"; "ghostty-1.2.0.tar.gz.minisig"] w = (Exit 1, w')
           ∧ last (trace w')
             = Some (EvLog ERROR "Signature validation failed, aborting build")).
Proof.
  intros env w.
  apply (validate_signature_error_is_false env sample_args).
  - split; reflexivity.
  - right. right. left. vm_compute. eauto.
  - reflexivity.
Defined.

(** C2: the key file is not removed on every outcome.  When the verifier
    run raises after the key file has been written, [validate_signature]
    returns [False] without ever calling [os.unlink], and the key file is
    still there. *)
Lemma validate_signature_leaves_key_file :
  let env := sample_env undecodable_output all_succeed in
  let w := sample_world [(["work"; "ghostty-1.2.0.tar.gz"], File "archive")] in
  let r := validate_signature env ["work"; "ghostty-1.2.0.tar.gz"]
             ["work"; "ghostty-1.2.0.tar.gz.minisig"] public_key w in
  r.1 = Ret false
  ∧ EvOp NamedTemporaryFile ∈ trace r.2
  ∧ stat (fs r.2) (tmp_key_file env) = Some (File public_key)
  ∧ EvOp (Unlink (tmp_key_file env)) ∉ trace r.2.
Proof.
  intros env w r. split; [|split; [|split]].
  - vm_compute. reflexivity.
  - decide_by_compute.
  - vm_compute. reflexivity.
  - decide_by_compute.
Qed.

(** ** A logic of runs

    [steps R m]: every run of [m] takes a world to one related to it by
    [R].  For a preorder [R] this goes through sequencing, [try]/[except]
    and [try]/[finally], so that a property of the primitives carries over
    to the whole script. *)

Section Steps.
Context (R : relation World) `{!PreOrder R}.

Definition steps {A} (m : M A) : Prop :=
  ∀ w o w', m w = (o, w') -> R w w'.

Lemma steps_ret {A} (a : A) : steps (mret a).
Proof. intros w o w' [= <- <-]. reflexivity. Qed.

Lemma steps_raise {A} e : steps (@raise A e).
Proof. intros w o w' [= <- <-]. reflexivity. Qed.

Lemma steps_exit {A} c : steps (@sys_exit A c).
Proof. intros w o w' [= <- <-]. reflexivity. Qed.

Lemma steps_read {A} (f : World -> A) : steps (fun w => (Ret (f w), w)).
Proof. intros w o w' [= <- <-]. reflexivity. Qed.

Lemma steps_bind {A B} (m : M A) (f : A -> M B) :
  steps m -> (∀ a, steps (f a)) -> steps (m ≫= f).
Proof.
  intros Hm Hf w o w'. unfold mbind, M_bind.
  destruct (m w) as [[a|e|c] w1] eqn:E; intros Hrun.
  - etrans; [by eapply Hm|by eapply Hf].
  - simplify_eq. by eapply Hm.
  - simplify_eq. by eapply Hm.
Qed.

Lemma steps_try_except_if {A} caught (body : M A) handler :
  steps body -> (∀ e, steps (handler e)) ->
  steps (try_except_if caught body handler).
Proof.
  intros Hb Hh w o w'. unfold try_except_if.
  destruct (body w) as [[a|e|c] w1] eqn:E; intros Hrun.
  - simplify_eq. by eapply Hb.
  - destruct (caught e); [|simplify_eq; by eapply Hb].
    etrans; [by eapply Hb|by eapply Hh].
  - simplify_eq. by eapply Hb.
Qed.

Lemma steps_try_except {A} (body : M A) handler :
  steps body -> (∀ e, steps (handler e)) -> steps (try_except body handler).
Proof. apply steps_try_except_if. Qed.

Lemma steps_try_finally {A} (body : M A) cleanup :
  steps body -> steps cleanup -> steps (try_finally body cleanup).
Proof.
  intros Hb Hc w o w'. unfold try_finally.
  destruct (body w) as [o1 w1] eqn:E.
  destruct (cleanup w1) as [[[]|e|c] w2] eqn:E2; intros Hrun; simplify_eq;
    (etrans; [by eapply Hb|by eapply Hc]).
Qed.

End Steps.

#[global] Instance emitting_preorder P : PreOrder (emitting P).
Proof.
  split.
  - intros w. exists []. by rewrite app_nil_r.
  - intros w1 w2 w3 (l1 & E1 & F1) (l2 & E2 & F2). exists (l1 ++ l2).
    split; [by rewrite E2, E1, (assoc_L (++))|by apply Forall_app].
Qed.

#[global] Instance keeping_preorder I : PreOrder (keeping I).
Proof. split; unfold keeping; [intros w|intros w1 w2 w3]; tauto. Qed.

Lemma emitting_since P w w' : emitting P w w' -> Forall P (since w w').
Proof. intros (l & E & F). unfold since. by rewrite E, drop_app_length. Qed.

Lemma emitting_trace P w w' :
  emitting P w w' -> trace w' = trace w ++ since w w'.
Proof. intros (l & E & F). unfold since. by rewrite E, drop_app_length. Qed.

(** ** What the functions of the script emit *)

(** takes a computation apart along its control flow; [leaf] closes what
    is asked of the single events, and the hints in [steps] are the
    functions already dealt with *)
Ltac steps_split leaf :=
  repeat first
    [ solve [auto 2 with steps nocore]
    | leaf
    | match goal with
      | |- steps _ (mret _) => apply steps_ret; apply _
      | |- steps _ (raise _) => apply steps_raise; apply _
      | |- steps _ (sys_exit _) => apply steps_exit; apply _
      | |- steps _ (mbind _ _) => apply steps_bind; [apply _| |intros ?]
      | |- steps _ (try_except_if _ _ _) =>
          apply steps_try_except_if; [apply _| |intros ?]
      | |- steps _ (try_except _ _) =>
          apply steps_try_except; [apply _| |intros ?]
      | |- steps _ (try_finally _ _) =>
          apply steps_try_finally; [apply _| |]
      | |- steps _ (if ?b then _ else _) => destruct b
      | |- steps _ (match ?x with _ => _ end) => destruct x
      end
    | progress cbv zeta ].

Create HintDb steps discriminated.

Section Emitting.
Context (env : Env) (P : event -> Prop).
Hypothesis Hlog : ∀ l message, P (EvLog l message).
Hypothesis Hprint : ∀ text, P (EvPrint text).
Hypothesis Hextract : ∀ o, is_extraction (EvOp o) = true -> P (EvOp o).
Hypothesis Hsign : ∀ o, is_validation (EvOp o) = true -> P (EvOp o).
Hypothesis Htemp : P (EvOp Mkdtemp).
Hypothesis Hother :
  ∀ o, is_extraction (EvOp o) = false -> is_validation (EvOp o) = false ->
       o ≠ Mkdtemp -> P (EvOp o).

Lemma emits_emit e : P e -> steps (emitting P) (emit e).
Proof.
  intros HP w o w' [= <- <-]. exists [e]. split; [done|]. by constructor.
Qed.

Lemma emits_attempt o : P (EvOp o) -> steps (emitting P) (attempt env o).
Proof.
  intros HP w o' w'. unfold attempt, emit.
  destruct (fault env o); intros [= <- <-]; exists [EvOp o];
    (split; [done|by constructor]).
Qed.

Lemma emits_set_fs f : steps (emitting P) (set_fs f).
Proof. intros w o w' [= <- <-]. exists []. by rewrite app_nil_r. Qed.

Lemma emits_set_cwd p : steps (emitting P) (set_cwd p).
Proof. intros w o w' [= <- <-]. exists []. by rewrite app_nil_r. Qed.

Lemma emits_set_containers f : steps (emitting P) (set_containers f).
Proof. intros w o w' [= <- <-]. exists []. by rewrite app_nil_r. Qed.

Lemma emits_get_fs : steps (emitting P) get_fs.
Proof. apply (steps_read _ (fun w => fs w)). Qed.

Lemma emits_getcwd : steps (emitting P) getcwd.
Proof. apply (steps_read _ (fun w => cwd w)). Qed.

Lemma emits_exists p : steps (emitting P) (exists_ p).
Proof. apply (steps_read _ (fun w => bool_decide (is_Some (stat (fs w) p)))). Qed.

Hint Resolve emits_set_fs emits_set_cwd emits_set_containers emits_get_fs
  emits_getcwd emits_exists : steps.

Ltac leaf :=
  first
    [ apply emits_emit; first [apply Hlog | apply Hprint]
    | apply emits_attempt; apply Hother; [reflexivity|reflexivity|done]
    | apply emits_emit; apply Hother; [reflexivity|reflexivity|done]
    | apply emits_attempt; apply Htemp
    | apply emits_attempt; apply Hextract; reflexivity
    | apply emits_emit; apply Hextract; reflexivity
    | apply emits_attempt; apply Hsign; reflexivity ].

Lemma emits_log_info message : steps (emitting P) (log_info message).
Proof. unfold log_info. leaf. Qed.
Lemma emits_log_success message : steps (emitting P) (log_success message).
Proof. unfold log_success. leaf. Qed.
Lemma emits_log_warning message : steps (emitting P) (log_warning message).
Proof. unfold log_warning. leaf. Qed.
Lemma emits_log_error message : steps (emitting P) (log_error message).
Proof. unfold log_error. leaf. Qed.
Lemma emits_print text : steps (emitting P) (print text).
Proof. unfold print. leaf. Qed.
Hint Resolve emits_log_info emits_log_success emits_log_warning
  emits_log_error emits_print : steps.

Lemma emits_log_items log items :
  (∀ line, steps (emitting P) (log line)) ->
  steps (emitting P) (log_items log items).
Proof.
  intros Hl. induction items as [|item rest IH]; cbn.
  - apply steps_ret; apply _.
  - apply steps_bind; [apply _|apply Hl|intros _; apply IH].
Qed.

Lemma emits_urlretrieve url d : steps (emitting P) (urlretrieve env url d).
Proof. unfold urlretrieve. steps_split leaf. Qed.
Lemma emits_tar_extractall mode a d :
  steps (emitting P) (tar_extractall env mode a d).
Proof. unfold tar_extractall. steps_split leaf. Qed.
Lemma emits_zip_extractall a d : steps (emitting P) (zip_extractall env a d).
Proof. unfold zip_extractall. steps_split leaf. Qed.
Lemma emits_unlink p : steps (emitting P) (unlink env p).
Proof. unfold unlink. steps_split leaf. Qed.
Lemma emits_rmtree p : steps (emitting P) (rmtree env p).
Proof. unfold rmtree. steps_split leaf. Qed.
Lemma emits_mkdir p : steps (emitting P) (mkdir env p).
Proof. unfold mkdir. steps_split leaf. Qed.
Lemma emits_rename a b : steps (emitting P) (rename env a b).
Proof. unfold rename. steps_split leaf. Qed.
Lemma emits_move a b : steps (emitting P) (move env a b).
Proof. unfold move. steps_split leaf. Qed.
Lemma emits_copy2 a b : steps (emitting P) (copy2 env a b).
Proof. unfold copy2. steps_split leaf. Qed.
Lemma emits_chmod p : steps (emitting P) (chmod env p).
Proof. unfold chmod. steps_split leaf. Qed.
Lemma emits_chdir p : steps (emitting P) (chdir env p).
Proof. unfold chdir. steps_split leaf. Qed.
Lemma emits_read_text p : steps (emitting P) (read_text env p).
Proof. unfold read_text. steps_split leaf. Qed.
Lemma emits_write_text p c : steps (emitting P) (write_text env p c).
Proof. unfold write_text. steps_split leaf. Qed.
Lemma emits_mkdtemp : steps (emitting P) (mkdtemp env).
Proof. unfold mkdtemp. steps_split leaf. Qed.
Hint Resolve emits_urlretrieve emits_tar_extractall emits_zip_extractall
  emits_unlink emits_rmtree emits_mkdir emits_rename emits_move emits_copy2
  emits_chmod emits_chdir emits_read_text emits_write_text emits_mkdtemp
  : steps.

(** a subprocess other than the verifier *)
Lemma emits_subprocess_run program rest front :
  String.eqb program "minisign" = false ->
  steps (emitting P) (subprocess_run env (program :: rest) front).
Proof.
  intros Hp. unfold subprocess_run.
  apply steps_bind; [apply _|auto with steps|intros d].
  apply steps_bind; [apply _| |intros _; apply steps_ret; apply _].
  apply emits_attempt, Hother; [done|exact Hp|done].
Qed.

(** the verifier *)
Lemma emits_minisign rest front :
  steps (emitting P) (subprocess_run env ("minisign" :: rest) front).
Proof.
  unfold subprocess_run.
  apply steps_bind; [apply _|auto with steps|intros d].
  apply steps_bind; [apply _| |intros _; apply steps_ret; apply _].
  apply emits_attempt, Hsign. reflexivity.
Qed.

Lemma emits_download_file url d pa :
  steps (emitting P) (download_file env url d pa).
Proof. unfold download_file. steps_split leaf. Qed.
Hint Resolve emits_download_file : steps.

Lemma emits_extract_tar_gz a d : steps (emitting P) (extract_tar_gz env a d).
Proof. unfold extract_tar_gz. steps_split leaf. Qed.
Lemma emits_extract_tar_xz a d : steps (emitting P) (extract_tar_xz env a d).
Proof. unfold extract_tar_xz. steps_split leaf. Qed.
Lemma emits_extract_zip a d : steps (emitting P) (extract_zip env a d).
Proof. unfold extract_zip. steps_split leaf. Qed.
Hint Resolve emits_extract_tar_gz emits_extract_tar_xz emits_extract_zip : steps.

Lemma emits_validate_signature a sg key :
  steps (emitting P) (validate_signature env a sg key).
Proof.
  unfold validate_signature, validate_signature_body, subprocess_run_check,
    minisign_probe, minisign_verify.
  pose proof emits_minisign. steps_split leaf.
Qed.

Hint Resolve emits_validate_signature : steps.

Ltac run_leaf :=
  first [ leaf | apply emits_subprocess_run; reflexivity ].

Lemma emits_setup_zig cd zv pa : steps (emitting P) (setup_zig env cd zv pa).
Proof. unfold setup_zig. steps_split leaf. Qed.

Lemma emits_build_ghostty gd cd : steps (emitting P) (build_ghostty env gd cd).
Proof.
  unfold build_ghostty, build_ghostty_body, zig_build. steps_split run_leaf.
Qed.

Lemma emits_install_app_desktop_file gd :
  steps (emitting P) (install_app_desktop_file env gd).
Proof. unfold install_app_desktop_file. steps_split leaf. Qed.

Lemma emits_install_dolphin_desktop_file gd :
  steps (emitting P) (install_dolphin_desktop_file env gd).
Proof. unfold install_dolphin_desktop_file. steps_split leaf. Qed.
Hint Resolve emits_install_app_desktop_file
  emits_install_dolphin_desktop_file : steps.

Lemma emits_install_desktop_file gd :
  steps (emitting P) (install_desktop_file env gd).
Proof. unfold install_desktop_file. steps_split leaf. Qed.

Lemma emits_verify_build : steps (emitting P) (verify_build env).
Proof. unfold verify_build. steps_split leaf. Qed.
Hint Resolve emits_setup_zig emits_build_ghostty emits_install_desktop_file
  emits_verify_build : steps.

Lemma emits_remove_item label what p items :
  steps (emitting P) (remove_item env label what p items).
Proof. unfold remove_item. steps_split leaf. Qed.
Hint Resolve emits_remove_item : steps.

Lemma emits_uninstall_items : steps (emitting P) (uninstall_items env).
Proof. unfold uninstall_items. steps_split leaf. Qed.
Hint Resolve emits_uninstall_items : steps.

Lemma emits_uninstall_ghostty : steps (emitting P) (uninstall_ghostty env).
Proof.
  unfold uninstall_ghostty.
  steps_split ltac:(first [leaf | apply emits_log_items; intros ?]).
Qed.

Lemma emits_check_podman : steps (emitting P) (check_podman env).
Proof. unfold check_podman, subprocess_run_check. steps_split run_leaf. Qed.

Lemma emits_podman_cp src target : steps (emitting P) (podman_cp env src target).
Proof. unfold podman_cp. steps_split run_leaf. Qed.

Lemma emits_podman_create c image :
  steps (emitting P) (podman_create env c image).
Proof. unfold podman_create. steps_split run_leaf. Qed.

Lemma emits_podman_rm c : steps (emitting P) (podman_rm env c).
Proof. unfold podman_rm. steps_split run_leaf. Qed.
Hint Resolve emits_check_podman emits_podman_cp emits_podman_create
  emits_podman_rm : steps.

Lemma emits_extract_artifacts c v t :
  steps (emitting P) (extract_artifacts_from_container env c v t).
Proof. unfold extract_artifacts_from_container. steps_split leaf. Qed.
Hint Resolve emits_extract_artifacts : steps.

Lemma emits_container_install c v t :
  steps (emitting P) (container_install env c v t).
Proof. unfold container_install. steps_split leaf. Qed.

Lemma emits_container_cleanup c : steps (emitting P) (container_cleanup env c).
Proof. unfold container_cleanup. steps_split leaf. Qed.

Lemma emits_temp_dir_cleanup t : steps (emitting P) (temp_dir_cleanup env t).
Proof. unfold temp_dir_cleanup. steps_split leaf. Qed.
Hint Resolve emits_container_install emits_container_cleanup
  emits_temp_dir_cleanup : steps.

Lemma emits_container_extract c v t :
  steps (emitting P) (container_extract env c v t).
Proof. unfold container_extract. steps_split leaf. Qed.
Hint Resolve emits_container_extract : steps.

Lemma emits_container_image v zv nc :
  steps (emitting P) (container_image env v zv nc).
Proof.
  unfold container_image.
  assert (∃ rest, build_cmd v zv nc = "podman" :: rest) as [rest ->]
    by (destruct nc; eexists; reflexivity).
  steps_split run_leaf.
Qed.
Hint Resolve emits_container_image : steps.

Lemma emits_build_ghostty_container v zv nc :
  steps (emitting P) (build_ghostty_container env v zv nc).
Proof. unfold build_ghostty_container. steps_split leaf. Qed.
Hint Resolve emits_build_ghostty_container : steps.

Lemma emits_main_container args : steps (emitting P) (main_container env args).
Proof. unfold main_container. steps_split leaf. Qed.

Lemma emits_main_fetch args : steps (emitting P) (main_fetch env args).
Proof. unfold main_fetch. steps_split leaf. Qed.

Lemma emits_main_verify args a sg : steps (emitting P) (main_verify env args a sg).
Proof. unfold main_verify. steps_split leaf. Qed.

(** with [--skip-signature] the gate only logs *)
Lemma emits_main_verify_skipped args a sg :
  skip_signature args = true ->
  steps (emitting P) (main_verify env args a sg).
Proof. intros Hs. unfold main_verify. rewrite Hs. steps_split leaf. Qed.

Lemma emits_main_extract args a : steps (emitting P) (main_extract env args a).
Proof. unfold main_extract. steps_split leaf. Qed.

Lemma emits_main_build args gd : steps (emitting P) (main_build env args gd).
Proof. unfold main_build. steps_split leaf. Qed.

Lemma emits_main_local_skipped args :
  skip_signature args = true ->
  steps (emitting P) (main_local env args).
Proof.
  intros Hs. unfold main_local.
  pose proof emits_main_fetch. pose proof emits_main_extract.
  pose proof emits_main_build. pose proof (emits_main_verify_skipped args).
  steps_split leaf.
Qed.

Hint Resolve emits_main_container emits_main_fetch emits_main_verify
  emits_main_extract emits_main_build emits_uninstall_ghostty : steps.

Lemma emits_main_local args : steps (emitting P) (main_local env args).
Proof. unfold main_local. steps_split leaf. Qed.
Hint Resolve emits_main_local : steps.

Lemma emits_main args : steps (emitting P) (main env args).
Proof. unfold main. steps_split leaf. Qed.

End Emitting.

Lemma bind_run {A B} (m : M A) (f : A -> M B) w :
  (m ≫= f) w
  = match m w with
    | (Ret a, w1) => f a w1
    | (Raise e, w1) => (Raise e, w1)
    | (Exit c, w1) => (Exit c, w1)
    end.
Proof. reflexivity. Qed.

Lemma since_trans P w1 w2 w3 :
  emitting P w1 w2 -> emitting P w2 w3 ->
  since w1 w3 = since w1 w2 ++ since w2 w3.
Proof.
  intros (l1 & E1 & _) (l2 & E2 & _). unfold since.
  rewrite E2, drop_app_length, E1, <- (assoc_L (++)), !drop_app_length. done.
Qed.

(** ** The filesystem *)

Lemma stat_File m p bytes : stat m p = Some (File bytes) <-> m !! p = Some (File bytes).
Proof.
  unfold stat. destruct (m !! p) as [n|]; [done|].
  case_decide; split; intros; simplify_eq.
Qed.

Lemma stat_None_below m d p : stat m d = None -> d `prefix_of` p -> m !! p = None.
Proof.
  unfold stat. destruct (m !! d); [done|]. case_decide as Hb; [|done].
  intros _ Hp. destruct (m !! p) as [n|] eqn:E; [|done].
  assert (beneath d m !! p = Some n) as Hin
    by (unfold beneath; apply map_lookup_filter_Some; done).
  rewrite Hb in Hin. by rewrite lookup_empty in Hin.
Qed.

Lemma outside_below d m p : d `prefix_of` p -> outside d m !! p = None.
Proof.
  intros Hp. unfold outside. apply map_lookup_filter_None. right.
  intros n _ Hnot. by apply Hnot.
Qed.

Lemma outside_other d m p : ¬ d `prefix_of` p -> outside d m !! p = m !! p.
Proof.
  intros Hp. unfold outside. destruct (m !! p) as [n|] eqn:E.
  - by apply map_lookup_filter_Some.
  - apply map_lookup_filter_None. by left.
Qed.

Lemma stat_outside d m : stat (outside d m) d = None.
Proof.
  unfold stat. rewrite outside_below by done. case_decide as Hb; [done|].
  exfalso. apply Hb. apply map_empty. intros p. unfold beneath.
  apply map_lookup_filter_None.
  destruct (decide (d `prefix_of` p)) as [Hp|Hp].
  - left. by apply outside_below.
  - right. by intros n _ Hq.
Qed.

Lemma stat_delete m a b : ¬ b `prefix_of` a -> stat (delete a m) b = stat m b.
Proof.
  intros Hn. unfold stat.
  rewrite lookup_delete_ne by (intros ->; by apply Hn).
  assert (beneath b (delete a m) = beneath b m) as ->; [|done].
  unfold beneath. rewrite map_filter_delete. apply delete_id.
  apply map_lookup_filter_None. right. intros n _ Hp. by apply Hn.
Qed.

(** unpacking over [m] is unpacking over nothing, laid over [m] *)
Lemma write_tree_lookup target entries m p :
  write_tree target entries m !! p
  = match write_tree target entries ∅ !! p with
    | Some n => Some n
    | None => m !! p
    end.
Proof.
  unfold write_tree. revert m.
  induction entries as [|[rel n] entries IH]; intros m; cbn.
  - by rewrite lookup_empty.
  - rewrite IH, (IH (<[target ++ rel:=n]> ∅)).
    destruct (foldl (fun acc kv => <[target ++ kv.1:=kv.2]> acc) ∅ entries !! p);
      [done|].
    destruct (decide (target ++ rel = p)) as [<-|Hne].
    + by rewrite !lookup_insert_eq.
    + by rewrite !lookup_insert_ne, lookup_empty by done.
Qed.

(** what unpacking puts there is a member of the archive *)
Lemma write_tree_member target entries p n :
  write_tree target entries ∅ !! p = Some n ->
  ∃ rel, (rel, n) ∈ entries ∧ p = target ++ rel.
Proof.
  unfold write_tree.
  assert (∀ m : gmap path node,
             foldl (fun acc kv => <[target ++ kv.1:=kv.2]> acc) m entries !! p
               = Some n ->
               (∃ rel, (rel, n) ∈ entries ∧ p = target ++ rel) ∨ m !! p = Some n)
    as Hgen.
  { induction entries as [|[rel n'] entries IH]; intros m; cbn; [by right|].
    intros [(rel' & Hin & ->)|Hm]%IH.
    - left. exists rel'. split; [by right|done].
    - destruct (decide (target ++ rel = p)) as [<-|Hne].
      + rewrite lookup_insert_eq in Hm. simplify_eq. left. exists rel.
        split; [by left|done].
      + rewrite lookup_insert_ne in Hm by done. by right. }
  intros [?|Hm]%Hgen; [done|]. by rewrite lookup_empty in Hm.
Qed.

Lemma write_tree_other target entries m p :
  ¬ target `prefix_of` p -> write_tree target entries m !! p = m !! p.
Proof.
  intros Hn. rewrite write_tree_lookup.
  destruct (write_tree target entries ∅ !! p) as [n|] eqn:E; [|done].
  apply write_tree_member in E as (rel & _ & ->).
  destruct Hn. by apply prefix_app_r.
Qed.

Lemma stat_entry m p n : m !! p = Some n -> stat m p = Some n.
Proof. intros H. unfold stat. by rewrite H. Qed.

Lemma longer_not_prefix (p : path) extra :
  extra ≠ [] -> ¬ (p ++ extra) `prefix_of` p.
Proof.
  intros Hne Hp%prefix_length. rewrite length_app in Hp.
  destruct extra; [done|]. cbn in Hp. lia.
Qed.

Lemma stat_insert_other (m : gmap path node) k v p :
  ¬ p `prefix_of` k -> stat (<[k:=v]> m) p = stat m p.
Proof.
  intros Hn. unfold stat.
  rewrite lookup_insert_ne by (intros ->; by apply Hn).
  assert (beneath p (<[k:=v]> m) = beneath p m) as ->; [|done].
  unfold beneath. by apply map_filter_insert_not.
Qed.

Lemma join_ne (p q : path) x y : x ≠ y -> p // x ≠ q // y.
Proof. unfold join. intros Hne [_ [=]]%app_inj_tail. done. Qed.

Lemma bind_Ret {A B} (m : M A) (f : A -> M B) w b w' :
  (m ≫= f) w = (Ret b, w') ->
  ∃ a w1, m w = (Ret a, w1) ∧ f a w1 = (Ret b, w').
Proof.
  rewrite bind_run. destruct (m w) as [[a|e|code] w1]; [|done..].
  intros H. by exists a, w1.
Qed.

Lemma bind_keeps_event {A B} P (m : M A) (f : A -> M B) w e :
  steps (emitting P) m -> (∀ a, steps (emitting P) (f a)) ->
  e ∈ since w (m w).2 -> e ∈ since w ((m ≫= f) w).2.
Proof.
  intros Hm Hf. rewrite bind_run.
  destruct (m w) as [[a| |] w1] eqn:E; cbn; try done.
  intros Hin. destruct (f a w1) as [o w2] eqn:E2; cbn.
  rewrite (since_trans P w w1 w2); [|by eapply Hm|by eapply Hf].
  apply elem_of_app. by left.
Qed.

Section Extraction.
Context (env : Env).

(** the extraction step gets as far as opening the archive, unless
    removing a stale tree fails *)
Lemma main_extract_attempts args archive w :
  stale_tree_removable env args w ->
  EvOp (TarExtract "r:gz" archive (cwd w))
    ∈ since w (main_extract env args archive w).2.
Proof.
  unfold stale_tree_removable, source_dir.
  unfold main_extract, extract_tar_gz, tar_extractall, rmtree. unfold_monad.
  intros [Hn|[Hd Hf]]; cbn.
  - rewrite Hn. cbn.
    destruct (stat (fs w) archive) as [[bytes|]|]; cbn;
      [destruct (fault env (TarExtract "r:gz" archive (cwd w))); cbn|..];
      since_simpl; set_solver.
  - rewrite Hd. cbn. rewrite Hf. cbn. rewrite Hd. cbn.
    destruct (stat _ archive) as [[bytes|]|]; cbn;
      [destruct (fault env (TarExtract "r:gz" archive (cwd w))); cbn|..];
      since_simpl; set_solver.
Qed.

(** C8: when the extraction step succeeds, a tree that was at the
    extraction path has been removed with [shutil.rmtree] before the
    archive was opened, and what is at or below the extraction path
    afterwards is exactly what unpacking the archive into an empty
    filesystem gives: every entry there is a member of the archive, and
    nothing of a stale tree is left. *)
Theorem main_extract_clean args archive w ghostty_dir w' :
  main_extract env args archive w = (Ret ghostty_dir, w') ->
  ghostty_dir = source_dir args w
  ∧ ∃ bytes, fs w !! archive = Some (File bytes)
    ∧ since w w'
      = (if decide (is_Some (stat (fs w) ghostty_dir))
         then [EvOp (Rmtree ghostty_dir)] else [])
        ++ [EvLog INFO ("Extracting " +:+ name archive +:+ " to "
                        +:+ path_str (cwd w));
            EvOp (TarExtract "r:gz" archive (cwd w));
            EvLog SUCCESS ("Extracted " +:+ name archive)]
    ∧ ∀ p, ghostty_dir `prefix_of` p ->
        fs w' !! p = write_tree (cwd w) (members env "r:gz" bytes) ∅ !! p
        ∧ ∀ n, fs w' !! p = Some n ->
            ∃ rel, (rel, n) ∈ members env "r:gz" bytes ∧ p = cwd w ++ rel.
Proof.
  unfold main_extract, extract_tar_gz, tar_extractall, rmtree, source_dir.
  unfold_monad. cbn.
  destruct (stat (fs w) (cwd w // ("ghostty-" +:+ version args)))
    as [[stale|]|] eqn:Hst; cbn.
  - destruct (fault env (Rmtree _)); cbn; rewrite ?Hst; cbn;
      intros; simplify_eq.
  - destruct (fault env (Rmtree _)); cbn; rewrite ?Hst; cbn;
      [intros; simplify_eq|].
    destruct (stat (outside _ (fs w)) archive) as [[bytes|]|] eqn:Ha; cbn;
      [|intros; simplify_eq..].
    destruct (fault env (TarExtract _ _ _)); cbn; intros; simplify_eq.
    split; [done|]. exists bytes.
    apply stat_File in Ha.
    assert (fs w !! archive = Some (File bytes)) as Hb.
    { unfold outside in Ha. by apply map_lookup_filter_Some in Ha as [? _]. }
    split; [done|]. split.
    { since_simpl. rewrite Hst. by rewrite decide_True by eauto. }
    cbn. intros p Hp.
    assert (write_tree (cwd w) (members env "r:gz" bytes)
              (outside (cwd w // ("ghostty-" +:+ version args)) (fs w)) !! p
            = write_tree (cwd w) (members env "r:gz" bytes) ∅ !! p) as Heq.
    { rewrite write_tree_lookup. rewrite (outside_below _ _ _ Hp).
      by destruct (_ !! p). }
    split; [done|]. intros n. rewrite Heq. apply write_tree_member.
  - destruct (stat (fs w) archive) as [[bytes|]|] eqn:Ha; cbn;
      [|intros; simplify_eq..].
    destruct (fault env (TarExtract _ _ _)); cbn; intros; simplify_eq.
    split; [done|]. exists bytes.
    apply stat_File in Ha.
    split; [done|]. split.
    { since_simpl. rewrite Hst. by rewrite decide_False by (by intros [? ?]). }
    cbn. intros p Hp.
    assert (write_tree (cwd w) (members env "r:gz" bytes) (fs w) !! p
            = write_tree (cwd w) (members env "r:gz" bytes) ∅ !! p) as Heq.
    { rewrite write_tree_lookup, (stat_None_below _ _ _ Hst Hp).
      by destruct (_ !! p). }
    split; [done|]. intros n. rewrite Heq. apply write_tree_member.
Qed.

End Extraction.

Section Gate.
Context (env : Env).

(** C1: once the archive and its signature are there, the gate decides.
    Without [--skip-signature], a validation that returns [False] ends
    the process with exit status 1 and nothing has been unpacked.  With
    [--skip-signature] the verifier is never run: the script logs the
    warning and goes on with the extraction step, whatever the
    environment would have answered to a validation. *)
Theorem signature_gate args w archive signature w1 :
  uninstall args = false -> container args = false ->
  main_fetch env args w = (Ret (archive, signature), w1) ->
  (skip_signature args = false ->
     ∀ w2, validate_signature env archive signature public_key w1
           = (Ret false, w2) ->
     ∃ w3, main env args w = (Exit 1, w3)
           ∧ Forall (fun e => is_extraction e = false) (since w w3))
  ∧ (skip_signature args = true ->
     ∃ w1', emit (EvLog WARNING "Skipping signature validation (not recommended)") w1
            = (Ret tt, w1')
       ∧ main env args w
         = (main_extract env args archive ≫= main_build env args) w1'
       ∧ Forall (fun e => is_validation e = false) (since w (main env args w).2)
       ∧ EvLog WARNING "Skipping signature validation (not recommended)"
           ∈ since w (main env args w).2
       ∧ (stale_tree_removable env args w1 ->
            EvOp (TarExtract "r:gz" archive (cwd w1))
              ∈ since w (main env args w).2)).
Proof.
  intros Hu Hc Hfetch.
  assert (main env args w = main_local env args w) as Hmain
    by (unfold main; by rewrite Hu, Hc).
  split.
  - intros Hs w2 Hval.
    assert (emitting (fun e => is_extraction e = false) w w1) as H1
      by (eapply (emits_main_fetch env); [done| |exact Hfetch]; done).
    assert (emitting (fun e => is_extraction e = false) w1 w2) as H2
      by (eapply (emits_validate_signature env); [done| | |exact Hval];
          [by intros []|done]).
    eexists. split.
    + rewrite Hmain. unfold main_local. rewrite bind_run, Hfetch.
      rewrite bind_run. unfold main_verify. rewrite Hs, bind_run, Hval.
      reflexivity.
    + apply (emitting_since (fun e => is_extraction e = false)).
      etrans; [exact H1|]. etrans; [exact H2|].
      eexists [_]. split; [reflexivity|]. by constructor.
  - intros Hs. eexists. split; [reflexivity|].
    set (w1' := {| fs := fs w1; cwd := cwd w1; containers := containers w1;
                   trace := trace w1 ++ [EvLog WARNING
                     "Skipping signature validation (not recommended)"] |}).
    assert (main env args w
            = (main_extract env args archive ≫= main_build env args) w1')
      as Hrest.
    { rewrite Hmain. unfold main_local. rewrite bind_run, Hfetch.
      rewrite bind_run. unfold main_verify. rewrite Hs. reflexivity. }
    split; [exact Hrest|]. split.
    { apply (emitting_since (fun e => is_validation e = false)).
      rewrite Hmain.
      eapply (emits_main_local_skipped env); [done| | |exact Hs|];
        [by intros []|done|apply surjective_pairing]. }
    assert (emitting (fun _ => True) w w1) as H1
      by (eapply (emits_main_fetch env); [done| |exact Hfetch]; done).
    assert (emitting (fun _ => True) w1 w1') as H2
      by (eexists [_]; split; [reflexivity|by constructor]).
    assert (emitting (fun _ => True) w1' (main env args w).2) as H3.
    { rewrite Hrest. eapply steps_bind; [apply _| | |apply surjective_pairing].
      - apply emits_main_extract; done.
      - intros gd. apply emits_main_build; done. }
    rewrite (since_trans _ w w1' _ ltac:(by etrans) H3).
    rewrite (since_trans _ w w1 w1' H1 H2).
    split.
    { apply elem_of_app. left. apply elem_of_app. right.
      unfold since, w1'. cbn. rewrite drop_app_length. set_solver. }
    intros Hrm. apply elem_of_app. right.
    rewrite Hrest.
    apply (bind_keeps_event (fun _ => True));
      [by apply emits_main_extract|by intros; apply emits_main_build|].
    apply (main_extract_attempts env args archive w1'), Hrm.
Qed.

End Gate.

Section Uninstall.
Context (env : Env).

Lemma artifacts_apart a b :
  a ∈ artifacts env -> b ∈ artifacts env -> a ≠ b -> ¬ b.2 `prefix_of` a.2.
Proof.
  unfold artifacts, ghostty_binary, app_desktop, dolphin_desktop, join.
  rewrite <- !(assoc_L (++)). cbn [app].
  intros Ha Hb Hne Hp. set_unfold.
  destruct Ha as [? | [? | [? | []]]]; destruct Hb as [? | [? | [? | []]]];
    subst;
    try done; cbn in Hp; apply prefix_app_inv in Hp; revert Hp; decide_by_compute.
Qed.

(** one block of the uninstaller, run *)
Lemma remove_item_run label what p items w :
  ∃ w',
    remove_item env label what p items w
    = (Ret match removal_of env (fs w) p with
           | Skipped => items
           | Removed => (items.1 ++ [label +:+ ": " +:+ path_str p], items.2)
           | Failed e =>
               (items.1,
                items.2 ++ [label +:+ ": " +:+ path_str p
                            +:+ " (" +:+ exn_msg e +:+ ")"])
           end, w')
    ∧ fs w' = match removal_of env (fs w) p with
              | Removed => delete p (fs w)
              | _ => fs w
              end
    ∧ since w w'
      = match removal_of env (fs w) p with
        | Skipped => [EvLog INFO (label +:+ " not found, skipping removal")]
        | Removed =>
            [EvOp (Unlink p);
             EvLog SUCCESS ("Removed " +:+ what +:+ ": " +:+ path_str p)]
        | Failed e =>
            [EvOp (Unlink p);
             EvLog ERROR ("Failed to remove " +:+ what +:+ " " +:+ path_str p
                          +:+ ": " +:+ exn_msg e)]
        end
    ∧ emitting (fun _ => True) w w'.
Proof.
  destruct (remove_item env label what p items w) as [o w'] eqn:Hrun.
  exists w'.
  assert (emitting (fun _ => True) w w') as Hgrow
    by (eapply (emits_remove_item env); [done| |exact Hrun]; done).
  revert Hrun. unfold remove_item, unlink, removal_of. unfold_monad. cbn.
  destruct (stat (fs w) p) as [[bytes|]|] eqn:Hst; cbn;
    [destruct (fault env (Unlink p)) as [e|]; cbn; rewrite ?Hst; cbn..|];
    intros [= <- <-]; repeat split; try done; by since_simpl.
Qed.

Lemma removal_of_delete m a b :
  ¬ b `prefix_of` a -> removal_of env (delete a m) b = removal_of env m b.
Proof. intros Hn. unfold removal_of. by rewrite stat_delete. Qed.

Lemma removal_of_after m a b :
  ¬ b `prefix_of` a ->
  removal_of env match removal_of env m a with
                 | Removed => delete a m
                 | _ => m
                 end b
  = removal_of env m b.
Proof.
  intros Hn. destruct (removal_of env m a); [done| |done].
  by apply removal_of_delete.
Qed.

(** the three blocks, run: what [removed_items] and [failed_items] hold,
    what is left on disk, and what was done *)
Lemma uninstall_items_run w :
  ∃ w',
    uninstall_items env w
    = (Ret (removed_lines env (fs w), failed_lines env (fs w)), w')
    ∧ fs w' = remaining env (fs w)
    ∧ since w w'
      = flat_map (fun a : string * string * path =>
                    match removal_of env (fs w) a.2 with
                           | Skipped =>
                               [EvLog INFO (a.1.1 +:+ " not found, skipping removal")]
                           | Removed =>
                               [EvOp (Unlink a.2);
                                EvLog SUCCESS ("Removed " +:+ a.1.2 +:+ ": "
                                               +:+ path_str a.2)]
                           | Failed e =>
                               [EvOp (Unlink a.2);
                                EvLog ERROR ("Failed to remove " +:+ a.1.2 +:+ " "
                                             +:+ path_str a.2 +:+ ": "
                                             +:+ exn_msg e)]
                           end)
          [ ("Binary", "binary", ghostty_binary env);
            ("Application desktop file", "application desktop file",
             app_desktop env);
            ("Dolphin service menu", "Dolphin service menu",
             dolphin_desktop env) ]
    ∧ emitting (fun _ => True) w w'.
Proof.
  unfold uninstall_items.
  destruct (remove_item_run "Binary" "binary" (ghostty_binary env) ([], []) w)
    as (w1 & E1 & F1 & S1 & G1).
  rewrite bind_run, E1.
  cbv beta iota. rewrite bind_run.
  match goal with
  | |- context [remove_item env ?l ?wh ?p ?it w1] =>
      destruct (remove_item_run l wh p it w1) as (w2 & E2 & F2 & S2 & G2)
  end.
  rewrite E2. cbv beta iota.
  match goal with
  | |- context [remove_item env ?l ?wh ?p ?it w2] =>
      destruct (remove_item_run l wh p it w2) as (w3 & E3 & F3 & S3 & G3)
  end.
  exists w3. rewrite E3.
  assert (removal_of env (fs w1) (app_desktop env)
          = removal_of env (fs w) (app_desktop env)) as R2.
  { rewrite F1.
    apply (removal_of_after _ _ _
             (artifacts_apart ("Binary", ghostty_binary env)
                ("Application desktop file", app_desktop env)
                ltac:(set_solver) ltac:(set_solver) ltac:(done))). }
  assert (removal_of env (fs w1) (dolphin_desktop env)
          = removal_of env (fs w) (dolphin_desktop env)) as R3a.
  { rewrite F1.
    apply (removal_of_after _ _ _
             (artifacts_apart ("Binary", ghostty_binary env)
                ("Dolphin service menu", dolphin_desktop env)
                ltac:(set_solver) ltac:(set_solver) ltac:(done))). }
  assert (removal_of env (fs w2) (dolphin_desktop env)
          = removal_of env (fs w) (dolphin_desktop env)) as R3.
  { rewrite F2, <- R3a.
    apply (removal_of_after _ _ _
             (artifacts_apart ("Application desktop file", app_desktop env)
                ("Dolphin service menu", dolphin_desktop env)
                ltac:(set_solver) ltac:(set_solver) ltac:(done))). }
  rewrite (since_trans _ w w2 w3 ltac:(by etrans) G3).
  rewrite (since_trans _ w w1 w2 G1 G2).
  rewrite S1, S2, S3, F3, !R3, F2, !R2, F1.
  unfold removed_lines, failed_lines, remaining, artifacts. cbn.
  split; [|split; [|split; [|by etrans; [|etrans]]]];
    destruct (removal_of env (fs w) (ghostty_binary env)),
      (removal_of env (fs w) (app_desktop env)),
      (removal_of env (fs w) (dolphin_desktop env)); reflexivity.
Qed.

Lemma removal_of_Skipped m p : removal_of env m p = Skipped <-> stat m p = None.
Proof.
  unfold removal_of. destruct (stat m p) as [[|]|]; [| |done];
    destruct (fault env (Unlink p)); split; intros; simplify_eq.
Qed.

Lemma artifact_paths_distinct :
  ghostty_binary env ≠ app_desktop env
  ∧ ghostty_binary env ≠ dolphin_desktop env
  ∧ app_desktop env ≠ dolphin_desktop env.
Proof.
  unfold ghostty_binary, app_desktop, dolphin_desktop, join.
  repeat split; intros H; apply (f_equal length) in H;
    rewrite !length_app in H; cbn in H; lia.
Qed.

Lemma remaining_lookup m a :
  a ∈ artifacts env ->
  remaining env m !! a.2
  = match removal_of env m a.2 with
    | Removed => None
    | _ => m !! a.2
    end.
Proof.
  destruct artifact_paths_distinct as (N12 & N13 & N23).
  unfold remaining, artifacts. cbn. intros Ha. set_unfold in Ha.
  destruct Ha as [-> | [-> | [-> | []]]]; cbn;
    destruct (removal_of env m (ghostty_binary env)),
      (removal_of env m (app_desktop env)),
      (removal_of env m (dolphin_desktop env));
    by rewrite ?lookup_delete_eq, ?lookup_delete_ne,
         ?lookup_delete_eq, ?lookup_delete_ne by done.
Qed.

(** C6: the uninstaller goes through the three artifacts one by one.
    It calls [unlink] on exactly those that are there; each one is
    removed or not according to its own [unlink] alone, whatever
    happened to the others: a removed artifact is gone and listed in
    [removed_items], a failed one is still there and listed in
    [failed_items] with its error, an absent one is skipped, raises
    nothing and is listed nowhere. *)
Theorem uninstall_items_each w :
  ∃ w',
    uninstall_items env w
    = (Ret (removed_lines env (fs w), failed_lines env (fs w)), w')
    ∧ (∀ p, EvOp (Unlink p) ∈ since w w' -> p ∈ (artifacts env).*2)
    ∧ ∀ a, a ∈ artifacts env ->
        (EvOp (Unlink a.2) ∈ since w w' <-> is_Some (stat (fs w) a.2))
        ∧ match removal_of env (fs w) a.2 with
          | Skipped =>
              stat (fs w) a.2 = None ∧ fs w' !! a.2 = fs w !! a.2
          | Removed =>
              fs w' !! a.2 = None
              ∧ a.1 +:+ ": " +:+ path_str a.2 ∈ removed_lines env (fs w)
          | Failed e =>
              fs w' !! a.2 = fs w !! a.2
              ∧ a.1 +:+ ": " +:+ path_str a.2 +:+ " (" +:+ exn_msg e +:+ ")"
                  ∈ failed_lines env (fs w)
          end.
Proof.
  destruct (uninstall_items_run w) as (w' & Hrun & Hfs & Hsince & _).
  destruct artifact_paths_distinct as (N12 & N13 & N23).
  exists w'. split; [exact Hrun|].
  assert (∀ p, EvOp (Unlink p) ∈ since w w'
               <-> (p = ghostty_binary env
                    ∧ removal_of env (fs w) (ghostty_binary env) ≠ Skipped)
                   ∨ (p = app_desktop env
                      ∧ removal_of env (fs w) (app_desktop env) ≠ Skipped)
                   ∨ (p = dolphin_desktop env
                      ∧ removal_of env (fs w) (dolphin_desktop env) ≠ Skipped))
    as Hmem.
  { intros p. rewrite Hsince. cbn [flat_map fst snd].
    rewrite !elem_of_app, elem_of_nil.
    assert (∀ q (r : removal) s1 s2 s3,
              EvOp (Unlink p)
                ∈ match r with
                  | Skipped => [EvLog INFO s1]
                  | Removed => [EvOp (Unlink q); EvLog SUCCESS s2]
                  | Failed e => [EvOp (Unlink q); EvLog ERROR (s3 e)]
                  end
              <-> p = q ∧ r ≠ Skipped) as Hblock
      by (intros q [] s1 s2 s3; set_unfold; naive_solver).
    rewrite (Hblock (ghostty_binary env) _ _ _ (fun e => _)).
    rewrite (Hblock (app_desktop env) _ _ _ (fun e => _)).
    rewrite (Hblock (dolphin_desktop env) _ _ _ (fun e => _)).
    tauto. }
  split.
  { intros p [[-> _]|[[-> _]|[-> _]]]%Hmem; unfold artifacts; cbn; set_solver. }
  intros a Ha. split.
  - rewrite Hmem, <- not_eq_None_Some, <- (removal_of_Skipped (fs w)).
    unfold artifacts in Ha. set_unfold in Ha.
    destruct Ha as [-> | [-> | [-> | []]]]; cbn; naive_solver.
  - rewrite Hfs, (remaining_lookup _ _ Ha).
    destruct (removal_of env (fs w) a.2) as [| |e] eqn:Er.
    + split; [by apply removal_of_Skipped|done].
    + split; [done|]. unfold removed_lines.
      apply list_elem_of_In, in_flat_map. exists a.
      split; [by apply list_elem_of_In|]. rewrite Er. by left.
    + split; [done|]. unfold failed_lines.
      apply list_elem_of_In, in_flat_map. exists a.
      split; [by apply list_elem_of_In|]. rewrite Er. by left.
Qed.

Lemma log_items_run (f : string -> event) items w :
  ∃ w', log_items (fun line => emit (f line)) items w = (Ret tt, w')
        ∧ fs w' = fs w.
Proof.
  revert w. induction items as [|item rest IH]; intros w; cbn.
  - by exists w.
  - rewrite bind_run. cbn.
    match goal with
    | |- context [log_items _ rest ?w0] => destruct (IH w0) as (w' & E & Hfs)
    end.
    exists w'. by rewrite E, Hfs.
Qed.

Lemma failed_lines_nil m :
  failed_lines env m = []
  <-> ¬ ∃ a e, a ∈ artifacts env ∧ removal_of env m a.2 = Failed e.
Proof.
  unfold failed_lines, artifacts. cbn. split.
  - intros Hnil (a & e & Ha & Hf). set_unfold in Ha.
    destruct Ha as [-> | [-> | [-> | []]]]; cbn in Hf; rewrite Hf in Hnil;
      cbn in Hnil;
      repeat (match type of Hnil with
              | context [match ?r with _ => _ end] => destruct r
              end; cbn in Hnil); discriminate.
  - intros Hno.
    destruct (removal_of env m (ghostty_binary env)) as [| |e1] eqn:E1;
      [| |exfalso; apply Hno; exists ("Binary", ghostty_binary env), e1;
          split; [set_solver|done]];
      (destruct (removal_of env m (app_desktop env)) as [| |e2] eqn:E2;
       [| |exfalso; apply Hno;
           exists ("Application desktop file", app_desktop env), e2;
           split; [set_solver|done]]);
      (destruct (removal_of env m (dolphin_desktop env)) as [| |e3] eqn:E3;
       [| |exfalso; apply Hno;
           exists ("Dolphin service menu", dolphin_desktop env), e3;
           split; [set_solver|done]]);
      reflexivity.
Qed.

Lemma failed_lines_cons m :
  failed_lines env m ≠ [] ->
  ∃ a e, a ∈ artifacts env ∧ removal_of env m a.2 = Failed e.
Proof.
  intros Hne.
  destruct (removal_of env m (ghostty_binary env)) as [| |e1] eqn:E1;
    [| |exists ("Binary", ghostty_binary env), e1;
        split; [unfold artifacts; set_solver|done]];
    (destruct (removal_of env m (app_desktop env)) as [| |e2] eqn:E2;
     [| |exists ("Application desktop file", app_desktop env), e2;
         split; [unfold artifacts; set_solver|done]]);
    (destruct (removal_of env m (dolphin_desktop env)) as [| |e3] eqn:E3;
     [| |exists ("Dolphin service menu", dolphin_desktop env), e3;
         split; [unfold artifacts; set_solver|done]]);
    exfalso; apply Hne; unfold failed_lines, artifacts; cbn;
    by rewrite E1, E2, E3.
Qed.

(** the uninstaller exits with status 1 exactly when [failed_items] is
    not empty, and returns otherwise *)
Lemma uninstall_ghostty_run w :
  ∃ w', uninstall_ghostty env w
        = (if decide (failed_lines env (fs w) = []) then Ret tt else Exit 1, w')
    ∧ (removed_lines env (fs w) = [] -> failed_lines env (fs w) = [] ->
         last (trace w')
         = Some (EvLog WARNING "No Ghostty artifacts found to remove")).
Proof.
  unfold uninstall_ghostty. rewrite bind_run. cbn [log_info emit].
  cbv beta iota. rewrite bind_run.
  match goal with
  | |- context [uninstall_items env ?w0] =>
      destruct (uninstall_items_run w0) as (w1 & -> & _ & _ & _)
  end.
  cbn [fs fst snd]. cbv beta iota zeta.
  set (removed := removed_lines env (fs w)).
  set (failed := failed_lines env (fs w)).
  rewrite bind_run.
  assert (∃ w2, (if bool_decide (removed ≠ [])
                 then log_success ("Successfully removed "
                                   +:+ pretty (length removed) +:+ " items:")
                      ≫= (fun _ => log_items log_info removed)
                 else mret tt) w1 = (Ret tt, w2)
                ∧ (removed = [] -> w2 = w1)) as (w2 & -> & H2).
  { case_bool_decide as Hr.
    - rewrite bind_run. cbn [log_success emit]. cbv beta iota.
      destruct (log_items_run (EvLog INFO) removed
                  (emit (EvLog SUCCESS ("Successfully removed "
                     +:+ pretty (length removed) +:+ " items:")) w1).2)
        as (w2 & E & _).
      exists w2. split; [exact E|done].
    - exists w1. split; [done|done]. }
  cbv beta iota. rewrite bind_run.
  destruct (decide (failed = [])) as [Hf|Hf].
  - rewrite (bool_decide_eq_false_2 (failed ≠ [])) by (by intros ?).
    cbn [mret M_ret]. cbv beta iota.
    rewrite (bool_decide_eq_true_2 (failed = [])) by done.
    destruct (bool_decide (removed = [])) eqn:Hr; cbn [andb];
      eexists; (split; [reflexivity|]).
    + intros Hrn _. rewrite (H2 Hrn). cbn. apply last_snoc.
    + intros Hrn. by rewrite bool_decide_eq_true_2 in Hr.
  - rewrite (bool_decide_eq_true_2 (failed ≠ [])) by done.
    rewrite bind_run. cbn [log_error emit]. cbv beta iota.
    rewrite bind_run.
    destruct (log_items_run (EvLog ERROR) failed
                (emit (EvLog ERROR ("Failed to remove "
                   +:+ pretty (length failed) +:+ " items:")) w2).2)
      as (w3 & E & _).
    unfold log_error at 1. cbn [emit snd] in E |- *.
    change (log_items log_error failed) with
      (log_items (fun line => emit (EvLog ERROR line)) failed).
    rewrite E. cbv beta iota. eexists. split; [reflexivity|done].
Qed.

(** C4: with [--uninstall] the process ends with a non-zero status
    exactly when the removal of some artifact was tried and failed.
    When none of the three artifacts is there, it logs the warning that
    nothing was found and ends with status 0. *)
Theorem uninstall_exit_status args w :
  uninstall args = true ->
  ((run_script env args w).1 ≠ 0
   <-> ∃ a e, a ∈ artifacts env ∧ removal_of env (fs w) a.2 = Failed e)
  ∧ ((∀ a, a ∈ artifacts env -> stat (fs w) a.2 = None) ->
       (run_script env args w).1 = 0
       ∧ last (trace (run_script env args w).2)
         = Some (EvLog WARNING "No Ghostty artifacts found to remove")).
Proof.
  intros Hu. unfold run_script, main. rewrite Hu.
  destruct (uninstall_ghostty_run w) as (w' & -> & Hlast).
  cbn [fst snd]. split.
  - destruct (decide (failed_lines env (fs w) = [])) as [Hf|Hf]; cbn.
    + apply failed_lines_nil in Hf. split; [done|]. intros H. by destruct Hf.
    + split; [|done]. intros _. by apply failed_lines_cons.
  - intros Habsent.
    assert (∀ a, a ∈ artifacts env -> removal_of env (fs w) a.2 = Skipped) as Hs
      by (intros a Ha; by apply removal_of_Skipped, Habsent).
    assert (removed_lines env (fs w) = []) as Hr.
    { pose proof (Hs ("Binary", ghostty_binary env)
                    ltac:(unfold artifacts; set_solver)) as H1.
      pose proof (Hs ("Application desktop file", app_desktop env)
                    ltac:(unfold artifacts; set_solver)) as H2.
      pose proof (Hs ("Dolphin service menu", dolphin_desktop env)
                    ltac:(unfold artifacts; set_solver)) as H3.
      unfold removed_lines, artifacts. cbn in *. by rewrite H1, H2, H3. }
    assert (failed_lines env (fs w) = []) as Hf.
    { apply failed_lines_nil. intros (a & e & Ha & Hfail).
      by rewrite (Hs a Ha) in Hfail. }
    rewrite decide_True by done. split; [done|]. by apply Hlast.
Qed.

End Uninstall.

(** ** What the functions of the container build keep *)

Section Keeping.
Context (env : Env) (I : World -> Prop).
Hypothesis Htrace :
  ∀ w e, I w -> I {| fs := fs w; cwd := cwd w; containers := containers w;
                     trace := trace w ++ [e] |}.
Hypothesis Hcontainers :
  ∀ w f, I w -> I {| fs := fs w; cwd := cwd w; containers := f (containers w);
                     trace := trace w |}.
Hypothesis Kmkdir : ∀ p, steps (keeping I) (mkdir env p).
Hypothesis Kwrite : ∀ p c, steps (keeping I) (write_text env p c).
Hypothesis Kcopy2 : ∀ a b, steps (keeping I) (copy2 env a b).
Hypothesis Kcp : ∀ src x, steps (keeping I) (podman_cp env src (tmp_dir env // x)).
Hypothesis Kmove :
  steps (keeping I)
    (move env (tmp_dir env // "dist") (tmp_dir env // "ghostty-source" // "dist")).

Lemma keeps_emit e : steps (keeping I) (emit e).
Proof. intros w o w' [= <- <-] HI. by apply Htrace. Qed.

Lemma keeps_attempt o : steps (keeping I) (attempt env o).
Proof.
  intros w o' w'. unfold attempt, emit.
  destruct (fault env o); intros [= <- <-] HI; by apply Htrace.
Qed.

Lemma keeps_set_containers f : steps (keeping I) (set_containers f).
Proof. intros w o w' [= <- <-] HI. by apply Hcontainers. Qed.

Lemma keeps_get_fs : steps (keeping I) get_fs.
Proof. apply (steps_read _ (fun w => fs w)). Qed.

Lemma keeps_getcwd : steps (keeping I) getcwd.
Proof. apply (steps_read _ (fun w => cwd w)). Qed.

Lemma keeps_exists p : steps (keeping I) (exists_ p).
Proof. apply (steps_read _ (fun w => bool_decide (is_Some (stat (fs w) p)))). Qed.

Hint Resolve keeps_emit keeps_attempt keeps_set_containers keeps_get_fs
  keeps_getcwd keeps_exists : steps.

Ltac keep := unfold log_info, log_success, log_warning, log_error, print.

Lemma keeps_log_info message : steps (keeping I) (log_info message).
Proof. apply keeps_emit. Qed.
Lemma keeps_log_success message : steps (keeping I) (log_success message).
Proof. apply keeps_emit. Qed.
Lemma keeps_log_error message : steps (keeping I) (log_error message).
Proof. apply keeps_emit. Qed.
Lemma keeps_print text : steps (keeping I) (print text).
Proof. apply keeps_emit. Qed.
Hint Resolve keeps_log_info keeps_log_success keeps_log_error keeps_print : steps.

Lemma keeps_subprocess_run cmd front :
  steps (keeping I) (subprocess_run env cmd front).
Proof. unfold subprocess_run. steps_split fail. Qed.
Hint Resolve keeps_subprocess_run : steps.

Lemma keeps_check_podman : steps (keeping I) (check_podman env).
Proof. unfold check_podman, subprocess_run_check. steps_split fail. Qed.
Hint Resolve keeps_check_podman : steps.

Lemma keeps_container_image v zv nc :
  steps (keeping I) (container_image env v zv nc).
Proof. unfold container_image. steps_split fail. Qed.

Lemma keeps_podman_create c image : steps (keeping I) (podman_create env c image).
Proof. unfold podman_create. steps_split fail. Qed.

Lemma keeps_podman_rm c : steps (keeping I) (podman_rm env c).
Proof. unfold podman_rm. steps_split fail. Qed.
Hint Resolve keeps_podman_create keeps_podman_rm : steps.

Lemma keeps_container_cleanup c : steps (keeping I) (container_cleanup env c).
Proof. unfold container_cleanup. steps_split fail. Qed.

Lemma keeps_read_text p : steps (keeping I) (read_text env p).
Proof. unfold read_text. steps_split fail. Qed.

Lemma keeps_chmod p : steps (keeping I) (chmod env p).
Proof. unfold chmod. steps_split fail. Qed.
Hint Resolve keeps_read_text keeps_chmod : steps.

Lemma keeps_install_desktop_file gd :
  steps (keeping I) (install_desktop_file env gd).
Proof.
  unfold install_desktop_file, install_app_desktop_file,
    install_dolphin_desktop_file.
  steps_split fail.
Qed.
Hint Resolve keeps_install_desktop_file : steps.

Lemma keeps_extract_artifacts c v :
  steps (keeping I) (extract_artifacts_from_container env c v (tmp_dir env)).
Proof. unfold extract_artifacts_from_container. steps_split fail. Qed.
Hint Resolve keeps_extract_artifacts : steps.

(** what [extract_artifacts_from_container] returns *)
Lemma extract_artifacts_returns c v t w r w' :
  extract_artifacts_from_container env c v t w = (Ret r, w') ->
  r = (t // "ghostty", t // "dist").
Proof.
  unfold extract_artifacts_from_container. rewrite !bind_run.
  repeat (case_match; simplify_eq; try done; rewrite ?bind_run).
  cbn. by intros [= <- _].
Qed.

Lemma keeps_container_install c v :
  steps (keeping I) (container_install env c v (tmp_dir env)).
Proof.
  intros w o w' Hrun HI. unfold container_install in Hrun.
  rewrite bind_run in Hrun.
  destruct (extract_artifacts_from_container env c v (tmp_dir env) w)
    as [[r|e|code] w1] eqn:E;
    pose proof (keeps_extract_artifacts c v _ _ _ E HI) as HI1;
    [|by simplify_eq..].
  apply extract_artifacts_returns in E as ->. cbv beta iota zeta in Hrun.
  match type of Hrun with
  | ?m w1 = _ => assert (steps (keeping I) m) as Hk by (steps_split fail)
  end.
  exact (Hk _ _ _ Hrun HI1).
Qed.

End Keeping.

Lemma try_finally_run {A} (body : M A) cleanup w o w' :
  try_finally body cleanup w = (o, w') ->
  ∃ ob wb oc,
    body w = (ob, wb) ∧ cleanup wb = (oc, w')
    ∧ o = match oc with
          | Ret _ => ob
          | Raise e => Raise e
          | Exit code => Exit code
          end.
Proof.
  unfold try_finally. destruct (body w) as [ob wb].
  destruct (cleanup wb) as [[[]|e|code] w2] eqn:Ec; intros [= <- <-];
    by exists ob, wb, (fst (cleanup wb)); rewrite Ec.
Qed.

Lemma since_app w w' l : trace w' = trace w ++ l -> since w w' = l.
Proof. intros E. unfold since. by rewrite E, drop_app_length. Qed.

Lemma emitting_any w w' l :
  trace w' = trace w ++ l -> emitting (fun _ => True) w w'.
Proof. intros E. exists l. split; [done|]. by apply Forall_forall. Qed.

(** a container installation that returns has installed the descriptors
    from the tree copied out of the container *)
Lemma container_install_installs env c v t w w' :
  container_install env c v t w = (Ret tt, w') ->
  ∃ u, install_desktop_file env (t // "ghostty-source") u = (Ret tt, w').
Proof.
  unfold container_install.
  intros ([binary_path dist_dir] & w1 & _ & Hrun)%bind_Ret.
  cbv beta iota zeta in Hrun.
  do 8 (apply bind_Ret in Hrun as ([] & ? & _ & Hrun)).
  eauto.
Qed.

Section Container.
Context (env : Env) (c : path).

Ltac at_temp_dir k Ht :=
  destruct (decide (k = tmp_dir env)) as [Heq|Hne];
  [ rewrite ?Heq in *; rewrite ?(stat_entry _ _ _ Ht) in *; simplify_eq
  | by rewrite lookup_insert_ne ].

Lemma intact_mkdir p : steps (keeping (temp_dir_intact env c)) (mkdir env p).
Proof.
  intros w o w' Hrun [Ht Hc]. revert Hrun. unfold mkdir. unfold_monad. cbn.
  destruct (fault env (Mkdir p)); cbn; [by intros [= <- <-]|].
  destruct (stat (fs w) p) as [[|]|] eqn:Hst; cbn; intros [= <- <-];
    split; cbn; try done.
  destruct (decide (p = tmp_dir env)) as [->|Hne];
    [by rewrite lookup_insert_eq|by rewrite lookup_insert_ne].
Qed.

Lemma intact_write_text p content :
  steps (keeping (temp_dir_intact env c)) (write_text env p content).
Proof.
  intros w o w' Hrun [Ht Hc]. revert Hrun. unfold write_text. unfold_monad. cbn.
  destruct (fault env (Write p)); cbn; [by intros [= <- <-]|].
  destruct (stat (fs w) p) as [[|]|] eqn:Hst; cbn; intros [= <- <-];
    split; cbn; try done; at_temp_dir p Ht.
Qed.

Lemma intact_copy2 a b : steps (keeping (temp_dir_intact env c)) (copy2 env a b).
Proof.
  intros w o w' Hrun [Ht Hc]. revert Hrun. unfold copy2. unfold_monad. cbn.
  destruct (fault env (Copy2 a b)); cbn; [by intros [= <- <-]|].
  destruct (stat (fs w) a) as [[bytes|]|]; cbn; [|by intros [= <- <-]..].
  destruct (stat (fs w) b) as [[|]|]; cbn.
  - destruct (stat (fs w) b) as [[|]|] eqn:Hst; cbn; intros [= <- <-];
      split; cbn; try done; at_temp_dir b Ht.
  - destruct (stat (fs w) (b // name a)) as [[|]|] eqn:Hst; cbn;
      intros [= <- <-]; split; cbn; try done; at_temp_dir (b // name a) Ht.
  - destruct (stat (fs w) b) as [[|]|] eqn:Hst; cbn; intros [= <- <-];
      split; cbn; try done; at_temp_dir b Ht.
Qed.

Lemma intact_podman_cp src x :
  steps (keeping (temp_dir_intact env c)) (podman_cp env src (tmp_dir env // x)).
Proof.
  intros w o w' Hrun [Ht Hc]. revert Hrun.
  unfold podman_cp, subprocess_run. unfold_monad. cbn.
  destruct (fault env (Run _ _ _)); cbn; [by intros [= <- <-]|].
  destruct (decide _); cbn; intros [= <- <-]; split; cbn; try done.
  rewrite write_tree_other; [done|]. by apply longer_not_prefix.
Qed.

Lemma intact_move :
  steps (keeping (temp_dir_intact env c))
    (move env (tmp_dir env // "dist") (tmp_dir env // "ghostty-source" // "dist")).
Proof.
  intros w o w' Hrun [Ht Hc]. revert Hrun. unfold move. unfold_monad. cbn.
  destruct (fault env (Move _ _)); cbn; [by intros [= <- <-]|].
  destruct (stat (fs w) (tmp_dir env // "dist")); cbn; [|by intros [= <- <-]].
  destruct (stat (fs w) _) as [[|]|]; cbn; intros [= <- <-]; split; cbn;
    try done; unfold move_tree, join;
    (rewrite write_tree_other;
     [|rewrite <- !(assoc_L (++)); by apply longer_not_prefix]);
    (rewrite outside_other; [done|by apply longer_not_prefix]).
Qed.

Lemma intact_trace w e :
  temp_dir_intact env c w ->
  temp_dir_intact env c {| fs := fs w; cwd := cwd w; containers := containers w;
                           trace := trace w ++ [e] |}.
Proof. done. Qed.

Lemma intact_containers w f :
  temp_dir_intact env c w ->
  temp_dir_intact env c {| fs := fs w; cwd := cwd w;
                           containers := f (containers w); trace := trace w |}.
Proof. done. Qed.

Lemma intact_container_install v :
  steps (keeping (temp_dir_intact env c))
    (container_install env (container_name env) v (tmp_dir env)).
Proof.
  apply keeps_container_install;
    auto using intact_trace, intact_containers, intact_mkdir,
      intact_write_text, intact_copy2, intact_podman_cp, intact_move.
Qed.

Lemma intact_container_cleanup :
  steps (keeping (temp_dir_intact env c))
    (container_cleanup env (container_name env)).
Proof. apply keeps_container_cleanup; auto using intact_trace, intact_containers. Qed.

(** the inner [try]/[finally], lines 551-584, from a world where the
    process is in [c]: [podman rm] is run, and when it succeeds the
    container is gone *)
Lemma container_finally_run v w o w' :
  temp_dir_intact env c w ->
  try_finally (container_install env (container_name env) v (tmp_dir env))
    (container_cleanup env (container_name env)) w = (o, w') ->
  temp_dir_intact env c w'
  ∧ emitting (fun _ => True) w w'
  ∧ EvOp (Run (rm_cmd env) c None) ∈ since w w'
  ∧ (container_removable env c -> container_name env ∉ containers w')
  ∧ (o = Ret tt ->
       ∃ u u', install_desktop_file env (tmp_dir env // "ghostty-source") u
               = (Ret tt, u')
               ∧ fs w' = fs u').
Proof.
  intros HI Hrun.
  assert (temp_dir_intact env c w') as HI'.
  { eapply (steps_try_finally (keeping (temp_dir_intact env c)));
      [apply intact_container_install|apply intact_container_cleanup
      |exact Hrun|exact HI]. }
  split; [exact HI'|].
  unfold try_finally in Hrun.
  destruct (container_install env (container_name env) v (tmp_dir env) w)
    as [o1 w1] eqn:E1.
  assert (temp_dir_intact env c w1) as [_ Hc1]
    by (eapply intact_container_install; [exact E1|exact HI]).
  assert (emitting (fun _ => True) w w1) as G1
    by (eapply (emits_container_install env); [done| |exact E1]; done).
  revert Hrun. unfold container_cleanup, podman_rm, subprocess_run.
  unfold_monad. cbn. rewrite Hc1. unfold container_removable.
  fold (rm_cmd env).
  destruct (fault env (Run (rm_cmd env) c None)) as [e|]; cbn;
    [|destruct (decide ((completed env (rm_cmd env) c None).1.1 = 0))
        as [Hrc|Hrc]; cbn];
    intros [= <- <-];
    match goal with
    | |- emitting _ w ?w2 ∧ _ =>
        assert (emitting (fun _ => True) w1 w2) as G2
          by (eapply emitting_any; cbn; rewrite <- ?(assoc_L (++)); reflexivity)
    end;
    (split; [by etrans|]);
    (split; [rewrite (since_trans _ _ _ _ G1 G2); apply elem_of_app; right;
             since_simpl; set_solver|]);
    (split; [cbn; intros [? ?]; simplify_eq; set_solver|]);
    intros Ho; try discriminate Ho; subst o1;
    destruct (container_install_installs _ _ _ _ _ _ E1) as (u & Hu);
    by exists u, w1.
Qed.

(** the outer [finally], lines 586-589, from a world where the temporary
    directory is there *)
Lemma temp_dir_cleanup_run w o w' :
  temp_dir_intact env c w ->
  temp_dir_cleanup env (tmp_dir env) w = (o, w') ->
  trace w' = trace w ++ [EvOp (Rmtree (tmp_dir env))]
  ∧ containers w' = containers w
  ∧ cwd w' = c
  ∧ (fault env (Rmtree (tmp_dir env)) = None ->
       o = Ret tt ∧ stat (fs w') (tmp_dir env) = None)
  ∧ (o = Ret tt -> fs w' = outside (tmp_dir env) (fs w)).
Proof.
  intros [Ht Hc]. unfold temp_dir_cleanup, rmtree. unfold_monad. cbn.
  rewrite (stat_entry _ _ _ Ht). cbn.
  destruct (fault env (Rmtree (tmp_dir env))); cbn;
    rewrite ?(stat_entry _ _ _ Ht); cbn; intros [= <- <-];
    (split; [done|]); repeat split; try done.
  cbn. apply stat_outside.
Qed.

(** lines 532-589 *)
Lemma container_extract_run v w o w' :
  temp_dir_intact env c w ->
  container_extract env (container_name env) v (tmp_dir env) w = (o, w') ->
  emitting (fun _ => True) w w'
  ∧ cwd w' = c
  ∧ EvOp (Rmtree (tmp_dir env)) ∈ since w w'
  ∧ (fault env (Rmtree (tmp_dir env)) = None ->
       stat (fs w') (tmp_dir env) = None)
  ∧ (container_created env v c ->
       EvOp (Run (rm_cmd env) c None) ∈ since w w'
       ∧ (container_removable env c -> container_name env ∉ containers w'))
  ∧ (o = Ret tt ->
       ∃ u u', install_desktop_file env (tmp_dir env // "ghostty-source") u
               = (Ret tt, u')
               ∧ fs w' = outside (tmp_dir env) (fs u')).
Proof.
  intros HI Hrun. unfold container_extract in Hrun.
  apply try_finally_run in Hrun as (ob & wb & oc & Eb & Ec & Ho).
  assert (temp_dir_intact env c wb
          ∧ emitting (fun _ => True) w wb
          ∧ (container_created env v c ->
               EvOp (Run (rm_cmd env) c None) ∈ since w wb
               ∧ (container_removable env c ->
                    container_name env ∉ containers wb))
          ∧ (ob = Ret tt ->
               ∃ u u', install_desktop_file env (tmp_dir env // "ghostty-source") u
                       = (Ret tt, u')
                       ∧ fs wb = fs u'))
    as (HIb & Gb & Hcontainer & Hinst).
  { revert Eb. rewrite bind_run. cbn [log_info emit]. cbv beta iota.
    rewrite bind_run. unfold podman_create, subprocess_run at 1.
    unfold mbind, M_bind, mret, M_ret, sys_exit, attempt, emit,
      set_containers, getcwd, log_error.
    cbn [fs cwd containers trace]. cbv beta iota.
    destruct HI as [Ht Hc]. rewrite Hc. unfold container_created.
    fold (create_cmd env v).
    destruct (fault env (Run (create_cmd env v) c None)) as [e|]; cbn.
    { intros [= <- <-]. split; [done|]. split; [|split; [by intros [? _]|done]].
      eapply emitting_any. cbn. by rewrite <- (assoc_L (++)). }
    destruct (decide ((completed env (create_cmd env v) c None).1.1 = 0))
      as [Hrc|Hrc]; cbn.
    2:{ destruct (decide _) as [|Hn]; [|by destruct Hn].
        cbn. intros [= <- <-]. split; [done|].
        split; [|split; [by intros [_ ?]|done]].
        eapply emitting_any. cbn. by rewrite <- !(assoc_L (++)). }
    destruct (decide _) as [Hn|_]; [done|]. cbn.
    intros Hfin.
    match type of Hfin with
    | try_finally _ _ ?w0 = _ =>
        assert (emitting (fun _ => True) w w0) as G0
          by (eapply emitting_any; cbn; rewrite <- ?(assoc_L (++)); reflexivity);
        destruct (container_finally_run v w0 ob wb ltac:(done) Hfin)
          as (HIb & G1 & Hrm & Hgone & Hinst)
    end.
    split; [done|]. split; [by etrans|]. split; [|done]. intros _. split; [|done].
    rewrite (since_trans _ _ _ _ G0 G1). apply elem_of_app. by right. }
  destruct (temp_dir_cleanup_run wb oc w' HIb Ec)
    as (Hs & Hcont & Hcwd & Hgone & Hout).
  pose proof (emitting_any _ _ _ Hs) as G2.
  split; [by etrans|]. split; [done|]. split.
  { rewrite (since_trans _ _ _ _ Gb G2), (since_app _ _ _ Hs). set_solver. }
  split; [by intros H; apply Hgone|]. split.
  - intros Hcr. destruct (Hcontainer Hcr) as [Hrm Hrmd]. split.
    + rewrite (since_trans _ _ _ _ Gb G2). apply elem_of_app. by left.
    + intros Hr. rewrite Hcont. by apply Hrmd.
  - intros ->. destruct oc as [[]|e|code]; [|done..]. subst ob.
    destruct (Hinst eq_refl) as (u & u' & Hu & Hfs).
    exists u, u'. split; [done|]. by rewrite (Hout eq_refl), Hfs.
Qed.

End Container.

Section ContainerBuild.
Context (env : Env).

(** the temporary directory is only made once the image is built *)
Lemma container_image_before_temp_dir v zv nc w o w' :
  container_image env v zv nc w = (o, w') ->
  (EvOp Mkdtemp ∉ since w w') ∧ cwd w' = cwd w ∧ emitting (fun _ => True) w w'.
Proof.
  intros Hrun. split; [|split].
  - assert (emitting (fun e => e ≠ EvOp Mkdtemp) w w') as G
      by (eapply (emits_container_image env); [done|done| |exact Hrun];
          intros; congruence).
    apply emitting_since in G. intros Hin.
    by apply (proj1 (Forall_forall _ _) G _ Hin).
  - by eapply (keeps_container_image env (fun w' => cwd w' = cwd w));
      [done|exact Hrun|].
  - eapply (emits_container_image env); [done|done| |exact Hrun]; done.
Qed.

(** C5: once [mkdtemp] has made the temporary directory, every way out
    of the container build goes through both [finally] blocks.
    [shutil.rmtree] is called on the temporary directory, and unless
    that call itself raises the directory is gone when the function
    ends; if [podman create] made the container, [podman rm] is run on
    it, and unless that command itself fails the container is gone.
    This holds whatever the steps in between do: a failed copy out of
    the container, a failed installation, an exit. *)
Theorem container_cleanup_guaranteed v zv nc w o w' :
  build_ghostty_container env v zv nc w = (o, w') ->
  EvOp Mkdtemp ∈ since w w' ->
  fault env Mkdtemp = None ->
  EvOp (Rmtree (tmp_dir env)) ∈ since w w'
  ∧ (fault env (Rmtree (tmp_dir env)) = None ->
       stat (fs w') (tmp_dir env) = None)
  ∧ (container_created env v (cwd w) ->
       EvOp (Run (rm_cmd env) (cwd w) None) ∈ since w w'
       ∧ (container_removable env (cwd w) ->
            container_name env ∉ containers w')).
Proof.
  intros Hrun Hmade Hmk. unfold build_ghostty_container in Hrun.
  rewrite bind_run in Hrun.
  destruct (container_image env v zv nc w) as [[[]|e|code] w0] eqn:E0;
    destruct (container_image_before_temp_dir _ _ _ _ _ _ E0)
      as (Hnot & Hc0 & G0);
    [|by simplify_eq..].
  cbv zeta in Hrun. rewrite bind_run in Hrun.
  unfold mkdtemp at 1 in Hrun.
  unfold mbind at 1 2, M_bind at 1 2, attempt, emit, set_fs, mret, M_ret in Hrun.
  rewrite Hmk in Hrun. cbn [fs cwd containers trace] in Hrun. cbv beta iota in Hrun.
  rewrite bind_run in Hrun.
  match type of Hrun with
  | context [container_extract env _ v (tmp_dir env) ?w1] =>
      assert (temp_dir_intact env (cwd w) w1) as HI
        by (split; [apply lookup_insert_eq|exact Hc0]);
      assert (emitting (fun _ => True) w0 w1) as G1
        by (by eapply emitting_any);
      destruct (container_extract env (container_name env) v (tmp_dir env) w1)
        as [oe w2] eqn:Ee;
      destruct (container_extract_run env (cwd w) v w1 oe w2 HI Ee)
        as (G2 & Hc2 & Hrm & Hgone & Hcontainer & _)
  end.
  assert (emitting (fun _ => True) w w2) as G02 by (etrans; [|etrans]; done).
  assert (fs w' = fs w2 ∧ containers w' = containers w2
          ∧ emitting (fun _ => True) w2 w') as (Hfs & Hcs & G3).
  { destruct oe as [[]|e|code]; [|by simplify_eq..].
    revert Hrun. unfold verify_build. unfold_monad. cbn.
    destruct (bool_decide _); cbn; intros [= <- <-]; cbn;
      (split; [done|]); (split; [done|]);
      eapply emitting_any; cbn; by rewrite <- ?(assoc_L (++)). }
  rewrite Hfs, Hcs, (since_trans _ _ _ _ G02 G3).
  rewrite (since_trans _ _ _ _ (transitivity G0 G1) G2).
  split; [set_solver|]. split; [done|].
  intros Hcr. destruct (Hcontainer Hcr) as [? ?]. split; [set_solver|done].
Qed.

End ContainerBuild.

Section Descriptors.
Context (env : Env).

Ltac descriptor_leaf :=
  intros [= <- <-]; cbn;
  (split; [since_simpl; unfold dolphin_installed; set_unfold; naive_solver|]);
  (split; [since_simpl; unfold app_installed, dolphin_installed;
           intros Hin;
           first [ by rewrite lookup_insert_eq
                 | exfalso; set_unfold; naive_solver ]|]);
  (split; [intros p ? ?; by rewrite ?lookup_insert_ne by done
          |intros p ? ?; by rewrite ?stat_insert_other by done]).

(** lines 254-289, run on a tree that has the template *)
Lemma install_app_desktop_file_run gd u o u' template :
  install_app_desktop_file env gd u = (o, u') ->
  fs u !! app_template gd = Some (File template) ->
  emitting (fun _ => True) u u'
  ∧ (dolphin_installed env ∉ since u u')
  ∧ (app_installed env ∈ since u u' ->
       fs u' !! app_desktop env = Some (File (render env template)))
  ∧ (∀ p, p ≠ home env // ".local" // "share" // "applications" ->
          p ≠ app_desktop env -> fs u' !! p = fs u !! p)
  ∧ (∀ p, ¬ p `prefix_of` (home env // ".local" // "share" // "applications") ->
          ¬ p `prefix_of` app_desktop env -> stat (fs u') p = stat (fs u) p).
Proof.
  intros Hrun Ht. split.
  { eapply (emits_install_app_desktop_file env); [done| |exact Hrun]; done. }
  revert Hrun.
  unfold install_app_desktop_file, mkdir, read_text, write_text, app_template,
    app_desktop, render, ghostty_binary in *.
  unfold_monad. cbn.
  set (src := gd // "dist" // "linux" // "app.desktop.in") in *.
  set (appdir := home env // ".local" // "share" // "applications").
  assert (src ≠ appdir) as Hsa by (apply join_ne; done).
  assert (src ≠ appdir // "ghostty.desktop") as Hsd by (apply join_ne; done).
  rewrite (stat_entry _ _ _ Ht). cbn.
  destruct (fault env (Mkdir appdir)); cbn; [descriptor_leaf|].
  destruct (stat (fs u) appdir) as [[|]|] eqn:Had; cbn; [descriptor_leaf|..];
    (destruct (fault env (Read src)); cbn; [descriptor_leaf|]);
    rewrite ?(stat_entry _ src (File template))
      by (by rewrite ?lookup_insert_ne by done); cbn;
    (destruct (fault env (Write (appdir // "ghostty.desktop"))); cbn;
     [descriptor_leaf|]);
    (destruct (stat _ (appdir // "ghostty.desktop")) as [[|]|]; cbn;
     descriptor_leaf).
Qed.

Lemma name_join (p : path) x : name (p // x) = x.
Proof. unfold name, join. apply last_last. Qed.

Ltac dolphin_leaf Hnd :=
  intros [= <- <-]; cbn;
  (split; [since_simpl; unfold app_installed; set_unfold; naive_solver|]);
  (split; [since_simpl; unfold app_installed, dolphin_installed;
           intros Hin Hnotdir;
           first [ by rewrite lookup_insert_eq
                 | exfalso; set_unfold; naive_solver ]
          |by rewrite ?lookup_insert_ne by done]).

(** lines 292-318, run on a tree that has the service menu file *)
Lemma install_dolphin_desktop_file_run gd u o u' content :
  install_dolphin_desktop_file env gd u = (o, u') ->
  fs u !! dolphin_source gd = Some (File content) ->
  emitting (fun _ => True) u u'
  ∧ (app_installed env ∉ since u u')
  ∧ (dolphin_installed env ∈ since u u' ->
     stat (fs u) (dolphin_desktop env) ≠ Some Dir ->
       fs u' !! dolphin_desktop env = Some (File content))
  ∧ fs u' !! app_desktop env = fs u !! app_desktop env.
Proof.
  intros Hrun Ht. split.
  { eapply (emits_install_dolphin_desktop_file env); [done| |exact Hrun]; done. }
  revert Hrun.
  unfold install_dolphin_desktop_file, mkdir, copy2, dolphin_source,
    dolphin_desktop, app_desktop in *.
  unfold_monad. cbn.
  set (src := gd // "dist" // "linux" // "ghostty_dolphin.desktop") in *.
  set (kio := home env // ".local" // "share" // "kio" // "servicemenus").
  set (app := home env // ".local" // "share" // "applications"
              // "ghostty.desktop").
  assert (name src = "ghostty_dolphin.desktop") as -> by apply name_join.
  assert (src ≠ kio) as Hsk by (apply join_ne; done).
  assert (kio ≠ app) as Hka by (apply join_ne; done).
  assert (kio // "com.mitchellh.ghostty.desktop" ≠ app) as Hda
    by (apply join_ne; done).
  assert (kio // "com.mitchellh.ghostty.desktop" // "ghostty_dolphin.desktop"
          ≠ app) as Hta by (apply join_ne; done).
  assert (¬ (kio // "com.mitchellh.ghostty.desktop") `prefix_of` kio) as Hpk
    by (by apply longer_not_prefix).
  rewrite (stat_entry _ _ _ Ht). cbn.
  destruct (fault env (Mkdir kio)); cbn; [dolphin_leaf Hpk|].
  destruct (stat (fs u) kio) as [[|]|] eqn:Hkio; cbn; [dolphin_leaf Hpk|..];
    (destruct (fault env (Copy2 src (kio // "com.mitchellh.ghostty.desktop")));
     cbn; [dolphin_leaf Hpk|]);
    rewrite ?(stat_entry _ src (File content))
      by (by rewrite ?lookup_insert_ne by done); cbn;
    rewrite ?(stat_insert_other _ kio _ (kio // "com.mitchellh.ghostty.desktop"))
      by done;
    (destruct (stat (fs u) (kio // "com.mitchellh.ghostty.desktop"))
       as [[|]|] eqn:Hdst; cbn;
     rewrite ?(stat_insert_other _ kio _ (kio // "com.mitchellh.ghostty.desktop"))
       by done;
     rewrite ?Hdst; cbn;
     [dolphin_leaf Hpk
     |destruct (stat _ (kio // "com.mitchellh.ghostty.desktop"
                        // "ghostty_dolphin.desktop")) as [[|]|]; cbn;
      dolphin_leaf Hpk
     |dolphin_leaf Hpk]).
Qed.

Lemma dolphin_desktop_apart :
  ¬ dolphin_desktop env `prefix_of` (home env // ".local" // "share" // "applications")
  ∧ ¬ dolphin_desktop env `prefix_of` app_desktop env.
Proof.
  unfold dolphin_desktop, app_desktop, join.
  rewrite <- !(assoc_L (++)). cbn [app].
  split; intros Hp%prefix_app_inv; revert Hp; decide_by_compute.
Qed.

(** lines 243-251, run on a tree that has both descriptor sources: what
    a reported installation has written *)
Lemma install_desktop_file_outputs gd u o u' template content :
  install_desktop_file env gd u = (o, u') ->
  fs u !! app_template gd = Some (File template) ->
  fs u !! dolphin_source gd = Some (File content) ->
  (app_installed env ∈ since u u' ->
     fs u' !! app_desktop env = Some (File (render env template)))
  ∧ (dolphin_installed env ∈ since u u' ->
     stat (fs u) (dolphin_desktop env) ≠ Some Dir ->
       fs u' !! dolphin_desktop env = Some (File content)).
Proof.
  intros Hrun Ha Hd. unfold install_desktop_file in Hrun.
  rewrite bind_run in Hrun. cbn [log_info emit] in Hrun. cbv beta iota in Hrun.
  rewrite bind_run in Hrun.
  match type of Hrun with
  | context [install_app_desktop_file env gd ?u0] =>
      assert (emitting (fun _ => True) u u0) as G0
        by (by eapply emitting_any);
      assert (since u u0 = [EvLog INFO "Installing desktop files..."]) as S0
        by (by apply since_app);
      destruct (install_app_desktop_file env gd u0) as [o1 u1] eqn:E1;
      destruct (install_app_desktop_file_run gd u0 o1 u1 template E1 Ha)
        as (G1 & Hnd & Happ & Hframe & Hstat)
  end.
  cbn [fs] in Hframe, Hstat.
  destruct dolphin_desktop_apart as [Hp1 Hp2].
  assert (fs u1 !! dolphin_source gd = Some (File content)) as Hd1.
  { rewrite Hframe; [done|by apply join_ne..]. }
  destruct o1 as [[]|e|code].
  - destruct (install_dolphin_desktop_file_run gd u1 o u' content Hrun Hd1)
      as (G2 & Hna & Hdol & Hkeep).
    rewrite (since_trans _ _ _ _ (transitivity G0 G1) G2).
    rewrite (since_trans _ _ _ _ G0 G1), S0. split.
    + intros Hin. rewrite Hkeep. apply Happ.
      unfold app_installed in *. set_unfold. naive_solver.
    + intros Hin Hdir. apply Hdol.
      * unfold dolphin_installed in *. set_unfold. naive_solver.
      * by rewrite Hstat.
  - simplify_eq. rewrite (since_trans _ _ _ _ G0 G1), S0. split.
    + intros Hin. apply Happ. unfold app_installed in *.
      set_unfold. naive_solver.
    + intros Hin. exfalso. unfold dolphin_installed in *.
      set_unfold. naive_solver.
  - simplify_eq. rewrite (since_trans _ _ _ _ G0 G1), S0. split.
    + intros Hin. apply Happ. unfold app_installed in *.
      set_unfold. naive_solver.
    + intros Hin. exfalso. unfold dolphin_installed in *.
      set_unfold. naive_solver.
Qed.

End Descriptors.

Section Convergence.
Context (env : Env).

(** lines 392-406 *)
Lemma verify_build_run w ok w' :
  verify_build env w = (Ret ok, w') ->
  ok = bool_decide (is_Some (stat (fs w) (ghostty_binary env)))
  ∧ fs w' = fs w ∧ containers w' = containers w.
Proof.
  unfold verify_build, ghostty_binary. unfold_monad. cbn.
  destruct (bool_decide _); cbn; by intros [= <- <-].
Qed.

End Convergence.

(** ** The extractors, the probes and the steps of the container build *)

Section Extractors.
Context (env : Env).

(** X1: none of the three extractors raises.  Each one returns after
    logging that the archive was extracted, or logs the failure and ends
    the process with exit status 1; an archive that is not there (or is
    a directory) is such a failure, and nothing on disk has changed. *)
Theorem extractors_exit_on_failure a d w r :
  r ∈ [extract_tar_gz env a d w; extract_tar_xz env a d w; extract_zip env a d w] ->
  (∀ e, r.1 ≠ Raise e)
  ∧ (∀ code, r.1 = Exit code ->
       code = 1
       ∧ ∃ msg, last (trace r.2)
                = Some (EvLog ERROR ("Failed to extract " +:+ path_str a +:+ ": " +:+ msg)))
  ∧ (r.1 = Ret tt ->
       (∃ bytes, fs w !! a = Some (File bytes))
       ∧ last (trace r.2) = Some (EvLog SUCCESS ("Extracted " +:+ name a)))
  ∧ ((∀ bytes, fs w !! a ≠ Some (File bytes)) -> r.1 = Exit 1 ∧ fs r.2 = fs w).
Proof.
  intros Hr. set_unfold in Hr.
  destruct Hr as [-> | [-> | [-> | []]]];
    unfold extract_tar_gz, extract_tar_xz, extract_zip, tar_extractall,
      zip_extractall; unfold_monad; cbn;
    (destruct (stat (fs w) a) as [[bytes|]|] eqn:Hst; cbn);
    try apply stat_File in Hst;
    try match goal with
        | |- context [fault env ?o] => destruct (fault env o) as [e|]; cbn
        end;
    (split; [done|]);
    (split; [intros code Hc; try discriminate Hc; injection Hc as <-;
             (split; [done|]); eexists; apply last_snoc|]);
    (split; [intros Hr; try discriminate Hr;
             (split; [by eexists|apply last_snoc])|]);
    intros Hno; try done; by destruct (Hno bytes).
Qed.

End Extractors.

Section Probes.
Context (env : Env).

(** X2: without a working [minisign] the validation stops at the probe.
    A probe that cannot be started ([FileNotFoundError]) or exits with a
    non-zero status ([CalledProcessError]) ends the process with exit
    status 1; any other exception of the probe is not handled and
    propagates.  In each case the probe is the only operation: no key
    file is made and the disk is as it was. *)
Theorem validate_signature_needs_verifier a sg key w :
  ¬ verifier_available env w ->
  ∃ w',
    validate_signature env a sg key w
    = (match fault env (Run minisign_probe (cwd w) None) with
       | Some e => if probe_handles e then Exit 1 else Raise e
       | None => Exit 1
       end, w')
    ∧ fs w' = fs w
    ∧ ∀ o, EvOp o ∈ since w w' -> o = Run minisign_probe (cwd w) None.
Proof.
  unfold verifier_available, validate_signature, subprocess_run_check,
    subprocess_run, probe_handles.
  unfold_monad. cbn. intros Hno.
  destruct (fault env (Run minisign_probe (cwd w) None)) as [e|]; cbn.
  - destruct (bool_decide _); cbn; eexists; (split; [reflexivity|]);
      (split; [done|]); intros o; since_simpl; set_unfold; naive_solver.
  - destruct (decide _) as [Hrc|Hrc]; [by destruct Hno|]. cbn.
    eexists; (split; [reflexivity|]); (split; [done|]).
    intros o; since_simpl; set_unfold; naive_solver.
Qed.

(** X3: with a working [minisign] and no primitive raising,
    [validate_signature] returns [True] exactly when [minisign -V] exits
    with status 0.  It runs the probe, writes the key file, runs the
    verifier on the archive and removes the key file, in this order, and
    leaves the disk as it was (but for a file that was in the place of
    the key file). *)
Theorem validate_signature_verdict a sg key w :
  verifier_available env w ->
  ¬ internal_error env a w ->
  ∃ w',
    validate_signature env a sg key w
    = (Ret (bool_decide
              ((completed env (minisign_verify (tmp_key_file env) a) (cwd w) None).1.1
               = 0)), w')
    ∧ fs w' = delete (tmp_key_file env) (fs w)
    ∧ cwd w' = cwd w
    ∧ operations (since w w')
      = [Run minisign_probe (cwd w) None;
         NamedTemporaryFile;
         Write (tmp_key_file env);
         Run (minisign_verify (tmp_key_file env) a) (cwd w) None;
         Unlink (tmp_key_file env)].
Proof.
  intros [Hprobe Hrc] Hno.
  unfold validate_signature, validate_signature_body, subprocess_run_check,
    subprocess_run, write_text, unlink, internal_error in *.
  unfold_monad. cbn in *. rewrite Hprobe. cbn. rewrite Hrc.
  destruct (decide (0 = 0)) as [_|]; [|done]. cbn.
  destruct (fault env NamedTemporaryFile) as [e1|]; [destruct Hno; eauto|]. cbn.
  destruct (fault env (Write (tmp_key_file env))) as [e2|];
    [destruct Hno; eauto|]. cbn.
  rewrite (stat_entry _ (tmp_key_file env) (File "")) by apply lookup_insert_eq.
  cbn.
  destruct (fault env (Run (minisign_verify _ _) (cwd w) None)) as [e3|];
    [destruct Hno; eauto|]. cbn.
  destruct (fault env (Unlink (tmp_key_file env))) as [e4|];
    [destruct Hno; eauto 6|]. cbn.
  rewrite (stat_entry _ (tmp_key_file env) (File key)) by apply lookup_insert_eq.
  cbn.
  destruct (decide _) as [Hv|Hv]; cbn; eexists;
    (split; [by rewrite ?bool_decide_eq_true_2, ?bool_decide_eq_false_2 by done|]);
    cbn; (split; [by rewrite !delete_insert_eq|]); (split; [done|]);
    since_simpl; reflexivity.
Qed.

(** X11: [check_podman] never exits and never touches the disk.  It
    returns [True] exactly when [podman --version] exits with status 0,
    [False] when the command exits with another status or cannot be
    started, and lets any other exception of the probe propagate. *)
Theorem check_podman_result w :
  ∃ w',
    check_podman env w
    = (match fault env (Run podman_probe (cwd w) None) with
       | Some e => if probe_handles e then Ret false else Raise e
       | None =>
           Ret (bool_decide ((completed env podman_probe (cwd w) None).1.1 = 0))
       end, w')
    ∧ fs w' = fs w ∧ cwd w' = cwd w ∧ containers w' = containers w
    ∧ ∀ o, EvOp o ∈ since w w' -> o = Run podman_probe (cwd w) None.
Proof.
  unfold check_podman, subprocess_run_check, subprocess_run, probe_handles,
    podman_probe.
  unfold_monad. cbn.
  destruct (fault env (Run _ (cwd w) None)) as [e|]; cbn.
  - destruct (bool_decide _); cbn; eexists; (split; [reflexivity|]);
      repeat (split; [done|]); intros o; since_simpl; set_unfold; naive_solver.
  - destruct (decide _) as [Hrc|Hrc]; cbn;
      [rewrite (bool_decide_eq_true_2 _ Hrc)|rewrite (bool_decide_eq_false_2 _ Hrc)];
      eexists; (split; [reflexivity|]);
      repeat (split; [done|]); intros o; since_simpl; set_unfold; naive_solver.
Qed.

End Probes.

Section ContainerSteps.
Context (env : Env).

(** X12: [extract_artifacts_from_container] never exits.  It returns
    the two paths under the temporary directory only when both copies
    exited with status 0.  A binary copy that exits with another status
    raises [RuntimeError] before the second copy is tried and with the
    disk as it was; a failed copy of the descriptor tree raises
    [RuntimeError] as well. *)
Theorem extract_artifacts_result c v t w o w' :
  extract_artifacts_from_container env c v t w = (o, w') ->
  (∀ code, o ≠ Exit code)
  ∧ (∀ r, o = Ret r ->
       r = (t // "ghostty", t // "dist")
       ∧ (completed env (cp_binary_cmd c t) (cwd w) None).1.1 = 0
       ∧ (completed env (cp_dist_cmd c v t) (cwd w) None).1.1 = 0)
  ∧ (fault env (Run (cp_binary_cmd c t) (cwd w) None) = None ->
     (completed env (cp_binary_cmd c t) (cwd w) None).1.1 ≠ 0 ->
       o = Raise (Exn RuntimeError "Binary extraction failed")
       ∧ fs w' = fs w
       ∧ operations (since w w') = [Run (cp_binary_cmd c t) (cwd w) None])
  ∧ (fault env (Run (cp_binary_cmd c t) (cwd w) None) = None ->
     (completed env (cp_binary_cmd c t) (cwd w) None).1.1 = 0 ->
     fault env (Run (cp_dist_cmd c v t) (cwd w) None) = None ->
     (completed env (cp_dist_cmd c v t) (cwd w) None).1.1 ≠ 0 ->
       o = Raise (Exn RuntimeError "Desktop files extraction failed")
       ∧ operations (since w w')
         = [Run (cp_binary_cmd c t) (cwd w) None;
            Run (cp_dist_cmd c v t) (cwd w) None]).
Proof.
  unfold extract_artifacts_from_container, podman_cp, subprocess_run.
  fold (cp_binary_cmd c t). fold (cp_dist_cmd c v t).
  unfold_monad. cbn.
  destruct (fault env (Run (cp_binary_cmd c t) (cwd w) None)) as [e1|]; cbn.
  { intros [= <- <-]. repeat split; intros; simplify_eq; done. }
  destruct (decide ((completed env (cp_binary_cmd c t) (cwd w) None).1.1 = 0))
    as [H1|H1]; cbn.
  2:{ destruct (decide _) as [_|Hn]; [|by destruct Hn]. cbn.
      intros [= <- <-]. repeat split; intros; simplify_eq; try done.
      by since_simpl. }
  destruct (decide _) as [Hn|_]; [done|]. cbn.
  destruct (fault env (Run (cp_dist_cmd c v t) (cwd w) None)) as [e2|]; cbn.
  { intros [= <- <-]. repeat split; intros; simplify_eq; done. }
  destruct (decide ((completed env (cp_dist_cmd c v t) (cwd w) None).1.1 = 0))
    as [H2|H2]; cbn.
  2:{ destruct (decide _) as [_|Hn]; [|by destruct Hn]. cbn.
      intros [= <- <-]. repeat split; intros; simplify_eq; try done.
      by since_simpl. }
  destruct (decide _) as [Hn|_]; [done|]. cbn.
  intros [= <- <-]. repeat split; intros; simplify_eq; done.
Qed.

(** lines 481-523, when everything is in place *)
Lemma container_image_run v zv nc w :
  podman_available env w ->
  is_Some (stat (fs w) (cwd w // "Containerfile")) ->
  image_build_status env v zv nc w = Some 0 ->
  ∃ w', container_image env v zv nc w = (Ret tt, w')
        ∧ fs w' = fs w ∧ cwd w' = cwd w ∧ containers w' = containers w
        ∧ operations (since w w')
          = [Run podman_probe (cwd w) None; Run (build_cmd v zv nc) (cwd w) None].
Proof.
  intros [Hp Hrc] Hcf Hb. unfold image_build_status in Hb.
  unfold container_image, check_podman, subprocess_run_check, subprocess_run.
  fold podman_probe. unfold_monad. cbn. rewrite Hp. cbn. rewrite Hrc.
  destruct (decide (0 = 0)) as [_|]; [|done]. cbn.
  unfold join in *. rewrite (bool_decide_eq_true_2 _ Hcf). cbn.
  destruct (fault env (Run (build_cmd v zv nc) (cwd w) None)); [done|].
  injection Hb as Hb. cbn. rewrite Hb.
  destruct (decide (0 ≠ 0)) as [|_]; [done|]. cbn.
  eexists. split; [reflexivity|]. repeat (split; [done|]). by since_simpl.
Qed.

(** X13: the container build checks before it builds.  Without a
    working [podman], without a [Containerfile] in the working directory,
    or with an image build that exits with a non-zero status, it ends the
    process with exit status 1; the disk, the working directory and the
    containers are as they were, the only commands run are the probe and
    (with a [Containerfile]) the image build, and no temporary directory
    or container has been made. *)
Theorem container_preflight v zv nc w :
  podman_missing env w
  ∨ (podman_available env w
     ∧ (stat (fs w) (cwd w // "Containerfile") = None
        ∨ ∃ status, image_build_status env v zv nc w = Some status ∧ status ≠ 0)) ->
  ∃ w', build_ghostty_container env v zv nc w = (Exit 1, w')
        ∧ fs w' = fs w ∧ cwd w' = cwd w ∧ containers w' = containers w
        ∧ ∀ o, o ∈ operations (since w w') ->
            o = Run podman_probe (cwd w) None
            ∨ (is_Some (stat (fs w) (cwd w // "Containerfile"))
               ∧ o = Run (build_cmd v zv nc) (cwd w) None).
Proof.
  unfold podman_missing, podman_available, image_build_status, probe_handles.
  unfold build_ghostty_container, container_image, check_podman,
    subprocess_run_check, subprocess_run.
  fold podman_probe. unfold_monad. cbn.
  intros [Hm|[[Hp Hrc] Hrest]].
  - destruct (fault env (Run podman_probe (cwd w) None)) as [e|]; cbn.
    + rewrite Hm. cbn. eexists. split; [reflexivity|].
      repeat (split; [done|]). intros o. since_simpl. set_unfold. naive_solver.
    + destruct (decide _) as [|_]; [done|]. cbn.
      eexists. split; [reflexivity|].
      repeat (split; [done|]). intros o. since_simpl. set_unfold. naive_solver.
  - rewrite Hp. cbn. rewrite Hrc.
    destruct (decide (0 = 0)) as [_|]; [|done]. cbn.
    unfold join in *.
    destruct (stat (fs w) (cwd w ++ ["Containerfile"])) as [n|] eqn:Hcf.
    2:{ cbn. eexists. split; [reflexivity|].
        repeat (split; [done|]). intros o. since_simpl. set_unfold. naive_solver. }
    destruct Hrest as [|(status & Hs & Hne)]; [done|].
    rewrite (bool_decide_eq_true_2 (is_Some (Some n))) by eauto. cbn.
    destruct (fault env (Run (build_cmd v zv nc) (cwd w) None)); [done|].
    injection Hs as Hs. cbn. rewrite Hs.
    destruct (decide (status ≠ 0)) as [_|]; [|done]. cbn.
    destruct (decide _), (decide _); cbn; eexists; (split; [reflexivity|]);
      repeat (split; [done|]); intros o; since_simpl; set_unfold; naive_solver.
Qed.

(** X14: a container build whose binary cannot be copied out installs
    nothing.  The build raises (the [RuntimeError] of the extraction,
    unless a cleanup raises in its place), the container is removed and
    the temporary directory deleted on the way out, and every path
    outside the temporary directory, the installed binary and the
    descriptors among them, holds what it held before. *)
Theorem failed_extraction_installs_nothing v zv nc w :
  podman_available env w ->
  is_Some (stat (fs w) (cwd w // "Containerfile")) ->
  image_build_status env v zv nc w = Some 0 ->
  fault env Mkdtemp = None ->
  container_created env v (cwd w) ->
  fault env (Run (cp_binary_cmd (container_name env) (tmp_dir env)) (cwd w) None)
  = None ->
  (completed env (cp_binary_cmd (container_name env) (tmp_dir env)) (cwd w) None).1.1
  ≠ 0 ->
  ∃ e w',
    build_ghostty_container env v zv nc w = (Raise e, w')
    ∧ (fault env (Run (rm_cmd env) (cwd w) None) = None ->
       fault env (Rmtree (tmp_dir env)) = None ->
         e = Exn RuntimeError "Binary extraction failed")
    ∧ (∀ p, ¬ tmp_dir env `prefix_of` p -> fs w' !! p = fs w !! p)
    ∧ EvOp (Run (rm_cmd env) (cwd w) None) ∈ since w w'
    ∧ EvOp (Rmtree (tmp_dir env)) ∈ since w w'.
Proof.
  intros Hp Hcf Hb Hmk [Hcr Hcrc] Hcp Hrc.
  destruct (container_image_run v zv nc w Hp Hcf Hb)
    as (w0 & Himg & Hfs0 & Hcwd0 & Hct0 & _).
  assert (emitting (fun _ => True) w w0) as G0
    by (eapply (emits_container_image env); [done|done| |exact Himg]; done).
  unfold build_ghostty_container. rewrite bind_run, Himg. cbv zeta.
  unfold mkdtemp, container_extract, container_install,
    extract_artifacts_from_container, podman_cp, podman_create, container_cleanup,
    podman_rm, temp_dir_cleanup, rmtree, subprocess_run.
  fold (cp_binary_cmd (container_name env) (tmp_dir env)).
  fold (create_cmd env v). fold (rm_cmd env).
  unfold cp_binary_cmd in Hcp, Hrc.
  unfold_monad. cbn. rewrite Hmk. cbn. rewrite Hcwd0, Hcr. cbn. rewrite Hcrc.
  destruct (decide (0 = 0)) as [_|]; [|done]. cbn. rewrite Hcrc.
  destruct (decide (0 ≠ 0)) as [|_]; [done|]. cbn. rewrite Hcp. cbn.
  destruct (decide (_ = 0)) as [|_]; [done|]. cbn.
  destruct (decide (_ ≠ 0)) as [_|Hn]; [|by destruct Hn]. cbn.
  assert (∀ p, ¬ tmp_dir env `prefix_of` p ->
               <[tmp_dir env:=Dir]> (fs w0) !! p = fs w !! p) as Hkeep.
  { intros p Hn. rewrite lookup_insert_ne, Hfs0; [done|].
    intros Heq. apply Hn. by rewrite Heq. }
  assert (∀ p, ¬ tmp_dir env `prefix_of` p ->
               outside (tmp_dir env) (<[tmp_dir env:=Dir]> (fs w0)) !! p
               = fs w !! p) as Hout.
  { intros p Hn. by rewrite outside_other, Hkeep. }
  destruct (fault env (Run (rm_cmd env) (cwd w) None)) as [e1|]; cbn;
    [|destruct (decide (_ = 0)); cbn];
    rewrite (stat_entry _ (tmp_dir env) Dir) by apply lookup_insert_eq; cbn;
    (destruct (fault env (Rmtree (tmp_dir env))) as [e2|]; cbn;
     rewrite ?(stat_entry _ (tmp_dir env) Dir) by apply lookup_insert_eq; cbn);
    do 2 eexists; (split; [reflexivity|]); cbn;
    (split; [intros; simplify_eq; done|]);
    (split; [assumption|]);
    match goal with
    | |- _ ∈ since w ?w2 ∧ _ =>
        assert (emitting (fun _ => True) w0 w2) as G1
          by (eapply emitting_any; cbn; rewrite <- ?(assoc_L (++)); reflexivity)
    end;
    rewrite (since_trans _ _ _ _ G0 G1);
    split; apply elem_of_app; right; since_simpl;
    repeat first [apply list_elem_of_here | apply list_elem_of_further].
Qed.

End ContainerSteps.

(** ** Failures of the descriptor installation *)

Lemma operations_app l1 l2 : operations (l1 ++ l2) = operations l1 ++ operations l2.
Proof. apply omap_app. Qed.

Section DescriptorFailures.
Context (env : Env).

Ltac run_cases :=
  repeat (match goal with
          | |- context [fault env ?o] => destruct (fault env o) as [?|] eqn:?
          | |- context [match stat ?m ?p with _ => _ end] =>
              destruct (stat m p) as [[?|]|] eqn:?
          | |- context [bool_decide (is_Some (stat ?m ?p))] =>
              destruct (stat m p) as [[?|]|] eqn:?
          end; cbn).

Ltac close_case :=
  intros [= <- <-];
  (split; [by intros ?|]);
  (split; [intros ? ?; simplify_eq; since_simpl; cbn; eexists; reflexivity|]);
  intros; simplify_eq; repeat split; try done; by since_simpl.

Lemma install_app_desktop_file_fails gd w o w' :
  install_app_desktop_file env gd w = (o, w') ->
  (∀ code, o ≠ Exit code)
  ∧ (∀ e, o = Raise e -> ∃ d, last (operations (since w w')) = Some (Mkdir d))
  ∧ (stat (fs w) (app_template gd) = None ->
       o = Ret tt ∧ fs w' = fs w ∧ operations (since w w') = []).
Proof.
  unfold install_app_desktop_file, mkdir, read_text, write_text, app_template.
  unfold_monad. cbn. run_cases; close_case.
Qed.

Lemma install_dolphin_desktop_file_fails gd w o w' :
  install_dolphin_desktop_file env gd w = (o, w') ->
  (∀ code, o ≠ Exit code)
  ∧ (∀ e, o = Raise e -> ∃ d, last (operations (since w w')) = Some (Mkdir d))
  ∧ (stat (fs w) (dolphin_source gd) = None ->
       o = Ret tt ∧ fs w' = fs w ∧ operations (since w w') = []).
Proof.
  unfold install_dolphin_desktop_file, mkdir, copy2, dolphin_source.
  unfold_monad. cbn. run_cases; close_case.
Qed.

(** X9: installing the descriptors never ends the build.
    [install_desktop_file] never exits, and the only exception that gets
    out of it comes from creating one of the two target directories:
    reading, rendering, writing or copying a descriptor may fail, which is
    logged and swallowed.  When neither descriptor source is there it
    returns without any operation, the disk as it was. *)
Theorem install_desktop_file_never_fatal gd w o w' :
  install_desktop_file env gd w = (o, w') ->
  (∀ code, o ≠ Exit code)
  ∧ (∀ e, o = Raise e -> ∃ d, last (operations (since w w')) = Some (Mkdir d))
  ∧ (stat (fs w) (app_template gd) = None ->
     stat (fs w) (dolphin_source gd) = None ->
       o = Ret tt ∧ fs w' = fs w ∧ operations (since w w') = []).
Proof.
  intros Hrun. unfold install_desktop_file in Hrun.
  rewrite bind_run in Hrun. cbn [log_info emit] in Hrun. cbv beta iota in Hrun.
  rewrite bind_run in Hrun.
  match type of Hrun with
  | context [install_app_desktop_file env gd ?u0] =>
      assert (emitting (fun _ => True) w u0) as G0 by (by eapply emitting_any);
      assert (since w u0 = [EvLog INFO "Installing desktop files..."]) as S0
        by (by apply since_app);
      destruct (install_app_desktop_file env gd u0) as [o1 u1] eqn:E1;
      pose proof (emits_install_app_desktop_file env (fun _ => True)
                    ltac:(done) ltac:(done) gd _ _ _ E1) as G1;
      destruct (install_app_desktop_file_fails gd u0 o1 u1 E1)
        as (Hx1 & Hr1 & Hm1)
  end.
  cbn [fs] in Hm1.
  destruct o1 as [[]|e1|code1]; [|simplify_eq..].
  - pose proof (emits_install_dolphin_desktop_file env (fun _ => True)
                  ltac:(done) ltac:(done) gd _ _ _ Hrun) as G2.
    destruct (install_dolphin_desktop_file_fails gd u1 o w' Hrun)
      as (Hx2 & Hr2 & Hm2).
    rewrite (since_trans _ _ _ _ (transitivity G0 G1) G2).
    rewrite (since_trans _ _ _ _ G0 G1), S0, !operations_app.
    change (operations [EvLog INFO "Installing desktop files..."]) with (@nil op).
    cbn [app].
    split; [done|]. split.
    + intros e He. destruct (Hr2 e He) as [d Hd]. exists d.
      by rewrite last_app, Hd.
    + intros Ha Hd. destruct (Hm1 Ha) as (_ & Hf1 & ->).
      rewrite Hf1 in Hm2. destruct (Hm2 Hd) as (-> & Hf2 & ->).
      by rewrite Hf2.
  - rewrite (since_trans _ _ _ _ G0 G1), S0, !operations_app.
    change (operations [EvLog INFO "Installing desktop files..."]) with (@nil op).
    cbn [app].
    split; [done|]. split; [intros e He; exact (Hr1 e He)|].
    intros Ha _. by destruct (Hm1 Ha).
  - by destruct (Hx1 code1).
Qed.

End DescriptorFailures.

(** ** What a run leaves untouched *)

#[global] Instance untouched_preorder own : PreOrder (untouched own).
Proof.
  split.
  - by intros w.
  - intros w1 w2 w3 [C1 F1] [C2 F2]. split; [congruence|].
    intros p Hp. by rewrite F2, F1.
Qed.

Lemma move_tree_other src dst m p :
  ¬ src `prefix_of` p -> ¬ dst `prefix_of` p -> move_tree src dst m !! p = m !! p.
Proof.
  intros Hs Hd. unfold move_tree. rewrite write_tree_other by done.
  by apply outside_other.
Qed.

Section Frame.
Context (env : Env) (own : path -> Prop).
Hypothesis Hup : ∀ p q, own p -> p `prefix_of` q -> own q.

Lemma frame_emit e : steps (untouched own) (emit e).
Proof. by intros w o w' [= <- <-]. Qed.

Lemma frame_attempt o : steps (untouched own) (attempt env o).
Proof.
  intros w o' w'. unfold attempt, emit. by destruct (fault env o); intros [= <- <-].
Qed.

Lemma frame_set_containers f : steps (untouched own) (set_containers f).
Proof. by intros w o w' [= <- <-]. Qed.

Lemma frame_get_fs : steps (untouched own) get_fs.
Proof. apply (steps_read _ (fun w => fs w)). Qed.

Lemma frame_getcwd : steps (untouched own) getcwd.
Proof. apply (steps_read _ (fun w => cwd w)). Qed.

Lemma frame_exists p : steps (untouched own) (exists_ p).
Proof. apply (steps_read _ (fun w => bool_decide (is_Some (stat (fs w) p)))). Qed.

Lemma frame_set_fs f :
  (∀ m p, ¬ own p -> f m !! p = m !! p) -> steps (untouched own) (set_fs f).
Proof. intros Hf w o w' [= <- <-]. split; [done|]. intros p Hp. by apply Hf. Qed.

Lemma frame_insert k n : own k -> steps (untouched own) (set_fs (insert k n)).
Proof.
  intros Hk. apply frame_set_fs. intros m p Hp.
  apply lookup_insert_ne. by intros ->.
Qed.

Lemma frame_delete k : own k -> steps (untouched own) (set_fs (delete k)).
Proof.
  intros Hk. apply frame_set_fs. intros m p Hp.
  apply lookup_delete_ne. by intros ->.
Qed.

Lemma frame_outside d : own d -> steps (untouched own) (set_fs (outside d)).
Proof.
  intros Hd. apply frame_set_fs. intros m p Hp.
  apply outside_other. intros Hpre. exact (Hp (Hup _ _ Hd Hpre)).
Qed.

Lemma frame_write_tree d entries :
  own d -> steps (untouched own) (set_fs (write_tree d entries)).
Proof.
  intros Hd. apply frame_set_fs. intros m p Hp.
  apply write_tree_other. intros Hpre. exact (Hp (Hup _ _ Hd Hpre)).
Qed.

Lemma frame_move_tree a b :
  own a -> own b -> steps (untouched own) (set_fs (move_tree a b)).
Proof.
  intros Ha Hb. apply frame_set_fs. intros m p Hp.
  apply move_tree_other; intros Hpre;
    [exact (Hp (Hup _ _ Ha Hpre))|exact (Hp (Hup _ _ Hb Hpre))].
Qed.

Hint Resolve frame_emit frame_attempt frame_set_containers frame_get_fs
  frame_getcwd frame_exists : steps.

Ltac frame_leaf :=
  first
    [ apply frame_insert; assumption
    | apply frame_delete; assumption
    | apply frame_outside; assumption
    | apply frame_write_tree; assumption
    | apply frame_move_tree; first [assumption | eapply Hup; [eassumption|]; by apply prefix_app_r]
    | apply frame_insert; eapply Hup; [eassumption|]; by apply prefix_app_r ].

Lemma frame_log_info message : steps (untouched own) (log_info message).
Proof. apply frame_emit. Qed.
Lemma frame_log_success message : steps (untouched own) (log_success message).
Proof. apply frame_emit. Qed.
Lemma frame_log_warning message : steps (untouched own) (log_warning message).
Proof. apply frame_emit. Qed.
Lemma frame_log_error message : steps (untouched own) (log_error message).
Proof. apply frame_emit. Qed.
Lemma frame_print text : steps (untouched own) (print text).
Proof. apply frame_emit. Qed.
Hint Resolve frame_log_info frame_log_success frame_log_warning frame_log_error
  frame_print : steps.

Lemma frame_urlretrieve url d : own d -> steps (untouched own) (urlretrieve env url d).
Proof. intros Hd. unfold urlretrieve. steps_split frame_leaf. Qed.
Lemma frame_tar_extractall mode a d :
  own d -> steps (untouched own) (tar_extractall env mode a d).
Proof. intros Hd. unfold tar_extractall. steps_split frame_leaf. Qed.
Lemma frame_zip_extractall a d :
  own d -> steps (untouched own) (zip_extractall env a d).
Proof. intros Hd. unfold zip_extractall. steps_split frame_leaf. Qed.
Lemma frame_unlink p : own p -> steps (untouched own) (unlink env p).
Proof. intros Hp. unfold unlink. steps_split frame_leaf. Qed.
Lemma frame_rmtree p : own p -> steps (untouched own) (rmtree env p).
Proof. intros Hp. unfold rmtree. steps_split frame_leaf. Qed.
Lemma frame_mkdir p : own p -> steps (untouched own) (mkdir env p).
Proof. intros Hp. unfold mkdir. steps_split frame_leaf. Qed.
Lemma frame_rename a b : own a -> own b -> steps (untouched own) (rename env a b).
Proof. intros Ha Hb. unfold rename. steps_split frame_leaf. Qed.
Lemma frame_move a b : own a -> own b -> steps (untouched own) (move env a b).
Proof. intros Ha Hb. unfold move, join. steps_split frame_leaf. Qed.
Lemma frame_copy2 a b : own b -> steps (untouched own) (copy2 env a b).
Proof.
  intros Hb. unfold copy2, join. cbv zeta.
  steps_split ltac:(first
    [ frame_leaf
    | match goal with
      | |- context [match stat ?m ?p with _ => _ end] =>
          destruct (stat m p) as [[|]|]
      end ]).
Qed.
Lemma frame_chmod p : steps (untouched own) (chmod env p).
Proof. unfold chmod. steps_split fail. Qed.
Lemma frame_read_text p : steps (untouched own) (read_text env p).
Proof. unfold read_text. steps_split fail. Qed.
Lemma frame_write_text p content :
  own p -> steps (untouched own) (write_text env p content).
Proof. intros Hp. unfold write_text. steps_split frame_leaf. Qed.
Lemma frame_subprocess_run cmd front :
  steps (untouched own) (subprocess_run env cmd front).
Proof. unfold subprocess_run. steps_split fail. Qed.
Hint Resolve frame_chmod frame_read_text frame_subprocess_run : steps.

Ltac below :=
  unfold join; solve [repeat first [reflexivity | apply prefix_app_r]].

Ltac owned :=
  match goal with
  | H : own _ |- own _ => first [exact H | apply (Hup _ _ H); below]
  end.

Ltac frame_call :=
  first
    [ apply frame_urlretrieve; owned
    | apply frame_tar_extractall; owned
    | apply frame_unlink; owned
    | apply frame_rmtree; owned
    | apply frame_mkdir; owned
    | apply frame_rename; owned
    | apply frame_move; owned
    | apply frame_copy2; owned
    | apply frame_write_text; owned
    | apply frame_insert; owned ].

Lemma frame_download_file url d pa :
  own d -> steps (untouched own) (download_file env url d pa).
Proof. intros Hd. unfold download_file. steps_split frame_call. Qed.

Lemma frame_extract_tar_xz a d :
  own d -> steps (untouched own) (extract_tar_xz env a d).
Proof. intros Hd. unfold extract_tar_xz. steps_split frame_call. Qed.

Lemma frame_setup_zig cd zv pa :
  own cd -> steps (untouched own) (setup_zig env cd zv pa).
Proof.
  intros Hd. unfold setup_zig. cbv zeta.
  steps_split ltac:(first
    [ frame_call
    | apply frame_download_file; owned
    | apply frame_extract_tar_xz; owned ]).
Qed.

Lemma frame_validate_signature a sg key :
  own (tmp_key_file env) ->
  steps (untouched own) (validate_signature env a sg key).
Proof.
  intros Hk. unfold validate_signature, validate_signature_body,
    subprocess_run_check.
  steps_split frame_call.
Qed.

Lemma frame_verify_build : steps (untouched own) (verify_build env).
Proof. unfold verify_build. steps_split fail. Qed.

Lemma frame_check_podman : steps (untouched own) (check_podman env).
Proof. unfold check_podman, subprocess_run_check. steps_split fail. Qed.
Hint Resolve frame_verify_build frame_check_podman : steps.

Lemma frame_container_image v zv nc :
  steps (untouched own) (container_image env v zv nc).
Proof. unfold container_image. steps_split fail. Qed.

Lemma frame_podman_create c image :
  steps (untouched own) (podman_create env c image).
Proof. unfold podman_create. steps_split fail. Qed.

Lemma frame_podman_rm c : steps (untouched own) (podman_rm env c).
Proof. unfold podman_rm. steps_split fail. Qed.
Hint Resolve frame_container_image frame_podman_create frame_podman_rm : steps.

Lemma frame_podman_cp src target :
  own target -> steps (untouched own) (podman_cp env src target).
Proof.
  intros Ht. unfold podman_cp.
  steps_split ltac:(apply frame_write_tree; assumption).
Qed.

(** lines 243-318 write below the two descriptor directories *)
Lemma frame_install_descriptors gd :
  own (home env // ".local" // "share" // "applications") ->
  own (home env // ".local" // "share" // "kio" // "servicemenus") ->
  steps (untouched own) (install_desktop_file env gd).
Proof.
  intros Happs Hkio.
  unfold install_desktop_file, install_app_desktop_file,
    install_dolphin_desktop_file.
  steps_split frame_call.
Qed.

Section Installation.
Hypothesis Hlocal : own (home env // ".local").


Hypothesis Htemp : own (tmp_dir env).

Lemma frame_extract_artifacts c v :
  steps (untouched own) (extract_artifacts_from_container env c v (tmp_dir env)).
Proof.
  unfold extract_artifacts_from_container.
  steps_split ltac:(apply frame_podman_cp; owned).
Qed.


Lemma frame_container_cleanup c : steps (untouched own) (container_cleanup env c).
Proof. unfold container_cleanup. steps_split fail. Qed.

Lemma frame_temp_dir_cleanup :
  steps (untouched own) (temp_dir_cleanup env (tmp_dir env)).
Proof. unfold temp_dir_cleanup. steps_split frame_call. Qed.

Lemma frame_mkdtemp : steps (untouched own) (mkdtemp env).
Proof. unfold mkdtemp. steps_split frame_call. Qed.




End Installation.

End Frame.

Section Frames.
Context (env : Env).


(** X4: on every outcome, [validate_signature] leaves the working
    directory and every path other than its temporary key file as they
    were: the archive and its signature are only read. *)
Theorem validate_signature_touches_only_key_file a sg key w o w' :
  validate_signature env a sg key w = (o, w') ->
  cwd w' = cwd w ∧ ∀ p, p ≠ tmp_key_file env -> fs w' !! p = fs w !! p.
Proof.
  intros Hrun.
  by eapply (frame_validate_signature env (fun p => p = tmp_key_file env)).
Qed.


End Frames.

(** ** What a run does: events, exit status, history *)

Section Acts.
Context (c : path) (P : event -> Prop).

Lemma acts_ret {A} (a : A) : acts c P (mret a).
Proof.
  intros w o w' [= <- <-] Hc. split; [done|]. split; [reflexivity|].
  split; [by intros ? ?|]. done.
Qed.

Lemma acts_raise {A} e : acts c P (@raise A e).
Proof.
  intros w o w' [= <- <-] Hc. split; [done|]. split; [reflexivity|].
  split; [by intros ? ?|]. done.
Qed.

Lemma acts_exit {A} : acts c P (@sys_exit A 1).
Proof.
  intros w o w' [= <- <-] Hc. split; [done|]. split; [reflexivity|].
  split; [by intros code [= <-]|]. done.
Qed.

Lemma acts_bind {A B} (m : M A) (f : A -> M B) :
  acts c P m -> (∀ a, acts c P (f a)) -> acts c P (m ≫= f).
Proof.
  intros Hm Hf w o w' Hrun Hc. rewrite bind_run in Hrun.
  destruct (m w) as [[a|e|code] w1] eqn:E;
    destruct (Hm _ _ _ E Hc) as (C1 & G1 & X1 & B1).
  - destruct (Hf a _ _ _ Hrun C1) as (C2 & G2 & X2 & B2).
    split; [done|]. split; [by etrans|]. split; [done|].
    intros t. rewrite bind_run, B1. apply B2.
  - injection Hrun as <- <-. (split; [done|]). (split; [done|]).
    (split; [first [by intros ? ? | intros ? [= <-]; exact (X1 _ eq_refl)]|]). intros t. by rewrite bind_run, B1.
  - injection Hrun as <- <-. (split; [done|]). (split; [done|]).
    (split; [first [by intros ? ? | intros ? [= <-]; exact (X1 _ eq_refl)]|]). intros t. by rewrite bind_run, B1.
Qed.

Lemma acts_try_except_if {A} caught (body : M A) handler :
  acts c P body -> (∀ e, acts c P (handler e)) ->
  acts c P (try_except_if caught body handler).
Proof.
  intros Hb Hh w o w' Hrun Hc. unfold try_except_if in *.
  destruct (body w) as [[a|e|code] w1] eqn:E;
    destruct (Hb _ _ _ E Hc) as (C1 & G1 & X1 & B1).
  - injection Hrun as <- <-. (split; [done|]). (split; [done|]).
    (split; [first [by intros ? ? | intros ? [= <-]; exact (X1 _ eq_refl)]|]). intros t. by rewrite B1.
  - destruct (caught e) eqn:Hcaught.
    + destruct (Hh e _ _ _ Hrun C1) as (C2 & G2 & X2 & B2).
      split; [done|]. split; [by etrans|]. split; [done|].
      intros t. rewrite B1, Hcaught. apply B2.
    + injection Hrun as <- <-. (split; [done|]). (split; [done|]).
    (split; [first [by intros ? ? | intros ? [= <-]; exact (X1 _ eq_refl)]|]). intros t. by rewrite B1, Hcaught.
  - injection Hrun as <- <-. (split; [done|]). (split; [done|]).
    (split; [first [by intros ? ? | intros ? [= <-]; exact (X1 _ eq_refl)]|]). intros t. by rewrite B1.
Qed.

Lemma acts_try_except {A} (body : M A) handler :
  acts c P body -> (∀ e, acts c P (handler e)) ->
  acts c P (try_except body handler).
Proof. apply acts_try_except_if. Qed.

Lemma acts_try_finally {A} (body : M A) cleanup :
  acts c P body -> acts c P cleanup -> acts c P (try_finally body cleanup).
Proof.
  intros Hb Hcl w o w' Hrun Hc. unfold try_finally in *.
  destruct (body w) as [o1 w1] eqn:E.
  destruct (Hb _ _ _ E Hc) as (C1 & G1 & X1 & B1).
  destruct (cleanup w1) as [[[]|e|code] w2] eqn:E2;
    destruct (Hcl _ _ _ E2 C1) as (C2 & G2 & X2 & B2);
    injection Hrun as <- <-;
    (split; [done|]); (split; [by etrans|]);
    (split; [first [exact X1 | by intros ? ?
                   | intros ? [= <-]; exact (X2 _ eq_refl)]|]);
    intros t; by rewrite B1, B2.
Qed.

Lemma acts_getcwd {A} (f : path -> M A) :
  acts c P (f c) -> acts c P (getcwd ≫= f).
Proof.
  intros Hf w o w' Hrun Hc.
  change ((getcwd ≫= f) w) with (f (cwd w) w) in Hrun. rewrite Hc in Hrun.
  destruct (Hf _ _ _ Hrun Hc) as (C1 & G1 & X1 & B1).
  repeat (split; [done|]). intros t.
  change ((getcwd ≫= f) (with_trace t w)) with (f (cwd w) (with_trace t w)).
  rewrite Hc. apply B1.
Qed.

Lemma acts_emit e : P e -> acts c P (emit e).
Proof.
  intros HP w o w' [= <- <-] Hc. split; [done|]. split.
  { exists [e]. split; [done|]. by constructor. }
  split; [done|]. intros t. unfold emit, with_trace. cbn.
  by rewrite (assoc_L (++)).
Qed.

Lemma acts_attempt env o : P (EvOp o) -> acts c P (attempt env o).
Proof.
  intros HP w o' w' Hrun Hc. unfold attempt, emit in *. cbn in *.
  assert (w' = {| fs := fs w; cwd := cwd w; containers := containers w;
                  trace := trace w ++ [EvOp o] |}) as ->
    by (by destruct (fault env o); simplify_eq).
  split; [done|]. split.
  { exists [EvOp o]. split; [done|]. by constructor. }
  split; [by destruct (fault env o); intros; simplify_eq|].
  intros t. unfold with_trace. cbn. rewrite (assoc_L (++)).
  by destruct (fault env o); simplify_eq.
Qed.

Lemma acts_set_fs f : acts c P (set_fs f).
Proof.
  intros w o w' [= <- <-] Hc. split; [done|]. split.
  { exists []. split; [by rewrite app_nil_r|constructor]. }
  split; [by intros ? ?|]. done.
Qed.

Lemma acts_set_containers f : acts c P (set_containers f).
Proof.
  intros w o w' [= <- <-] Hc. split; [done|]. split.
  { exists []. split; [by rewrite app_nil_r|constructor]. }
  split; [by intros ? ?|]. done.
Qed.

Lemma acts_get_fs : acts c P get_fs.
Proof.
  intros w o w' [= <- <-] Hc. split; [done|]. split; [reflexivity|].
  split; [by intros ? ?|]. done.
Qed.

Lemma acts_exists p : acts c P (exists_ p).
Proof.
  intros w o w' [= <- <-] Hc. split; [done|]. split; [reflexivity|].
  split; [by intros ? ?|]. done.
Qed.

End Acts.

Ltac acts_split leaf :=
  repeat first
    [ solve [auto 2 with acts nocore]
    | leaf
    | match goal with
      | |- acts _ _ (mret _) => apply acts_ret
      | |- acts _ _ (raise _) => apply acts_raise
      | |- acts _ _ (sys_exit _) => apply acts_exit
      | |- acts _ _ (mbind _ getcwd) => apply acts_getcwd
      | |- acts _ _ (mbind _ _) => apply acts_bind; [|intros ?]
      | |- acts _ _ (try_except_if _ _ _) =>
          apply acts_try_except_if; [|intros ?]
      | |- acts _ _ (try_except _ _) => apply acts_try_except; [|intros ?]
      | |- acts _ _ (try_finally _ _) => apply acts_try_finally
      | |- acts _ _ (if ?b then _ else _) => destruct b
      | |- acts _ _ (match ?x with _ => _ end) => destruct x
      end
    | progress cbv zeta ].

Create HintDb acts discriminated.

Lemma acts_bind_ret {A B} c P (m : M A) (f : A -> M B) a0 :
  acts c P m ->
  (∀ w a w', cwd w = c -> m w = (Ret a, w') -> a = a0) ->
  acts c P (f a0) -> acts c P (m ≫= f).
Proof.
  intros Hm Hret Hf w o w' Hrun Hc. rewrite bind_run in Hrun.
  destruct (m w) as [[a|e|code] w1] eqn:E;
    destruct (Hm _ _ _ E Hc) as (C1 & G1 & X1 & B1).
  - rewrite (Hret _ _ _ Hc E) in *.
    destruct (Hf _ _ _ Hrun C1) as (C2 & G2 & X2 & B2).
    split; [done|]. split; [by etrans|]. split; [done|].
    intros t. rewrite bind_run, B1. apply B2.
  - injection Hrun as <- <-. (split; [done|]). (split; [done|]).
    (split; [by intros ? ?|]). intros t. by rewrite bind_run, B1.
  - injection Hrun as <- <-. (split; [done|]). (split; [done|]).
    (split; [intros ? [= <-]; exact (X1 _ eq_refl)|]).
    intros t. by rewrite bind_run, B1.
Qed.

Section ActsOf.
Context (env : Env) (c : path) (P : event -> Prop).
Hypothesis Plog : ∀ l message, P (EvLog l message).
Hypothesis Pprint : ∀ text, P (EvPrint text).
Hypothesis Pquiet : ∀ o, quiet o = true -> P (EvOp o).

Hint Resolve acts_set_fs acts_set_containers acts_get_fs acts_exists : acts.

Ltac act :=
  first
    [ apply acts_emit; first [apply Plog | apply Pprint]
    | apply acts_attempt; first [apply Pquiet; reflexivity | assumption] ].

Lemma acts_log_info message : acts c P (log_info message).
Proof. unfold log_info. act. Qed.
Lemma acts_log_success message : acts c P (log_success message).
Proof. unfold log_success. act. Qed.
Lemma acts_log_warning message : acts c P (log_warning message).
Proof. unfold log_warning. act. Qed.
Lemma acts_log_error message : acts c P (log_error message).
Proof. unfold log_error. act. Qed.
Lemma acts_print text : acts c P (print text).
Proof. unfold print. act. Qed.
Hint Resolve acts_log_info acts_log_success acts_log_warning acts_log_error
  acts_print : acts.

Lemma acts_log_items log items :
  (∀ line, acts c P (log line)) -> acts c P (log_items log items).
Proof.
  intros Hl. induction items as [|item rest IH]; cbn.
  - apply acts_ret.
  - apply acts_bind; [apply Hl|intros _; apply IH].
Qed.

Lemma acts_urlretrieve url d :
  P (EvOp (Urlretrieve url d)) -> acts c P (urlretrieve env url d).
Proof.
  intros H. unfold urlretrieve.
  acts_split ltac:(first [act | apply acts_emit; assumption]).
Qed.
Lemma acts_tar_extractall mode a d : acts c P (tar_extractall env mode a d).
Proof.
  unfold tar_extractall.
  acts_split ltac:(first [act | apply acts_emit; apply Pquiet; reflexivity]).
Qed.
Lemma acts_zip_extractall a d : acts c P (zip_extractall env a d).
Proof.
  unfold zip_extractall.
  acts_split ltac:(first [act | apply acts_emit; apply Pquiet; reflexivity]).
Qed.
Lemma acts_unlink p : P (EvOp (Unlink p)) -> acts c P (unlink env p).
Proof. intros H. unfold unlink. acts_split act. Qed.
Lemma acts_rmtree p : P (EvOp (Rmtree p)) -> acts c P (rmtree env p).
Proof. intros H. unfold rmtree. acts_split act. Qed.
Lemma acts_mkdir p : acts c P (mkdir env p).
Proof. unfold mkdir. acts_split act. Qed.
Lemma acts_rename a b : acts c P (rename env a b).
Proof. unfold rename. acts_split act. Qed.
Lemma acts_move a b : acts c P (move env a b).
Proof. unfold move. acts_split act. Qed.
Lemma acts_copy2 a b : acts c P (copy2 env a b).
Proof. unfold copy2. acts_split act. Qed.
Lemma acts_chmod p : acts c P (chmod env p).
Proof. unfold chmod. acts_split act. Qed.
Lemma acts_read_text p : acts c P (read_text env p).
Proof. unfold read_text. acts_split act. Qed.
Lemma acts_write_text p content : acts c P (write_text env p content).
Proof. unfold write_text. acts_split act. Qed.
Hint Resolve acts_tar_extractall acts_zip_extractall acts_mkdir acts_rename
  acts_move acts_copy2 acts_chmod acts_read_text acts_write_text : acts.

Lemma acts_subprocess_run cmd front :
  P (EvOp (Run cmd c front)) -> acts c P (subprocess_run env cmd front).
Proof. intros H. unfold subprocess_run. acts_split act. Qed.

Lemma acts_subprocess_run_check cmd :
  P (EvOp (Run cmd c None)) -> acts c P (subprocess_run_check env cmd).
Proof.
  intros H. unfold subprocess_run_check.
  acts_split ltac:(apply acts_subprocess_run; assumption).
Qed.

Ltac call :=
  first
    [ act
    | apply acts_urlretrieve; assumption
    | apply acts_unlink; assumption
    | apply acts_rmtree; assumption
    | apply acts_subprocess_run; assumption
    | apply acts_subprocess_run_check; assumption ].

Lemma acts_download_file url d pa :
  P (EvOp (Urlretrieve url d)) -> acts c P (download_file env url d pa).
Proof. intros H. unfold download_file. acts_split call. Qed.

Lemma acts_extract_tar_gz a d : acts c P (extract_tar_gz env a d).
Proof. unfold extract_tar_gz. acts_split call. Qed.
Lemma acts_extract_tar_xz a d : acts c P (extract_tar_xz env a d).
Proof. unfold extract_tar_xz. acts_split call. Qed.
Lemma acts_extract_zip a d : acts c P (extract_zip env a d).
Proof. unfold extract_zip. acts_split call. Qed.
Hint Resolve acts_extract_tar_gz acts_extract_tar_xz acts_extract_zip : acts.

Lemma acts_validate_signature a sg key :
  P (EvOp (Run minisign_probe c None)) ->
  P (EvOp (Run (minisign_verify (tmp_key_file env) a) c None)) ->
  P (EvOp (Unlink (tmp_key_file env))) ->
  acts c P (validate_signature env a sg key).
Proof.
  intros H1 H2 H3. unfold validate_signature, validate_signature_body.
  acts_split call.
Qed.

Lemma acts_setup_zig cd zv pa :
  P (EvOp (Urlretrieve (zig_url zv) (cd // "zig.tar.xz"))) ->
  P (EvOp (Rmtree (cd // "lib"))) ->
  P (EvOp (Rmtree (cd // ("zig-x86_64-linux-" +:+ zv)))) ->
  P (EvOp (Unlink (cd // "zig.tar.xz"))) ->
  acts c P (setup_zig env cd zv pa).
Proof.
  intros H1 H2 H3 H4. unfold setup_zig. cbv zeta.
  acts_split ltac:(first [call | apply acts_download_file; assumption]).
Qed.

Lemma acts_install_desktop_file gd : acts c P (install_desktop_file env gd).
Proof.
  unfold install_desktop_file, install_app_desktop_file,
    install_dolphin_desktop_file.
  acts_split call.
Qed.

Lemma acts_verify_build : acts c P (verify_build env).
Proof. unfold verify_build. acts_split call. Qed.
Hint Resolve acts_install_desktop_file acts_verify_build : acts.

Lemma acts_remove_item label what p items :
  P (EvOp (Unlink p)) -> acts c P (remove_item env label what p items).
Proof. intros H. unfold remove_item. acts_split call. Qed.

Lemma acts_uninstall_ghostty :
  P (EvOp (Unlink (ghostty_binary env))) ->
  P (EvOp (Unlink (app_desktop env))) ->
  P (EvOp (Unlink (dolphin_desktop env))) ->
  acts c P (uninstall_ghostty env).
Proof.
  intros H1 H2 H3. unfold uninstall_ghostty, uninstall_items.
  acts_split ltac:(first
    [ call
    | apply acts_remove_item; assumption
    | apply acts_log_items; intros ? ]).
Qed.

Lemma acts_check_podman :
  P (EvOp (Run podman_probe c None)) -> acts c P (check_podman env).
Proof. intros H. unfold check_podman. fold podman_probe. acts_split call. Qed.

Lemma acts_container_image v zv nc :
  P (EvOp (Run podman_probe c None)) ->
  P (EvOp (Run (build_cmd v zv nc) c None)) ->
  acts c P (container_image env v zv nc).
Proof.
  intros H1 H2. unfold container_image.
  acts_split ltac:(first [call | apply acts_check_podman; assumption]).
Qed.

Lemma acts_podman_cp src target :
  P (EvOp (Run ["podman"; "cp"; src; path_str target] c None)) ->
  acts c P (podman_cp env src target).
Proof. intros H. unfold podman_cp. acts_split call. Qed.

Lemma acts_podman_create name image :
  P (EvOp (Run ["podman"; "create"; "--name"; name; image] c None)) ->
  acts c P (podman_create env name image).
Proof. intros H. unfold podman_create. acts_split call. Qed.

Lemma acts_podman_rm name :
  P (EvOp (Run ["podman"; "rm"; name] c None)) ->
  acts c P (podman_rm env name).
Proof. intros H. unfold podman_rm. acts_split call. Qed.

Lemma acts_extract_artifacts name v t :
  P (EvOp (Run (cp_binary_cmd name t) c None)) ->
  P (EvOp (Run (cp_dist_cmd name v t) c None)) ->
  acts c P (extract_artifacts_from_container env name v t).
Proof.
  intros H1 H2. unfold extract_artifacts_from_container.
  acts_split ltac:(first [call | apply acts_podman_cp; assumption]).
Qed.

Lemma acts_container_install name v t :
  P (EvOp (Run (cp_binary_cmd name t) c None)) ->
  P (EvOp (Run (cp_dist_cmd name v t) c None)) ->
  acts c P (container_install env name v t).
Proof.
  intros H1 H2. unfold container_install.
  acts_split ltac:(first [call | apply acts_extract_artifacts; assumption]).
Qed.

Lemma acts_container_cleanup name :
  P (EvOp (Run ["podman"; "rm"; name] c None)) ->
  acts c P (container_cleanup env name).
Proof.
  intros H. unfold container_cleanup.
  acts_split ltac:(first [call | apply acts_podman_rm; assumption]).
Qed.

Lemma acts_temp_dir_cleanup t :
  P (EvOp (Rmtree t)) -> acts c P (temp_dir_cleanup env t).
Proof. intros H. unfold temp_dir_cleanup. acts_split call. Qed.

Lemma acts_container_extract v :
  P (EvOp (Run (create_cmd env v) c None)) ->
  P (EvOp (Run (cp_binary_cmd (container_name env) (tmp_dir env)) c None)) ->
  P (EvOp (Run (cp_dist_cmd (container_name env) v (tmp_dir env)) c None)) ->
  P (EvOp (Run (rm_cmd env) c None)) ->
  P (EvOp (Rmtree (tmp_dir env))) ->
  acts c P (container_extract env (container_name env) v (tmp_dir env)).
Proof.
  intros H1 H2 H3 H4 H5. unfold container_extract.
  acts_split ltac:(first
    [ call
    | apply acts_podman_create; assumption
    | apply acts_container_install; assumption
    | apply acts_container_cleanup; assumption
    | apply acts_temp_dir_cleanup; assumption ]).
Qed.

Lemma acts_mkdtemp : acts c P (mkdtemp env).
Proof. unfold mkdtemp. acts_split call. Qed.

Lemma mkdtemp_returns w t w' : mkdtemp env w = (Ret t, w') -> t = tmp_dir env.
Proof.
  unfold mkdtemp. unfold_monad. cbn.
  destruct (fault env Mkdtemp); cbn; [done|]. by intros [= <- _].
Qed.

Lemma acts_build_ghostty_container v zv nc :
  P (EvOp (Run podman_probe c None)) ->
  P (EvOp (Run (build_cmd v zv nc) c None)) ->
  P (EvOp (Run (create_cmd env v) c None)) ->
  P (EvOp (Run (cp_binary_cmd (container_name env) (tmp_dir env)) c None)) ->
  P (EvOp (Run (cp_dist_cmd (container_name env) v (tmp_dir env)) c None)) ->
  P (EvOp (Run (rm_cmd env) c None)) ->
  P (EvOp (Rmtree (tmp_dir env))) ->
  acts c P (build_ghostty_container env v zv nc).
Proof.
  intros H1 H2 H3 H4 H5 H6 H7. unfold build_ghostty_container. cbv zeta.
  apply acts_bind; [by apply acts_container_image|intros _].
  apply (acts_bind_ret _ _ _ _ (tmp_dir env));
    [apply acts_mkdtemp|intros w t w' _; apply mkdtemp_returns|].
  acts_split ltac:(first [call | apply acts_container_extract; assumption]).
Qed.

Lemma acts_main_container args :
  P (EvOp (Run podman_probe c None)) ->
  P (EvOp (Run (build_cmd (version args) (zig_version args) (no_cache args)) c None)) ->
  P (EvOp (Run (create_cmd env (version args)) c None)) ->
  P (EvOp (Run (cp_binary_cmd (container_name env) (tmp_dir env)) c None)) ->
  P (EvOp (Run (cp_dist_cmd (container_name env) (version args) (tmp_dir env))
             c None)) ->
  P (EvOp (Run (rm_cmd env) c None)) ->
  P (EvOp (Rmtree (tmp_dir env))) ->
  acts c P (main_container env args).
Proof.
  intros H1 H2 H3 H4 H5 H6 H7. unfold main_container.
  acts_split ltac:(first [call | apply acts_build_ghostty_container; assumption]).
Qed.

Lemma acts_main_fetch args :
  P (EvOp (Urlretrieve (release_url (version args))
             (release_archive c (version args)))) ->
  P (EvOp (Urlretrieve (signature_url (version args))
             (signature_file c (version args)))) ->
  acts c P (main_fetch env args).
Proof.
  intros H1 H2. unfold main_fetch. cbv zeta.
  acts_split ltac:(first [call | apply acts_download_file; assumption]).
Qed.

Lemma main_fetch_returns args w r w' :
  cwd w = c -> main_fetch env args w = (Ret r, w') ->
  r = (release_archive c (version args), signature_file c (version args)).
Proof.
  intros Hc Hrun. unfold main_fetch in Hrun.
  apply bind_Ret in Hrun as ([] & w1 & E1 & Hrun). cbv zeta in Hrun.
  apply bind_Ret in Hrun as (here & w2 & Hh & Hrun).
  injection Hh as <- <-.
  apply bind_Ret in Hrun as ([] & w3 & E3 & Hrun).
  apply bind_Ret in Hrun as (here & w4 & Hh & Hrun).
  injection Hh as <- <-.
  apply bind_Ret in Hrun as ([] & w5 & _ & Hrun).
  injection Hrun as <- _.
  assert (cwd w1 = c) as C1 by (injection E1 as <-; done).
  assert (cwd w3 = c) as C3.
  { rewrite <- C1.
    by eapply (frame_download_file env (fun _ => True)); [|exact E3]. }
  by rewrite C1, C3.
Qed.

Lemma acts_main_verify args sg :
  (skip_signature args = false ->
     P (EvOp (Run minisign_probe c None))
     ∧ P (EvOp (Run (minisign_verify (tmp_key_file env)
                       (release_archive c (version args))) c None))
     ∧ P (EvOp (Unlink (tmp_key_file env)))) ->
  acts c P (main_verify env args (release_archive c (version args)) sg).
Proof.
  intros H. unfold main_verify.
  destruct (skip_signature args); [auto with acts|].
  destruct (H eq_refl) as (H1 & H2 & H3).
  acts_split ltac:(first [call | apply acts_validate_signature; assumption]).
Qed.

Lemma acts_main_extract args a :
  P (EvOp (Rmtree (c // ("ghostty-" +:+ version args)))) ->
  acts c P (main_extract env args a).
Proof. intros H. unfold main_extract. cbv zeta. acts_split call. Qed.

Lemma main_extract_returns args a w gd w' :
  cwd w = c -> main_extract env args a w = (Ret gd, w') ->
  gd = c // ("ghostty-" +:+ version args).
Proof.
  intros Hc Hrun. unfold main_extract in Hrun.
  apply bind_Ret in Hrun as (here & w1 & Hh & Hrun). injection Hh as <- <-.
  cbv zeta in Hrun.
  do 4 (apply bind_Ret in Hrun as (? & ? & _ & Hrun)).
  injection Hrun as <- _. by rewrite Hc.
Qed.

End ActsOf.

Section Ends.
Context (c : path) (P : event -> Prop).

Lemma acts_ends {A} (m : M A) : acts c P m -> ends c P m.
Proof.
  intros Hm w o w' Hrun Hc. destruct (Hm _ _ _ Hrun Hc) as (C & G & X & _).
  done.
Qed.

Lemma ends_bind_ret {A B} (m : M A) (f : A -> M B) a0 :
  ends c P m ->
  (∀ w a w', cwd w = c -> m w = (Ret a, w') -> a = a0) ->
  ends c P (f a0) -> ends c P (m ≫= f).
Proof.
  intros Hm Hret Hf w o w' Hrun Hc. rewrite bind_run in Hrun.
  destruct (m w) as [[a|e|code] w1] eqn:E;
    destruct (Hm _ _ _ E Hc) as (G1 & X1 & C1).
  - rewrite (Hret _ _ _ Hc E) in *.
    destruct (Hf _ _ _ Hrun (C1 _ eq_refl)) as (G2 & X2 & C2).
    split; [by etrans|]. done.
  - injection Hrun as <- <-. split; [done|]. split; by intros ? ?.
  - injection Hrun as <- <-. split; [done|].
    split; [intros ? [= <-]; exact (X1 _ eq_refl)|by intros ? ?].
Qed.

Lemma ends_bind {A B} (m : M A) (f : A -> M B) :
  ends c P m -> (∀ a, ends c P (f a)) -> ends c P (m ≫= f).
Proof.
  intros Hm Hf w o w' Hrun Hc. rewrite bind_run in Hrun.
  destruct (m w) as [[a|e|code] w1] eqn:E;
    destruct (Hm _ _ _ E Hc) as (G1 & X1 & C1).
  - destruct (Hf a _ _ _ Hrun (C1 _ eq_refl)) as (G2 & X2 & C2).
    split; [by etrans|]. done.
  - injection Hrun as <- <-. split; [done|]. split; by intros ? ?.
  - injection Hrun as <- <-. split; [done|].
    split; [intros ? [= <-]; exact (X1 _ eq_refl)|by intros ? ?].
Qed.

Lemma ends_getcwd {A} (f : path -> M A) :
  ends c P (f c) -> ends c P (getcwd ≫= f).
Proof.
  intros Hf w o w' Hrun Hc.
  change ((getcwd ≫= f) w) with (f (cwd w) w) in Hrun. rewrite Hc in Hrun.
  by apply Hf.
Qed.

End Ends.

Ltac log_leaf Plog :=
  idtac;
  match goal with
  | |- acts _ _ (log_info _) => apply acts_log_info; exact Plog
  | |- acts _ _ (log_success _) => apply acts_log_success; exact Plog
  | |- acts _ _ (log_warning _) => apply acts_log_warning; exact Plog
  | |- acts _ _ (log_error _) => apply acts_log_error; exact Plog
  end.

Section LocalRun.
Context (env : Env) (c : path) (P : event -> Prop).
Hypothesis Plog : ∀ l message, P (EvLog l message).
Hypothesis Pprint : ∀ text, P (EvPrint text).
Hypothesis Pquiet : ∀ o, quiet o = true -> P (EvOp o).

(** lines 205-240: the build leaves the directory and comes back *)
Lemma ends_build_ghostty gd cd :
  P (EvOp (Run (zig_build env) gd (Some cd))) ->
  ends c P (build_ghostty env gd cd).
Proof.
  intros Hzig w o w' Hrun Hc. revert Hrun.
  unfold build_ghostty, build_ghostty_body, chdir, subprocess_run.
  unfold_monad. cbn.
  destruct (fault env (Chdir gd)); cbn;
    [|destruct (fault env (Run (zig_build env) gd (Some cd))); cbn;
      [|destruct (decide _); cbn];
      destruct (fault env (Chdir (cwd w))); cbn];
    intros [= <- <-];
    (split; [eexists; split;
             [cbn; rewrite <- ?(assoc_L (++)); reflexivity
             |repeat constructor; first [apply Plog | by apply Pquiet | done]]|]);
    (split; [intros code Hx; by simplify_eq|]);
    intros a Ha; by simplify_eq.
Qed.

Lemma ends_main_build args :
  (skip_build args = false ->
     P (EvOp (Urlretrieve (zig_url (zig_version args))
                (c // "compiler" // "zig.tar.xz")))
     ∧ P (EvOp (Rmtree (c // "compiler" // "lib")))
     ∧ P (EvOp (Rmtree (c // "compiler"
                          // ("zig-x86_64-linux-" +:+ zig_version args))))
     ∧ P (EvOp (Unlink (c // "compiler" // "zig.tar.xz")))
     ∧ P (EvOp (Run (zig_build env) (c // ("ghostty-" +:+ version args))
                  (Some (c // "compiler"))))) ->
  ends c P (main_build env args (c // ("ghostty-" +:+ version args))).
Proof.
  intros H. unfold main_build. destruct (skip_build args).
  { apply acts_ends. acts_split ltac:(log_leaf Plog). }
  destruct (H eq_refl) as (H1 & H2 & H3 & H4 & H5).
  apply ends_getcwd. cbv zeta.
  apply ends_bind; [by apply acts_ends, acts_setup_zig|intros _].
  apply ends_bind; [by apply ends_build_ghostty|intros _].
  apply acts_ends.
  acts_split ltac:(first
    [ log_leaf Plog
    | match goal with
      | |- acts _ _ (install_desktop_file _ _) =>
          by apply acts_install_desktop_file
      | |- acts _ _ (verify_build _) => by apply acts_verify_build
      end ]).
Qed.

Lemma ends_main_local args :
  P (EvOp (Urlretrieve (release_url (version args))
             (release_archive c (version args)))) ->
  P (EvOp (Urlretrieve (signature_url (version args))
             (signature_file c (version args)))) ->
  (skip_signature args = false ->
     P (EvOp (Run minisign_probe c None))
     ∧ P (EvOp (Run (minisign_verify (tmp_key_file env)
                       (release_archive c (version args))) c None))
     ∧ P (EvOp (Unlink (tmp_key_file env)))) ->
  P (EvOp (Rmtree (c // ("ghostty-" +:+ version args)))) ->
  (skip_build args = false ->
     P (EvOp (Urlretrieve (zig_url (zig_version args))
                (c // "compiler" // "zig.tar.xz")))
     ∧ P (EvOp (Rmtree (c // "compiler" // "lib")))
     ∧ P (EvOp (Rmtree (c // "compiler"
                          // ("zig-x86_64-linux-" +:+ zig_version args))))
     ∧ P (EvOp (Unlink (c // "compiler" // "zig.tar.xz")))
     ∧ P (EvOp (Run (zig_build env) (c // ("ghostty-" +:+ version args))
                  (Some (c // "compiler"))))) ->
  ends c P (main_local env args).
Proof.
  intros H1 H2 H3 H4 H5. unfold main_local.
  apply (ends_bind_ret _ _ _ _
           (release_archive c (version args), signature_file c (version args)));
    [by apply acts_ends, acts_main_fetch
    |intros w r w'; apply main_fetch_returns|].
  cbv beta iota.
  apply ends_bind; [by apply acts_ends, acts_main_verify|intros _].
  apply (ends_bind_ret _ _ _ _ (c // ("ghostty-" +:+ version args)));
    [by apply acts_ends, acts_main_extract
    |intros w r w'; apply main_extract_returns|].
  by apply ends_main_build.
Qed.

End LocalRun.

(** ** What a run of [main] may do *)

Ltac in_list := repeat first [apply list_elem_of_here | apply list_elem_of_further].

Ltac loud :=
  right; unfold loud_ops, local_ops, container_ops, uninstall_ops;
  repeat match goal with
         | H : _ = true |- _ => rewrite H
         | H : _ = false |- _ => rewrite H
         end;
  repeat match goal with
         | |- context [if ?b then _ else _] => destruct b
         end;
  cbn [app]; in_list.

Section Main.
Context (env : Env).

Lemma main_ends args c : ends c (permitted env args c) (main env args).
Proof.
  unfold main.
  destruct (uninstall args) eqn:Hu;
    [|destruct (container args) eqn:Hc].
  - apply acts_ends, acts_uninstall_ghostty; try done;
      try (by intros o Ho; left); loud.
  - apply acts_ends, acts_main_container; try done;
      try (by intros o Ho; left); loud.
  - apply ends_main_local; try done; try (by intros o Ho; left);
      try (intros Hs; repeat split); loud.
Qed.

(** X17: whatever the environment answers, every program [main]
    starts, every file it fetches and every path it deletes is on a list
    fixed by the mode and the flags.  With [--uninstall]: the three
    artifacts, unlinked.  With [--container]: the [podman] commands
    (probe, build, create, the two copies, rm) and the temporary
    directory.  Otherwise: the release archive and its signature, the
    two [minisign] commands and the key file (not with
    [--skip-signature]), the source tree to be replaced, and the
    toolchain archive, its leftovers and [zig build] in the source tree
    with the compiler directory in front of [PATH] (not with
    [--skip-build]). *)
Theorem main_loud_operations args w :
  Forall (permitted env args (cwd w)) (since w (main env args w).2).
Proof.
  destruct (main env args w) as [o w'] eqn:Hrun.
  destruct (main_ends args (cwd w) w o w' Hrun eq_refl) as (G & _ & _).
  by apply emitting_since.
Qed.

End Main.

Section CommandLine.
Context (env : Env).

(** X18: the exit status of the script is 0, 1 or 2.  It is 2 exactly
    when [argparse] rejects the command line, and 0 exactly when help
    was asked for or the command line was accepted and [main] ran to its
    end.  So once the command line is parsed the status is 0 or 1: every
    [sys.exit] of the script itself has status 1, and so has an
    exception nobody catches. *)
Theorem main_exit_status argparse argv w :
  ((run_command env argparse argv w).1 = 0
   ∨ (run_command env argparse argv w).1 = 1
   ∨ (run_command env argparse argv w).1 = 2)
  ∧ ((run_command env argparse argv w).1 = 2
     <-> ∃ message, argparse argv = Rejected message)
  ∧ ((run_command env argparse argv w).1 = 0
     <-> (∃ text, argparse argv = HelpRequested text)
         ∨ ∃ args w', argparse argv = Namespace args
                      ∧ main env args w = (Ret tt, w')).
Proof.
  unfold run_command, main_argv, parse_args.
  destruct (argparse argv) as [args|text|message] eqn:Hp.
  - rewrite bind_run. cbn.
    destruct (main env args w) as [o w'] eqn:Hrun.
    destruct (main_ends env args (cwd w) w o w' Hrun eq_refl) as (_ & X & _).
    assert (∀ a0 w0, Namespace args = Namespace a0 ->
                     main env a0 w = (Ret tt, w0) -> o = Ret tt) as Hret
      by (intros a0 w0 [= <-] H; congruence).
    destruct o as [[]|e|code]; cbn.
    + split; [by left|]. split; [split; [done|by intros (? & [=])]|].
      split; [|done]. intros _. right. by exists args, w'.
    + split; [right; by left|]. split; [split; [done|by intros (? & [=])]|].
      split; [done|].
      intros [(? & [=])|(a0 & w0 & Ha & H)]. by specialize (Hret _ _ Ha H).
    + rewrite (X code eq_refl).
      split; [right; by left|]. split; [split; [done|by intros (? & [=])]|].
      split; [done|].
      intros [(? & [=])|(a0 & w0 & Ha & H)]. by specialize (Hret _ _ Ha H).
  - unfold_monad. cbn. split; [by left|].
    split; [split; [done|by intros (? & [=])]|].
    split; [|done]. intros _. left. by exists text.
  - unfold_monad. cbn. split; [right; by right|]. split; [split; [|done]|].
    + intros _. by exists message.
    + split; [done|]. intros [(? & [=])|(? & ? & [=] & _)].
Qed.

End CommandLine.

Section ContainerFlags.
Context (env : Env).

(** a world as a history in front of the world without one *)
Lemma with_trace_nil w :
  w = with_trace (trace w)
        {| fs := fs w; cwd := cwd w; containers := containers w; trace := [] |}.
Proof. destruct w. unfold with_trace. cbn. by rewrite app_nil_r. Qed.

(** lines 681-698: the notices, then the container build *)
Lemma main_container_run args w :
  main_container env args w
  = build_ghostty_container env (version args) (zig_version args) (no_cache args)
      (with_trace (trace w ++ container_notices args)
         {| fs := fs w; cwd := cwd w; containers := containers w; trace := [] |}).
Proof.
  unfold main_container, container_notices, with_trace. unfold_monad.
  destruct (skip_build args), (skip_signature args), (pull_always args),
    (no_cache args); cbn; rewrite ?app_nil_r, <- ?(assoc_L (++)); reflexivity.
Qed.

(** X16: with [--container], the flags of a local build
    ([--skip-build], [--skip-signature], [--pull-always]) change nothing
    but the notices logged at the start.  Two container runs for the same
    versions and the same [--no-cache] end with the same outcome, disk,
    working directory and containers, and log the same events after
    their notices. *)
Theorem container_ignores_local_flags args1 args2 w :
  uninstall args1 = false -> container args1 = true ->
  uninstall args2 = false -> container args2 = true ->
  version args1 = version args2 ->
  zig_version args1 = zig_version args2 ->
  no_cache args1 = no_cache args2 ->
  (main env args1 w).1 = (main env args2 w).1
  ∧ fs (main env args1 w).2 = fs (main env args2 w).2
  ∧ cwd (main env args1 w).2 = cwd (main env args2 w).2
  ∧ containers (main env args1 w).2 = containers (main env args2 w).2
  ∧ ∃ rest,
      since w (main env args1 w).2 = container_notices args1 ++ rest
      ∧ since w (main env args2 w).2 = container_notices args2 ++ rest.
Proof.
  intros Hu1 Hc1 Hu2 Hc2 Hv Hz Hn. unfold main.
  rewrite Hu1, Hc1, Hu2, Hc2, !main_container_run, <- Hv, <- Hz, <- Hn.
  set (w0 := {| fs := fs w; cwd := cwd w; containers := containers w;
                trace := [] |}).
  destruct (build_ghostty_container env (version args1) (zig_version args1)
              (no_cache args1) w0) as [o w0'] eqn:Hrun.
  destruct (acts_build_ghostty_container env (cwd w) (fun _ => True)
              ltac:(done) ltac:(done) ltac:(done) _ _ _
              ltac:(done) ltac:(done) ltac:(done) ltac:(done) ltac:(done)
              ltac:(done) ltac:(done) w0 o w0' Hrun eq_refl)
    as (_ & _ & _ & Hblind).
  rewrite !Hblind. cbn. repeat (split; [done|]).
  exists (trace w0'). unfold since. cbn.
  by rewrite <- !(assoc_L (++)), !drop_app_length.
Qed.

End ContainerFlags.

(** ** More on the filesystem *)

Lemma stat_above m d p n :
  m !! p = Some n -> d `prefix_of` p -> is_Some (stat m d).
Proof.
  intros Hp Hd. unfold stat. destruct (m !! d); [by eexists|].
  case_decide as Hb; [|by eexists].
  assert (beneath d m !! p = Some n) as Hin
    by (unfold beneath; by apply map_lookup_filter_Some).
  rewrite Hb in Hin. by rewrite lookup_empty in Hin.
Qed.

(** an archive whose members have distinct names unpacks each of them *)
Lemma write_tree_unique target entries m rel n :
  NoDup entries.*1 -> (rel, n) ∈ entries ->
  write_tree target entries m !! (target ++ rel) = Some n.
Proof.
  unfold write_tree. revert m.
  induction entries as [|[rel' n'] entries IH]; intros m Hnd Hin; cbn in *.
  - by apply elem_of_nil in Hin.
  - apply NoDup_cons in Hnd as [Hnot Hnd].
    apply elem_of_cons in Hin as [[= <- <-]|Hin]; [|by apply IH].
    fold (write_tree target entries (<[target ++ rel:=n]> m)).
    rewrite write_tree_lookup.
    destruct (write_tree target entries ∅ !! (target ++ rel)) as [n2|] eqn:E.
    + apply write_tree_member in E as (rel2 & Hin2 & Heq).
      apply app_inv_head in Heq as <-.
      destruct Hnot. apply list_elem_of_fmap. by exists (rel, n2).
    + apply lookup_insert_eq.
Qed.

(** what was at the source of a move is at its destination *)
Lemma move_tree_dst src dst m n :
  m !! src = Some n -> move_tree src dst m !! dst = Some n.
Proof.
  intros Hs. unfold move_tree.
  set (entries := List.map _ _).
  assert (([], n) ∈ entries) as Hin.
  { unfold entries. apply list_elem_of_In, in_map_iff. exists (src, n).
    cbn. rewrite drop_all. split; [done|].
    apply filter_In. split.
    - by apply list_elem_of_In, elem_of_map_to_list.
    - by apply bool_decide_eq_true. }
  assert (∀ n', ([], n') ∈ entries -> n' = n) as Huniq.
  { intros n'. unfold entries.
    intros ([k v] & [= Hk <-] & Hf%filter_In)%list_elem_of_In%in_map_iff.
    destruct Hf as [Hm Hp]. cbn in *.
    apply bool_decide_eq_true in Hp as [r ->].
    rewrite drop_app_length in Hk. subst r. rewrite app_nil_r in Hm.
    apply list_elem_of_In, elem_of_map_to_list in Hm. congruence. }
  clearbody entries. rewrite write_tree_lookup.
  assert (write_tree dst entries ∅ !! dst = Some n) as ->; [|done].
  unfold write_tree.
  assert (∀ m0 : gmap path node,
            (∀ n', ([], n') ∈ entries -> n' = n) ->
            (([], n) ∈ entries ∨ m0 !! dst = Some n) ->
            foldl (fun acc kv => <[dst ++ kv.1:=kv.2]> acc) m0 entries !! dst
            = Some n) as Hgen.
  { clear Hin Huniq. induction entries as [|[r v] entries IH]; intros m0 Hu Hor.
    - cbn. destruct Hor as [Hin|?]; [by apply elem_of_nil in Hin|done].
    - cbn. apply IH.
      + intros n' Hn'. apply Hu. by right.
      + destruct Hor as [[[= <- <-]|Hin]%elem_of_cons|Hm0].
        * right. rewrite app_nil_r. apply lookup_insert_eq.
        * by left.
        * destruct (decide (dst ++ r = dst)) as [Heq|Hne].
          -- right. rewrite Heq, lookup_insert_eq.
             assert (r = []) as -> by (by apply (app_inv_head dst);
                                       rewrite app_nil_r).
             f_equal. apply Hu. by left.
          -- right. by rewrite lookup_insert_ne. }
  apply Hgen; [done|by left].
Qed.

Section Toolchain.
Context (env : Env).

Lemma download_file_returns url d pa w w' :
  download_file env url d pa w = (Ret tt, w') ->
  fs w' !! d = fetched env url d pa (fs w).
Proof.
  unfold download_file, urlretrieve, fetched. unfold_monad. cbn.
  destruct (bool_decide (is_Some (stat (fs w) d)) && negb pa); cbn.
  - by intros [= <-].
  - destruct (fault env (Urlretrieve url d)); [destruct (truncated env url)|];
      cbn; intros [= <-]; cbn. apply lookup_insert_eq.
Qed.

Lemma extract_tar_xz_returns a d w w' :
  extract_tar_xz env a d w = (Ret tt, w') ->
  ∃ bytes, fs w !! a = Some (File bytes)
           ∧ fs w' = write_tree d (members env "r:xz" bytes) (fs w).
Proof.
  unfold extract_tar_xz, tar_extractall. unfold_monad. cbn.
  destruct (stat (fs w) a) as [[bytes|]|] eqn:Hst; cbn; [|done..].
  apply stat_File in Hst.
  destruct (fault env (TarExtract "r:xz" a d)); cbn; intros [= <-]; cbn.
  by exists bytes.
Qed.

Lemma zig_dir_apart zv : zig_dir zv ≠ "zig" ∧ zig_dir zv ≠ "zig.tar.xz"
                          ∧ zig_dir zv ≠ "lib".
Proof. unfold zig_dir. cbn. repeat split; discriminate. Qed.

Lemma join_prefix (p : path) x y : (p // x) `prefix_of` (p // y) -> x = y.
Proof.
  unfold join. intros [r Hr]. rewrite <- (assoc_L (++)) in Hr.
  apply app_inv_head in Hr. by injection Hr.
Qed.

Lemma mkdir_returns p w w' :
  mkdir env p w = (Ret tt, w') ->
  fs w' = fs w ∨ (stat (fs w) p = None ∧ fs w' = <[p:=Dir]> (fs w)).
Proof.
  unfold mkdir. unfold_monad. cbn.
  destruct (fault env (Mkdir p)); cbn; [done|].
  destruct (stat (fs w) p) as [[|]|]; cbn; [done|..]; intros [= <-]; cbn; eauto.
Qed.

Lemma rename_returns a b w w' :
  rename env a b w = (Ret tt, w') -> fs w' = move_tree a b (fs w).
Proof.
  unfold rename. unfold_monad. cbn.
  destruct (fault env (Rename a b)); cbn; [done|].
  destruct (stat (fs w) a); cbn; [|done]. by intros [= <-].
Qed.

Lemma rmtree_returns p w w' :
  rmtree env p w = (Ret tt, w') -> fs w' = outside p (fs w).
Proof.
  unfold rmtree. unfold_monad. cbn.
  destruct (fault env (Rmtree p)); cbn; [done|].
  destruct (stat (fs w) p) as [[|]|]; cbn; [done| |done]. by intros [= <-].
Qed.

Lemma unlink_returns p w w' :
  unlink env p w = (Ret tt, w') -> fs w' = delete p (fs w).
Proof.
  unfold unlink. unfold_monad. cbn.
  destruct (fault env (Unlink p)); cbn; [done|].
  destruct (stat (fs w) p) as [[|]|]; cbn; [|done..]. by intros [= <-].
Qed.

Lemma fetched_mkdir url cd x pa m :
  stat m cd = None ->
  fetched env url (cd // x) pa (<[cd:=Dir]> m) = fetched env url (cd // x) pa m.
Proof.
  intros Hn. unfold fetched.
  rewrite stat_insert_other by (by apply longer_not_prefix).
  rewrite lookup_insert_ne; [done|].
  unfold join. intros Heq. apply (f_equal length) in Heq.
  rewrite length_app in Heq. cbn in Heq. lia.
Qed.

(** X7: a [setup_zig] that does its work and returns has installed
    the compiler.  When the archive it unpacks (the one it fetched, or
    the one that was cached) holds [zig-x86_64-linux-<version>/zig], the
    file at [compiler_dir/zig] is that member, and both the archive and
    the unpacked directory are gone.  (A directory in the place of the
    compiler, and members outside the archive's own directory, are left
    out: there the rename of the real filesystem fails.) *)
Theorem setup_zig_installs cd zv pa w w' bytes content :
  setup_zig env cd zv pa w = (Ret tt, w') ->
  ¬ (is_Some (stat (fs w) (cd // "zig")) ∧ pa = false) ->
  stat (fs w) (cd // "zig") ≠ Some Dir ->
  fetched env (zig_url zv) (cd // "zig.tar.xz") pa (fs w) = Some (File bytes) ->
  NoDup (members env "r:xz" bytes).*1 ->
  Forall (fun kv => [zig_dir zv] `prefix_of` kv.1) (members env "r:xz" bytes) ->
  ([zig_dir zv; "zig"], File content) ∈ members env "r:xz" bytes ->
  fs w' !! (cd // "zig") = Some (File content)
  ∧ fs w' !! (cd // "zig.tar.xz") = None
  ∧ stat (fs w') (cd // zig_dir zv) = None.
Proof.
  intros Hrun Hfresh _ Hbytes Hnd _ Hzig.
  destruct (zig_dir_apart zv) as (Nz & Na & Nl).
  unfold setup_zig in Hrun. cbv zeta in Hrun.
  apply bind_Ret in Hrun as (present & w0 & E0 & Hrun).
  injection E0 as <- <-.
  assert (bool_decide (is_Some (stat (fs w) (cd // "zig"))) && negb pa = false)
    as Hcond.
  { apply not_true_is_false. intros [H1 H2]%andb_prop. apply Hfresh.
    split; [by apply bool_decide_eq_true in H1|by destruct pa]. }
  rewrite Hcond in Hrun.
  apply bind_Ret in Hrun as ([] & w1 & E1 & Hrun). injection E1 as <-.
  apply bind_Ret in Hrun as ([] & w2 & E2 & Hrun).
  apply bind_Ret in Hrun as ([] & w3 & E3 & Hrun).
  apply bind_Ret in Hrun as ([] & w4 & E4 & Hrun).
  apply bind_Ret in Hrun as (extracted & w5 & E5 & Hrun).
  injection E5 as <- <-.
  apply bind_Ret in Hrun as ([] & w6 & E6 & Hrun).
  apply bind_Ret in Hrun as ([] & w7 & E7 & Hrun).
  injection Hrun as <-. cbn [fs].
  fold (zig_dir zv) in *. fold (zig_url zv) in E3.
  set (E := cd // zig_dir zv) in *.
  (* the archive that is unpacked *)
  assert (fs w3 !! (cd // "zig.tar.xz") = Some (File bytes)) as Harchive.
  { rewrite (download_file_returns _ _ _ _ _ E3), <- Hbytes.
    apply mkdir_returns in E2 as [->|[Hn ->]]; cbn [fs]; [done|].
    by apply fetched_mkdir. }
  apply extract_tar_xz_returns in E4 as (bytes' & Hb' & Hfs4).
  assert (bytes' = bytes) as -> by congruence.
  (* the compiler is among what was unpacked *)
  assert (fs w4 !! (E // "zig") = Some (File content)) as Hsrc.
  { rewrite Hfs4. unfold E, join. rewrite <- !(assoc_L (++)). cbn [app].
    by apply write_tree_unique. }
  assert (is_Some (stat (fs w4) E)) as Hdir
    by (eapply stat_above; [exact Hsrc|by apply prefix_app_r]).
  rewrite (bool_decide_eq_true_2 _ Hdir) in E6.
  apply bind_Ret in E6 as (has_zig & w8 & E8 & E6). injection E8 as <- <-.
  rewrite (bool_decide_eq_true_2 (is_Some (stat (fs w4) (E // "zig")))) in E6
    by (rewrite (stat_entry _ _ _ Hsrc); eauto).
  apply bind_Ret in E6 as ([] & w9 & E9 & E6).
  apply rename_returns in E9.
  assert (fs w9 !! (cd // "zig") = Some (File content)) as Hdst
    by (rewrite E9; by apply move_tree_dst).
  (* the rest leaves it there *)
  set (own := fun p : path => (cd // "lib") `prefix_of` p ∨ E `prefix_of` p).
  assert (∀ p q : path, own p -> p `prefix_of` q -> own q) as Hup
    by (intros p q [?|?] ?; [left|right]; by etrans).
  assert (¬ own (cd // "zig")) as Hzo.
  { intros [H|H]; apply join_prefix in H; done. }
  match type of E6 with
  | ?m w9 = _ =>
      assert (steps (untouched own) m) as Hk
  end.
  { steps_split ltac:(first
      [ apply frame_exists
      | apply frame_rmtree; [exact Hup|]
      | apply frame_rename; [exact Hup| |] ]);
      first [by left | by right | left; by apply prefix_app_r
            | right; by apply prefix_app_r]. }
  destruct (Hk _ _ _ E6) as [_ Hsame].
  apply bind_Ret in E6 as (has_lib & w10 & _ & E6).
  apply bind_Ret in E6 as ([] & w11 & _ & E6).
  apply rmtree_returns in E6. apply unlink_returns in E7. rewrite E7.
  split; [|split].
  - rewrite lookup_delete_ne by (by apply join_ne). by rewrite Hsame.
  - apply lookup_delete_eq.
  - rewrite stat_delete by (intros H; by apply join_prefix in H).
    rewrite E6. apply stat_outside.
Qed.

End Toolchain.

(** ** Runs that follow one another, and the order of a local build *)

Section Repeated.
Context (env : Env).

(** a transfer that fails half-way leaves a file, and the next run takes
    that file for the download *)
(** X6: [download_file] does not clean up after a failed transfer.
    When the transfer raises after leaving a partial file, the process
    exits with status 1 and the partial file stays; the next
    [download_file] for the same destination (without forced refresh)
    takes it for the download: it returns without fetching anything. *)
Theorem failed_download_is_kept url d w e partial :
  fault env (Urlretrieve url d) = Some e ->
  truncated env url = Some partial ->
  stat (fs w) d = None ->
  ∃ w1,
    download_file env url d false w = (Exit 1, w1)
    ∧ fs w1 !! d = Some (File partial)
    ∧ ∀ u, fs u = fs w1 ->
        ∃ u', download_file env url d false u = (Ret tt, u')
              ∧ fs u' = fs w1
              ∧ operations (since u u') = [].
Proof.
  intros Hf Ht Hn. unfold download_file, urlretrieve. unfold_monad. cbn.
  rewrite Hn, Hf, Ht. cbn. eexists. split; [reflexivity|]. cbn.
  split; [apply lookup_insert_eq|].
  intros u Hu. rewrite Hu.
  rewrite (stat_entry _ d (File partial)) by apply lookup_insert_eq. cbn.
  eexists. split; [reflexivity|]. split; [done|]. by since_simpl.
Qed.

(** ** The uninstaller, run twice *)

Lemma remaining_subseteq m p n :
  remaining env m !! p = Some n -> m !! p = Some n.
Proof.
  unfold remaining, artifacts. cbn.
  destruct (removal_of env m (ghostty_binary env)),
    (removal_of env m (app_desktop env)),
    (removal_of env m (dolphin_desktop env));
    intros H; repeat (apply lookup_delete_Some in H as [_ H]); done.
Qed.

Lemma steps_log_items R `{!PreOrder R} log items :
  (∀ line, steps R (log line)) -> steps R (log_items log items).
Proof.
  intros Hl. induction items as [|item rest IH]; cbn.
  - by apply steps_ret.
  - apply steps_bind; [done|apply Hl|intros _; apply IH].
Qed.

Lemma uninstall_ghostty_fs w o w' :
  uninstall_ghostty env w = (o, w') -> fs w' = remaining env (fs w).
Proof.
  intros Hrun. unfold uninstall_ghostty in Hrun.
  rewrite bind_run in Hrun. cbn [log_info emit] in Hrun. cbv beta iota in Hrun.
  rewrite bind_run in Hrun.
  match type of Hrun with
  | context [uninstall_items env ?w0] =>
      destruct (uninstall_items_run env w0) as (w1 & E1 & Hfs & _ & _)
  end.
  rewrite E1 in Hrun. cbn [fs] in Hfs. rewrite <- Hfs.
  match type of Hrun with
  | ?m w1 = _ =>
      assert (steps (untouched (fun _ => False)) m) as Hk
  end.
  { cbv zeta.
    steps_split ltac:(first
      [ apply frame_log_info | apply frame_log_success | apply frame_log_error
      | apply frame_log_warning
      | apply steps_log_items; [apply _|intros ?] ]). }
  destruct (Hk _ _ _ Hrun) as [_ Hsame]. apply map_eq. intros p.
  apply Hsame. tauto.
Qed.

(** X10: the uninstaller can be run again.  After a run that
    returned (every artifact it found was removed), with nothing lying
    below the artifact paths, a second run finds none of the three, calls
    no operation, leaves the disk as it is, logs that nothing was found
    and returns. *)
Theorem uninstall_twice w w1 :
  uninstall_ghostty env w = (Ret tt, w1) ->
  (∀ a q, a ∈ artifacts env -> a.2 `prefix_of` q -> q ≠ a.2 -> fs w !! q = None) ->
  ∃ w2,
    uninstall_ghostty env w1 = (Ret tt, w2)
    ∧ fs w2 = fs w1
    ∧ operations (since w1 w2) = []
    ∧ last (trace w2) = Some (EvLog WARNING "No Ghostty artifacts found to remove").
Proof.
  intros Hrun Hwf.
  pose proof (uninstall_ghostty_fs _ _ _ Hrun) as Hfs1.
  destruct (uninstall_ghostty_run env w) as (w1' & Hrun' & _).
  rewrite Hrun in Hrun'.
  destruct (decide (failed_lines env (fs w) = [])) as [Hf|Hf]; [|done].
  clear Hrun'.
  assert (∀ a, a ∈ artifacts env -> stat (fs w1) a.2 = None) as Hgone.
  { intros a Ha.
    assert (∀ q, a.2 `prefix_of` q -> fs w1 !! q = None) as Hnone.
    { intros q Hq. destruct (decide (q = a.2)) as [->|Hne].
      - rewrite Hfs1, (remaining_lookup env _ _ Ha).
        destruct (removal_of env (fs w) a.2) as [| |e] eqn:Er; [|done|].
        + apply removal_of_Skipped in Er.
          by apply (stat_None_below _ _ _ Er).
        + exfalso. apply (proj1 (failed_lines_nil env (fs w)) Hf). eauto.
      - destruct (fs w1 !! q) as [n|] eqn:E; [|done].
        rewrite Hfs1 in E. apply remaining_subseteq in E.
        by rewrite (Hwf a q Ha Hq Hne) in E. }
    unfold stat. rewrite (Hnone a.2) by done.
    rewrite decide_True; [done|]. apply map_empty. intros q.
    unfold beneath. apply map_lookup_filter_None.
    destruct (decide (a.2 `prefix_of` q)) as [Hq|Hq].
    - left. by apply Hnone.
    - right. by intros n _ ?. }
  pose proof (Hgone ("Binary", ghostty_binary env)
                ltac:(unfold artifacts; set_solver)) as H1.
  pose proof (Hgone ("Application desktop file", app_desktop env)
                ltac:(unfold artifacts; set_solver)) as H2.
  pose proof (Hgone ("Dolphin service menu", dolphin_desktop env)
                ltac:(unfold artifacts; set_solver)) as H3.
  cbn [snd] in H1, H2, H3.
  unfold uninstall_ghostty, uninstall_items, remove_item. unfold_monad.
  cbn [fs cwd containers trace]. rewrite H1.
  change (bool_decide (is_Some (@None node))) with false.
  cbn. rewrite H2.
  change (bool_decide (is_Some (@None node))) with false.
  cbn. rewrite H3.
  change (bool_decide (is_Some (@None node))) with false.
  cbn. eexists. split; [reflexivity|]. cbn. split; [done|].
  split; [by since_simpl|]. apply last_snoc.
Qed.

End Repeated.

Section Verified.
Context (env : Env).

(** [validate_signature] says yes only when the verifier has run on the
    archive and exited with status 0 *)
Lemma validate_signature_true a sg key w w' :
  validate_signature env a sg key w = (Ret true, w') ->
  fault env (Run (minisign_verify (tmp_key_file env) a) (cwd w) None) = None
  ∧ (completed env (minisign_verify (tmp_key_file env) a) (cwd w) None).1.1 = 0
  ∧ EvOp (Run (minisign_verify (tmp_key_file env) a) (cwd w) None) ∈ since w w'.
Proof.
  unfold validate_signature, validate_signature_body, subprocess_run_check,
    subprocess_run, write_text, unlink.
  unfold_monad. cbn.
  destruct (fault env (Run minisign_probe (cwd w) None)); cbn;
    [by destruct (bool_decide _)|].
  destruct (decide (_ = 0)); cbn; [|by destruct (bool_decide _)].
  destruct (fault env NamedTemporaryFile); cbn; [done|].
  destruct (fault env (Write (tmp_key_file env))); cbn; [done|].
  rewrite (stat_entry _ (tmp_key_file env) (File "")) by apply lookup_insert_eq.
  cbn.
  destruct (fault env (Run (minisign_verify _ _) (cwd w) None)); cbn; [done|].
  destruct (fault env (Unlink (tmp_key_file env))); cbn; [done|].
  rewrite (stat_entry _ (tmp_key_file env) (File key)) by apply lookup_insert_eq.
  cbn.
  destruct (decide (_ = 0)) as [Hrc|Hrc]; cbn; [|done].
  intros [= <-]. split; [done|]. split; [done|].
  since_simpl. in_list.
Qed.

(** X5: without [--skip-signature] a local build unpacks nothing
    that was not verified.  If any archive is unpacked during a run of
    [main], then [minisign -V] has run on the release archive in the
    working directory and has exited with status 0. *)
Theorem extraction_requires_verification args w o w' e :
  uninstall args = false -> container args = false ->
  skip_signature args = false ->
  main env args w = (o, w') ->
  e ∈ since w w' -> is_extraction e = true ->
  fault env (Run (minisign_verify (tmp_key_file env)
                    (release_archive (cwd w) (version args))) (cwd w) None)
  = None
  ∧ (completed env (minisign_verify (tmp_key_file env)
                      (release_archive (cwd w) (version args))) (cwd w) None).1.1
    = 0
  ∧ EvOp (Run (minisign_verify (tmp_key_file env)
                 (release_archive (cwd w) (version args))) (cwd w) None)
      ∈ since w w'.
Proof.
  intros Hu Hc Hs Hrun He Hex. unfold main in Hrun. rewrite Hu, Hc in Hrun.
  set (quietly := fun e : event => is_extraction e = false).
  assert (∀ u u', emitting quietly u u' -> u' = w' -> u = w -> False) as Hno.
  { intros u u' G -> ->. apply emitting_since in G.
    pose proof (proj1 (Forall_forall _ _) G e He) as Hq.
    unfold quietly in Hq. congruence. }
  unfold main_local in Hrun. rewrite bind_run in Hrun.
  destruct (main_fetch env args w) as [o1 w1] eqn:E1.
  assert (emitting quietly w w1) as Q1
    by (eapply (emits_main_fetch env); [done| |exact E1]; done).
  destruct (acts_main_fetch env (cwd w) (fun _ => True)
              ltac:(done) args ltac:(done) ltac:(done)
              _ _ _ E1 eq_refl) as (C1 & G1 & _ & _).
  destruct o1 as [r|x|code]; [|injection Hrun as <- <-; by destruct (Hno w w1)..].
  rewrite (main_fetch_returns env (cwd w) args w r w1 eq_refl E1) in Hrun.
  cbv beta iota in Hrun. rewrite bind_run in Hrun.
  unfold main_verify in Hrun. rewrite Hs, bind_run in Hrun.
  destruct (validate_signature env _ _ public_key w1) as [ov w2] eqn:E2.
  assert (emitting quietly w1 w2) as Q2.
  { eapply (emits_validate_signature env); [done| | |exact E2];
      [by intros []|done]. }
  assert (emitting (fun _ => True) w1 w2) as G2.
  { eapply (emits_validate_signature env); [done| | |exact E2]; done. }
  destruct ov as [[|]|x|code]; cbn in Hrun.
  - destruct (validate_signature_true _ _ _ _ _ E2) as (Hf & Hrc & Hin).
    rewrite C1 in Hf, Hrc, Hin. split; [done|]. split; [done|].
    match type of Hrun with
    | ?m w2 = _ =>
        assert (steps (emitting (fun _ => True)) m) as Hk
    end.
    { apply steps_bind; [apply _| |intros gd].
      - apply emits_main_extract; done.
      - apply emits_main_build; done. }
    rewrite (since_trans _ _ _ _ (transitivity G1 G2) (Hk _ _ _ Hrun)).
    rewrite (since_trans _ _ _ _ G1 G2).
    apply elem_of_app. left. apply elem_of_app. by right.
  - injection Hrun as <- <-. exfalso. eapply Hno; [|reflexivity..].
    etrans; [exact Q1|]. etrans; [exact Q2|].
    eexists [_]. split; [reflexivity|]. by constructor.
  - injection Hrun as <- <-. exfalso. eapply Hno; [|reflexivity..]. by etrans.
  - injection Hrun as <- <-. exfalso. eapply Hno; [|reflexivity..]. by etrans.
Qed.

End Verified.

(** ** What the container path installs *)

(** [stat] at [p] looks at [p] and below only *)
Lemma stat_agree (m m' : gmap path node) p :
  (∀ q, p `prefix_of` q -> m' !! q = m !! q) -> stat m' p = stat m p.
Proof.
  intros H. unfold stat. rewrite (H p) by done.
  assert (beneath p m' = beneath p m) as ->; [|done].
  apply map_eq. intros q. unfold beneath.
  destruct (decide (p `prefix_of` q)) as [Hq|Hq].
  - destruct (m !! q) as [n|] eqn:E.
    + transitivity (Some n); [|symmetry]; apply map_lookup_filter_Some;
        (split; [|done]); [by rewrite H|done].
    + transitivity (@None node); [|symmetry]; apply map_lookup_filter_None;
        left; [by rewrite H|done].
  - transitivity (@None node); [|symmetry]; apply map_lookup_filter_None;
      right; by intros n _ Hp.
Qed.

Lemma untouched_stat own w w' p :
  untouched own w w' -> (∀ q, p `prefix_of` q -> ¬ own q) ->
  stat (fs w') p = stat (fs w) p.
Proof.
  intros [_ Hfs] Hp. apply stat_agree. intros q Hq. apply Hfs. by apply Hp.
Qed.

(** two paths of which neither is above the other have nothing in common
    below them *)
Lemma apart_below (t p q : path) :
  ¬ t `prefix_of` p -> ¬ p `prefix_of` t -> p `prefix_of` q -> ¬ t `prefix_of` q.
Proof.
  intros Htp Hpt Hpq Htq.
  destruct (prefix_weak_total _ _ _ Htq Hpq); done.
Qed.

Section Installed.
Context (env : Env).

Lemma copy2_returns a b w w' bytes :
  copy2 env a b w = (Ret tt, w') ->
  stat (fs w) a = Some (File bytes) -> stat (fs w) b ≠ Some Dir ->
  fs w' = <[b := File bytes]> (fs w).
Proof.
  intros Hrun Ha Hb. revert Hrun. unfold copy2. unfold_monad. cbn.
  destruct (fault env (Copy2 a b)); cbn; [done|]. rewrite Ha.
  destruct (stat (fs w) b) as [[|]|] eqn:Eb; cbv zeta; rewrite ?Eb; cbn;
    try done; by intros [= <-].
Qed.

Lemma podman_cp_returns src target w r w' :
  podman_cp env src target w = (Ret r, w') ->
  r.1.1 = 0 -> fs w' = write_tree target (container_tree env src) (fs w).
Proof.
  unfold podman_cp, subprocess_run. unfold_monad. cbn.
  destruct (fault env _); cbn; [done|].
  destruct (decide _) as [Hrc|Hrc]; cbn; intros [= <- <-]; [done|].
  intros Hz. by destruct Hrc.
Qed.

Ltac frame_logs :=
  first [ apply frame_log_info | apply frame_log_success
        | apply frame_log_error | apply frame_log_warning ].

Lemma extract_artifacts_binary c v t w r w' content :
  extract_artifacts_from_container env c v t w = (Ret r, w') ->
  container_tree env (c +:+ ":/build/output/bin/ghostty") = [([], File content)] ->
  fs w' !! (t // "ghostty") = Some (File content).
Proof.
  intros Hrun Htree. unfold extract_artifacts_from_container in Hrun.
  apply bind_Ret in Hrun as ([] & w1 & H1 & Hrun). cbv zeta in Hrun.
  apply bind_Ret in Hrun as (res & w2 & H2 & Hrun).
  apply bind_Ret in Hrun as ([] & w3 & H3 & Hrun).
  destruct (decide (res.1.1 ≠ 0)) as [Hrc|Hrc].
  { apply bind_Ret in H3 as ([] & ? & _ & H3). discriminate H3. }
  apply dec_stable in Hrc.
  apply (podman_cp_returns _ _ _ _ _ H2) in Hrc. rewrite Htree in Hrc.
  injection H3 as <-.
  match type of Hrun with
  | ?m w2 = _ =>
      assert (steps (untouched (fun p => (t // "dist") `prefix_of` p)) m) as Hk
  end.
  { steps_split ltac:(first
      [ frame_logs
      | apply frame_podman_cp; [intros ? ? ? ?; by etrans|done] ]). }
  destruct (Hk _ _ _ Hrun) as [_ Hfs].
  rewrite Hfs by (intros Hp%join_prefix; discriminate Hp).
  rewrite Hrc. unfold write_tree. cbn. unfold join. rewrite app_nil_r.
  apply lookup_insert_eq.
Qed.

Lemma untouched_nothing w w' : untouched (fun _ => False) w w' -> fs w' = fs w.
Proof. intros [_ Hfs]. apply map_eq. intros p. apply Hfs. tauto. Qed.

Lemma binary_not_below_descriptors :
  ¬ (home env // ".local" // "share" // "applications")
      `prefix_of` ghostty_binary env
  ∧ ¬ (home env // ".local" // "share" // "kio" // "servicemenus")
        `prefix_of` ghostty_binary env.
Proof.
  unfold ghostty_binary, join. rewrite <- !(assoc_L (++)). cbn.
  split; intros [k Hk]%prefix_app_inv; discriminate Hk.
Qed.

(** lines 552-575 with a single file at the binary's place in the
    container: that file is what ends at the fixed path *)
Lemma container_install_binary c v w w' content :
  container_install env c v (tmp_dir env) w = (Ret tt, w') ->
  container_tree env (c +:+ ":/build/output/bin/ghostty") = [([], File content)] ->
  stat (fs w) (ghostty_binary env) ≠ Some Dir ->
  ¬ tmp_dir env `prefix_of` ghostty_binary env ->
  ¬ ghostty_binary env `prefix_of` tmp_dir env ->
  fs w' !! ghostty_binary env = Some (File content).
Proof.
  intros Hrun Htree Hnd Htg Hgt. unfold container_install in Hrun.
  assert (∀ p q r : path, p `prefix_of` q -> q `prefix_of` r -> p `prefix_of` r)
    as Htrans by (intros p q r ? ?; by etrans).
  apply bind_Ret in Hrun as ([bp dd] & w1 & H1 & Hrun).
  pose proof (extract_artifacts_returns _ _ _ _ _ _ _ H1) as [= -> ->].
  pose proof (extract_artifacts_binary _ _ _ _ _ _ _ H1 Htree) as Hbin.
  assert (stat (fs w1) (ghostty_binary env) ≠ Some Dir) as Hnd1.
  { rewrite (untouched_stat (fun p => tmp_dir env `prefix_of` p) w w1); [done| |].
    - by apply (frame_extract_artifacts env _ (Htrans (tmp_dir env))) in H1.
    - intros q. by apply apart_below. }
  cbv beta iota zeta in Hrun.
  apply bind_Ret in Hrun as ([] & w2 & H2 & Hrun).
  apply (frame_log_info (fun _ => False)), untouched_nothing in H2.
  apply bind_Ret in Hrun as ([] & w3 & H3 & Hrun).
  apply mkdir_returns in H3. rewrite H2 in H3.
  assert (stat (fs w3) (ghostty_binary env) ≠ Some Dir
          ∧ fs w3 !! (tmp_dir env // "ghostty") = Some (File content))
    as [Hnd3 Hbin3].
  { destruct H3 as [->|[_ ->]]; [done|]. split.
    - rewrite stat_insert_other; [done|].
      unfold ghostty_binary. by apply longer_not_prefix.
    - rewrite lookup_insert_ne; [done|]. intros Heq. apply Htg.
      unfold ghostty_binary. rewrite Heq. unfold join.
      rewrite <- (assoc_L (++)). by apply prefix_app_r. }
  apply bind_Ret in Hrun as ([] & w4 & H4 & Hrun).
  apply (copy2_returns _ _ _ _ content) in H4;
    [|by apply stat_entry|exact Hnd3].
  match type of Hrun with
  | ?m w4 = _ =>
      assert (steps (untouched (fun p =>
                tmp_dir env `prefix_of` p
                ∨ (home env // ".local" // "share" // "applications")
                    `prefix_of` p
                ∨ (home env // ".local" // "share" // "kio" // "servicemenus")
                    `prefix_of` p)) m) as Hk
  end.
  { assert (∀ p q : path,
              tmp_dir env `prefix_of` p
              ∨ (home env // ".local" // "share" // "applications")
                  `prefix_of` p
              ∨ (home env // ".local" // "share" // "kio" // "servicemenus")
                  `prefix_of` p ->
              p `prefix_of` q ->
              tmp_dir env `prefix_of` q
              ∨ (home env // ".local" // "share" // "applications")
                  `prefix_of` q
              ∨ (home env // ".local" // "share" // "kio" // "servicemenus")
                  `prefix_of` q) as Hup
      by (intros p q [?|[?|?]] ?; eauto).
    steps_split ltac:(first
      [ frame_logs
      | apply frame_chmod
      | apply frame_mkdir; left; unfold join; by apply prefix_app_r
      | apply (frame_move env _ Hup); left; unfold join;
          rewrite <- ?(assoc_L (++)); by apply prefix_app_r
      | apply (frame_install_descriptors env _ Hup);
          [right; left|right; right]; done ]). }
  destruct (Hk _ _ _ Hrun) as [_ Hfs].
  destruct binary_not_below_descriptors as [Happs Hkio].
  rewrite Hfs by (intros [?|[?|?]]; done).
  rewrite H4. apply lookup_insert_eq.
Qed.

(** X19: a container build that returns has installed the file that
    [podman cp] took from the container's [/build/output/bin/ghostty]:
    whatever was at [~/.local/bin/ghostty] before, a file or nothing,
    the bytes of the container's binary are there at the end. *)
Theorem container_installs_built_binary v zv nc w w' content :
  build_ghostty_container env v zv nc w = (Ret tt, w') ->
  container_tree env (container_name env +:+ ":/build/output/bin/ghostty")
    = [([], File content)] ->
  stat (fs w) (ghostty_binary env) ≠ Some Dir ->
  ¬ tmp_dir env `prefix_of` ghostty_binary env ->
  ¬ ghostty_binary env `prefix_of` tmp_dir env ->
  fs w' !! ghostty_binary env = Some (File content).
Proof.
  intros Hrun Htree Hnd Htg Hgt. unfold build_ghostty_container in Hrun.
  assert (∀ p q : path, tmp_dir env `prefix_of` p -> p `prefix_of` q ->
            tmp_dir env `prefix_of` q) as Hup by (intros p q ? ?; by etrans).
  set (own := fun p : path => tmp_dir env `prefix_of` p) in *.
  apply bind_Ret in Hrun as ([] & w0 & H0 & Hrun). cbv zeta in Hrun.
  apply (frame_container_image env own) in H0.
  apply bind_Ret in Hrun as (t & w1 & H1 & Hrun).
  pose proof (mkdtemp_returns _ _ _ _ H1) as ->.
  apply (frame_mkdtemp env own) in H1; [|by unfold own].
  apply bind_Ret in Hrun as ([] & w2 & H2 & Hrun).
  unfold container_extract in H2.
  apply try_finally_run in H2 as (ob & wb & [[]|?|?] & Eb & Ec & Ho);
    try discriminate Ho. subst ob.
  apply (frame_temp_dir_cleanup env own Hup) in Ec; [|by unfold own].
  apply bind_Ret in Eb as ([] & wa & Ea & Eb).
  apply (frame_log_info own) in Ea.
  apply bind_Ret in Eb as (res & wc & Ecr & Eb).
  apply (frame_podman_create env own) in Ecr.
  apply bind_Ret in Eb as ([] & wd & Eif & Eb).
  assert (untouched own wc wd) as Hif.
  { revert Eif.
    match goal with
    | |- ?m wc = _ -> _ => assert (steps (untouched own) m) as Hk
    end.
    { steps_split frame_logs. }
    apply Hk. }
  apply try_finally_run in Eb as (ob & we & [[]|?|?] & Ei & Ecl & Ho);
    try discriminate Ho. subst ob.
  apply (frame_container_cleanup env own) in Ecl.
  assert (untouched own w2 w') as Hend.
  { revert Hrun.
    match goal with
    | |- ?m w2 = _ -> _ => assert (steps (untouched own) m) as Hk
    end.
    { steps_split ltac:(first [frame_logs | apply frame_verify_build]). }
    apply Hk. }
  assert (untouched own w wd) as Hpre
    by (etrans; [exact H0|]; etrans; [exact H1|]; etrans; [exact Ea|];
        etrans; [exact Ecr|exact Hif]).
  assert (untouched own we w') as [_ Hpost]
    by (etrans; [exact Ecl|]; etrans; [exact Ec|exact Hend]).
  rewrite Hpost by exact Htg.
  apply (container_install_binary _ _ _ _ _ Ei Htree); [|done..].
  rewrite (untouched_stat own w wd); [done|exact Hpre|].
  intros q. by apply apart_below.
Qed.

End Installed.

(** ** Where the installation reports come from *)

Ltac no_report_event :=
  unfold no_report, app_installed, dolphin_installed;
  split; intros Hreport; cbn in Hreport; discriminate Hreport.

Ltac silent_leaf :=
  first
    [ apply emits_emit; no_report_event
    | apply emits_attempt; no_report_event
    | apply emits_set_fs | apply emits_set_cwd | apply emits_set_containers
    | apply emits_get_fs | apply emits_getcwd | apply emits_exists ].

Ltac silent_logs :=
  unfold log_info, log_success, log_warning, log_error, print.

Ltac silent_split := silent_logs; steps_split silent_leaf.

Section Reports.
Context (env : Env).

Lemma silent_log_info message :
  steps (emitting (no_report env)) (log_info message).
Proof. silent_logs. silent_leaf. Qed.
Lemma silent_log_warning message :
  steps (emitting (no_report env)) (log_warning message).
Proof. silent_logs. silent_leaf. Qed.
Lemma silent_log_error message :
  steps (emitting (no_report env)) (log_error message).
Proof. silent_logs. silent_leaf. Qed.
Lemma silent_print text :
  steps (emitting (no_report env)) (print text).
Proof. silent_logs. silent_leaf. Qed.
Hint Resolve silent_log_info silent_log_warning silent_log_error silent_print
  : steps.

Lemma silent_subprocess_run cmd front :
  steps (emitting (no_report env)) (subprocess_run env cmd front).
Proof. unfold subprocess_run. silent_split. Qed.
Hint Resolve silent_subprocess_run : steps.

Lemma silent_urlretrieve url d :
  steps (emitting (no_report env)) (urlretrieve env url d).
Proof. unfold urlretrieve. silent_split. Qed.
Lemma silent_tar_extractall mode a d :
  steps (emitting (no_report env)) (tar_extractall env mode a d).
Proof. unfold tar_extractall. silent_split. Qed.
Lemma silent_unlink p :
  steps (emitting (no_report env)) (unlink env p).
Proof. unfold unlink. silent_split. Qed.
Lemma silent_rmtree p :
  steps (emitting (no_report env)) (rmtree env p).
Proof. unfold rmtree. silent_split. Qed.
Lemma silent_mkdir p :
  steps (emitting (no_report env)) (mkdir env p).
Proof. unfold mkdir. silent_split. Qed.
Lemma silent_rename a b :
  steps (emitting (no_report env)) (rename env a b).
Proof. unfold rename. silent_split. Qed.
Lemma silent_move a b :
  steps (emitting (no_report env)) (move env a b).
Proof. unfold move. silent_split. Qed.
Lemma silent_copy2 a b :
  steps (emitting (no_report env)) (copy2 env a b).
Proof. unfold copy2. silent_split. Qed.
Lemma silent_chmod p :
  steps (emitting (no_report env)) (chmod env p).
Proof. unfold chmod. silent_split. Qed.
Lemma silent_chdir p :
  steps (emitting (no_report env)) (chdir env p).
Proof. unfold chdir. silent_split. Qed.
Lemma silent_write_text p c :
  steps (emitting (no_report env)) (write_text env p c).
Proof. unfold write_text. silent_split. Qed.
Lemma silent_mkdtemp  :
  steps (emitting (no_report env)) (mkdtemp env).
Proof. unfold mkdtemp. silent_split. Qed.
Hint Resolve silent_urlretrieve silent_tar_extractall silent_unlink silent_rmtree silent_mkdir silent_rename
  silent_move silent_copy2 silent_chmod silent_chdir silent_write_text silent_mkdtemp : steps.

Lemma silent_download_file url d pa :
  steps (emitting (no_report env)) (download_file env url d pa).
Proof. unfold download_file. silent_split. Qed.
Hint Resolve silent_download_file : steps.

Lemma silent_extract_tar_gz a d :
  steps (emitting (no_report env)) (extract_tar_gz env a d).
Proof. unfold extract_tar_gz. silent_split. Qed.
Hint Resolve silent_extract_tar_gz : steps.

Lemma silent_extract_tar_xz a d :
  steps (emitting (no_report env)) (extract_tar_xz env a d).
Proof. unfold extract_tar_xz. silent_split. Qed.
Hint Resolve silent_extract_tar_xz : steps.

Lemma silent_validate_signature a sg key :
  steps (emitting (no_report env)) (validate_signature env a sg key).
Proof. unfold validate_signature, validate_signature_body, subprocess_run_check. silent_split. Qed.
Hint Resolve silent_validate_signature : steps.

Lemma silent_setup_zig cd zv pa :
  steps (emitting (no_report env)) (setup_zig env cd zv pa).
Proof. unfold setup_zig. silent_split. Qed.
Hint Resolve silent_setup_zig : steps.

Lemma silent_build_ghostty gd cd :
  steps (emitting (no_report env)) (build_ghostty env gd cd).
Proof. unfold build_ghostty, build_ghostty_body. silent_split. Qed.
Hint Resolve silent_build_ghostty : steps.

Lemma silent_verify_build  :
  steps (emitting (no_report env)) (verify_build env).
Proof. unfold verify_build. silent_split. Qed.
Hint Resolve silent_verify_build : steps.

Lemma silent_main_fetch args :
  steps (emitting (no_report env)) (main_fetch env args).
Proof. unfold main_fetch. silent_split. Qed.
Hint Resolve silent_main_fetch : steps.

Lemma silent_main_verify args a sg :
  steps (emitting (no_report env)) (main_verify env args a sg).
Proof. unfold main_verify. silent_split. Qed.
Hint Resolve silent_main_verify : steps.

Lemma silent_main_extract args a :
  steps (emitting (no_report env)) (main_extract env args a).
Proof. unfold main_extract. silent_split. Qed.
Hint Resolve silent_main_extract : steps.

Lemma silent_check_podman  :
  steps (emitting (no_report env)) (check_podman env).
Proof. unfold check_podman, subprocess_run_check. silent_split. Qed.
Hint Resolve silent_check_podman : steps.

Lemma silent_container_image v zv nc :
  steps (emitting (no_report env)) (container_image env v zv nc).
Proof. unfold container_image. silent_split. Qed.
Hint Resolve silent_container_image : steps.

Lemma silent_podman_create c image :
  steps (emitting (no_report env)) (podman_create env c image).
Proof. unfold podman_create. silent_split. Qed.
Hint Resolve silent_podman_create : steps.

Lemma silent_podman_rm c :
  steps (emitting (no_report env)) (podman_rm env c).
Proof. unfold podman_rm. silent_split. Qed.
Hint Resolve silent_podman_rm : steps.

Lemma silent_podman_cp src target :
  steps (emitting (no_report env)) (podman_cp env src target).
Proof. unfold podman_cp. silent_split. Qed.
Hint Resolve silent_podman_cp : steps.

Lemma silent_extract_artifacts c v t :
  steps (emitting (no_report env)) (extract_artifacts_from_container env c v t).
Proof. unfold extract_artifacts_from_container. silent_split. Qed.
Hint Resolve silent_extract_artifacts : steps.

Lemma silent_container_cleanup c :
  steps (emitting (no_report env)) (container_cleanup env c).
Proof. unfold container_cleanup. silent_split. Qed.
Hint Resolve silent_container_cleanup : steps.

Lemma silent_temp_dir_cleanup t :
  steps (emitting (no_report env)) (temp_dir_cleanup env t).
Proof. unfold temp_dir_cleanup. silent_split. Qed.
Hint Resolve silent_temp_dir_cleanup : steps.

End Reports.

(** ** Where a tree ends up *)

(** unpacking does not depend on where it is done *)
Lemma write_tree_shift target entries rel :
  write_tree target entries ∅ !! (target ++ rel)
  = write_tree [] entries ∅ !! rel.
Proof.
  unfold write_tree.
  assert (∀ m m0 : gmap path node,
            m !! (target ++ rel) = m0 !! rel ->
            foldl (fun acc kv => <[target ++ kv.1:=kv.2]> acc) m entries
              !! (target ++ rel)
            = foldl (fun acc kv => <[[] ++ kv.1:=kv.2]> acc) m0 entries !! rel)
    as Hgen.
  { induction entries as [|[k v] entries IH]; intros m m0 Hm; cbn; [done|].
    apply IH. destruct (decide (k = rel)) as [->|Hne].
    - by rewrite !lookup_insert_eq.
    - rewrite !lookup_insert_ne; [done|done|].
      intros Heq. by apply app_inv_head in Heq. }
  apply Hgen. by rewrite !lookup_empty.
Qed.

Lemma stat_nothing (m : gmap path node) d :
  (∀ p, d `prefix_of` p -> m !! p = None) -> stat m d = None.
Proof.
  intros Hn. unfold stat. rewrite Hn by done.
  rewrite decide_True; [done|]. apply map_empty. intros p. unfold beneath.
  apply map_lookup_filter_None.
  destruct (decide (d `prefix_of` p)) as [Hp|Hp]; [left; by apply Hn|].
  right. by intros n _ Hq.
Qed.

Lemma NoDup_List_filter {A} (f : A -> bool) (l : list A) :
  NoDup l -> NoDup (List.filter f l).
Proof.
  induction l as [|x l IH]; cbn; [done|].
  intros [Hx Hl]%NoDup_cons. destruct (f x); [|by apply IH].
  apply NoDup_cons. split; [|by apply IH].
  intros Hin%list_elem_of_In%filter_In. apply Hx, list_elem_of_In, Hin.
Qed.

(** a moved tree has below its new place what it had below its old one *)
Lemma move_tree_below (src dst : path) (m : gmap path node) (rel : path) n :
  m !! (src ++ rel) = Some n -> move_tree src dst m !! (dst ++ rel) = Some n.
Proof.
  intros Hs. unfold move_tree. apply write_tree_unique.
  - rewrite <- list_fmap_compose.
    apply NoDup_fmap_2_strong.
    + intros [k1 v1] [k2 v2] H1%list_elem_of_In%filter_In
        H2%list_elem_of_In%filter_In Heq.
      destruct H1 as [H1 [r1 E1]%bool_decide_eq_true].
      destruct H2 as [H2 [r2 E2]%bool_decide_eq_true].
      cbn in *. subst k1 k2. rewrite !drop_app_length in Heq. subst r2.
      apply list_elem_of_In, elem_of_map_to_list in H1, H2. congruence.
    + apply NoDup_List_filter, NoDup_map_to_list.
  - apply list_elem_of_In, in_map_iff. exists (src ++ rel, n). cbn.
    rewrite drop_app_length. split; [done|]. apply filter_In. split.
    + by apply list_elem_of_In, elem_of_map_to_list.
    + apply bool_decide_eq_true. by apply prefix_app_r.
Qed.

(** a directory stays one when an entry is put elsewhere *)
Lemma stat_Dir_insert (m : gmap path node) d k v :
  stat m d = Some Dir -> k ≠ d -> stat (<[k:=v]> m) d = Some Dir.
Proof.
  intros Hd Hk. unfold stat in *. rewrite lookup_insert_ne by done.
  destruct (m !! d) as [n|] eqn:E; [done|].
  case_decide as Hb; [done|]. rewrite decide_False; [done|].
  intros He. apply Hb. apply map_empty. intros p.
  destruct (beneath d m !! p) as [n|] eqn:Hp; [|done]. exfalso.
  unfold beneath in Hp. apply map_lookup_filter_Some in Hp as [Hp Hpre].
  cbn in Hpre.
  assert (beneath d (<[k:=v]> m) !! p = None) as Hnone
    by (by rewrite He, lookup_empty).
  unfold beneath in Hnone. apply map_lookup_filter_None in Hnone as [Hnone|Hnone].
  - destruct (decide (k = p)) as [->|Hne].
    + by rewrite lookup_insert_eq in Hnone.
    + rewrite lookup_insert_ne in Hnone by done. congruence.
  - destruct (decide (k = p)) as [->|Hne].
    + by apply (Hnone v); [apply lookup_insert_eq|].
    + apply (Hnone n); [by rewrite lookup_insert_ne|done].
Qed.

(** ** The source tree of the local path *)

Lemma emitting_weaken P w w' : emitting P w w' -> emitting (fun _ => True) w w'.
Proof. intros (l & E & _). by eapply emitting_any. Qed.

Lemma append_injective (s x y : string) : s +:+ x = s +:+ y -> x = y.
Proof. induction s as [|a s IH]; cbn; [done|]. intros [= H]. by apply IH. Qed.

Lemma archive_not_signature c v : release_archive c v ≠ signature_file c v.
Proof.
  unfold release_archive, signature_file. apply join_ne.
  intros H%append_injective%append_injective. discriminate H.
Qed.

Section LocalSources.
Context (env : Env).

(** lines 728-735: what is below the source directory afterwards is the
    archive, unpacked *)
Lemma main_extract_unpacks args archive w gd w' :
  main_extract env args archive w = (Ret gd, w') ->
  gd = source_dir args w ∧ cwd w' = cwd w
  ∧ ∃ bytes, fs w !! archive = Some (File bytes)
    ∧ ∀ p, gd `prefix_of` p ->
        fs w' !! p = write_tree (cwd w) (members env "r:gz" bytes) ∅ !! p.
Proof.
  unfold main_extract, extract_tar_gz, tar_extractall, rmtree, source_dir.
  unfold_monad. cbn.
  destruct (stat (fs w) (cwd w // ("ghostty-" +:+ version args)))
    as [[stale|]|] eqn:Hst; cbn.
  - destruct (fault env (Rmtree _)); cbn; rewrite ?Hst; cbn;
      intros; simplify_eq.
  - destruct (fault env (Rmtree _)); cbn; rewrite ?Hst; cbn;
      [intros; simplify_eq|].
    destruct (stat (outside _ (fs w)) archive) as [[bytes|]|] eqn:Ha; cbn;
      [|intros; simplify_eq..].
    destruct (fault env (TarExtract _ _ _)); cbn; intros; simplify_eq.
    split; [done|]. split; [done|]. exists bytes.
    apply stat_File in Ha.
    assert (fs w !! archive = Some (File bytes)) as Hb.
    { unfold outside in Ha. by apply map_lookup_filter_Some in Ha as [? _]. }
    split; [done|]. cbn. intros p Hp.
    rewrite write_tree_lookup. rewrite (outside_below _ _ _ Hp).
    by destruct (_ !! p).
  - destruct (stat (fs w) archive) as [[bytes|]|] eqn:Ha; cbn;
      [|intros; simplify_eq..].
    destruct (fault env (TarExtract _ _ _)); cbn; intros; simplify_eq.
    split; [done|]. split; [done|]. exists bytes.
    apply stat_File in Ha. split; [done|]. cbn. intros p Hp.
    rewrite write_tree_lookup, (stat_None_below _ _ _ Hst Hp).
    by destruct (_ !! p).
Qed.

(** lines 205-240: a build that returns has done on the disk what the
    toolchain does *)
Lemma build_ghostty_returns gd cd w w' :
  build_ghostty env gd cd w = (Ret tt, w') ->
  fs w' = zig_build_effect env (fs w).
Proof.
  unfold build_ghostty, build_ghostty_body, chdir, subprocess_run.
  unfold_monad. cbn.
  destruct (fault env (Chdir gd)); cbn; [done|].
  destruct (fault env (Run _ _ _)); cbn.
  { destruct (fault env (Chdir (cwd w))); cbn; done. }
  destruct (decide _); cbn;
    destruct (fault env (Chdir (cwd w))); cbn; try done.
  by intros [= <-].
Qed.

(** lines 700-718: the archive is what was there or what was fetched *)
Lemma main_fetch_archive args w r w' :
  main_fetch env args w = (Ret r, w') ->
  r = (release_archive (cwd w) (version args),
       signature_file (cwd w) (version args))
  ∧ cwd w' = cwd w
  ∧ fs w' !! release_archive (cwd w) (version args)
    = fetched env (release_url (version args))
        (release_archive (cwd w) (version args)) (pull_always args) (fs w).
Proof.
  intros Hrun.
  pose proof (main_fetch_returns env (cwd w) args w r w' eq_refl Hrun) as ->.
  split; [done|]. unfold main_fetch in Hrun.
  apply bind_Ret in Hrun as ([] & w1 & E1 & Hrun). cbv zeta in Hrun.
  apply bind_Ret in Hrun as (here & w2 & Hh & Hrun).
  injection Hh as <- <-.
  apply bind_Ret in Hrun as ([] & w3 & E3 & Hrun).
  apply bind_Ret in Hrun as (here & w4 & Hh & Hrun).
  injection Hh as <- <-.
  apply bind_Ret in Hrun as ([] & w5 & E5 & Hrun).
  injection Hrun as Hw. subst w'.
  injection E1 as <-. cbn in *.
  pose proof (frame_download_file env (fun _ => True) _ _ _ I _ _ _ E3)
    as [C3 _]. cbn in C3.
  rewrite C3 in E5.
  pose proof (frame_download_file env
                (fun p => p = signature_file (cwd w) (version args))
                _ _ _ eq_refl _ _ _ E5) as [C5 F5].
  split; [congruence|].
  rewrite F5 by apply archive_not_signature.
  apply download_file_returns in E3. exact E3.
Qed.

Ltac frame_log :=
  first [ apply frame_log_info | apply frame_log_success
        | apply frame_log_error | apply frame_log_warning
        | apply frame_print ].

Lemma frame_main_verify args a sg :
  steps (untouched (fun p => p = tmp_key_file env)) (main_verify env args a sg).
Proof.
  unfold main_verify.
  steps_split ltac:(first [frame_log | by apply frame_validate_signature]).
Qed.

(** lines 105-152: a positive verdict comes after the key file has been
    unlinked *)
Lemma validate_signature_unlinks a sg key w w' :
  validate_signature env a sg key w = (Ret true, w') ->
  fs w' !! tmp_key_file env = None.
Proof.
  unfold validate_signature. intros ([] & w0 & _ & Hrun)%bind_Ret.
  apply bind_Ret in Hrun as ([] & w1 & _ & Hrun).
  unfold try_except, try_except_if in Hrun.
  destruct (validate_signature_body env a key w1) as [[b|e|code] w2] eqn:Eb;
    cbn in Hrun; [|by apply bind_Ret in Hrun as (? & ? & _ & [=])|done].
  injection Hrun as -> ->. unfold validate_signature_body in Eb.
  do 4 (apply bind_Ret in Eb as ([] & ? & _ & Eb)). cbv zeta in Eb.
  apply bind_Ret in Eb as (res & w7 & _ & Eb).
  apply bind_Ret in Eb as ([] & w8 & Eu & Eb).
  assert (fs w8 !! tmp_key_file env = None) as Hgone.
  { revert Eu. unfold unlink. unfold_monad. cbn.
    destruct (fault env (Unlink _)); cbn; [done|].
    destruct (stat (fs w7) (tmp_key_file env)) as [[|]|]; cbn; [|done..].
    intros [= <-]. cbn. apply lookup_delete_eq. }
  destruct (decide _); [|by apply bind_Ret in Eb as (? & ? & _ & [= ?])].
  apply bind_Ret in Eb as ([] & ? & [= <-] & [= <-]). done.
Qed.

(** lines 720-726: a run that goes on has left the archive as it was,
    if it has left it at all *)
Lemma main_verify_archive args a sg w w' :
  main_verify env args a sg w = (Ret tt, w') ->
  cwd w' = cwd w ∧ (is_Some (fs w' !! a) -> fs w' !! a = fs w !! a).
Proof.
  intros Hrun. pose proof (frame_main_verify _ _ _ _ _ _ Hrun) as [C F].
  split; [done|]. intros Hsome. unfold main_verify in Hrun.
  destruct (skip_signature args); [by injection Hrun as <-|].
  destruct (decide (a = tmp_key_file env)) as [->|Hne]; [|by apply F].
  apply bind_Ret in Hrun as (valid & w1 & Ev & Hrun).
  destruct valid; [|by apply bind_Ret in Hrun as (? & ? & _ & [=])].
  injection Hrun as <-. apply validate_signature_unlinks in Ev.
  rewrite Ev in Hsome. by destruct Hsome.
Qed.

(** an event of a run in three parts is one of the middle part, or one
    of the others *)
Lemma since_middle P w u u' w' e :
  emitting P w u -> emitting (fun _ => True) u u' -> emitting P u' w' ->
  e ∈ since w w' -> e ∈ since u u' ∨ P e.
Proof.
  intros G1 G2 G3.
  rewrite (since_trans (fun _ => True) w u w');
    [|by eapply emitting_weaken
     |etrans; [exact G2|by eapply emitting_weaken]].
  rewrite (since_trans (fun _ => True) u u' w');
    [|done|by eapply emitting_weaken].
  apply emitting_since in G1, G3.
  rewrite !elem_of_app. intros [Hin|[Hin|Hin]]; [right|by left|right].
  - by apply (proj1 (Forall_forall _ _) G1).
  - by apply (proj1 (Forall_forall _ _) G3).
Qed.

(** lines 700-760 without [--skip-build]: the run comes to the
    descriptor installation with the tree of the release archive at the
    source directory, as far as the toolchain has left it alone, and
    after the installation only looks for the binary *)
Lemma main_local_sources args w w' bytes :
  skip_build args = false ->
  main_local env args w = (Ret tt, w') ->
  fetched env (release_url (version args))
    (release_archive (cwd w) (version args)) (pull_always args) (fs w)
    = Some (File bytes) ->
  is_Some (stat (fs w') (ghostty_binary env))
  ∧ ∃ u u',
    install_desktop_file env (source_dir args w) u = (Ret tt, u')
    ∧ fs w' = fs u'
    ∧ (∀ e, e ∈ since w w' -> e ∈ since u u' ∨ no_report env e)
    ∧ ∀ p, source_dir args w `prefix_of` p ->
        (∀ m, zig_build_effect env m !! p = m !! p) ->
        fs u !! p = write_tree (cwd w) (members env "r:gz" bytes) ∅ !! p.
Proof.
  intros Hs Hrun Hf. unfold main_local in Hrun.
  apply bind_Ret in Hrun as ([a sg] & w1 & E1 & Hrun).
  pose proof (silent_main_fetch env _ _ _ _ E1) as G1.
  apply main_fetch_archive in E1 as ([= -> ->] & C1 & A1).
  cbv beta iota zeta in Hrun.
  apply bind_Ret in Hrun as ([] & w2 & E2 & Hrun).
  pose proof (silent_main_verify env _ _ _ _ _ _ E2) as G2.
  apply main_verify_archive in E2 as [C2 F2].
  apply bind_Ret in Hrun as (gd & w3 & E3 & Hrun).
  pose proof (silent_main_extract env _ _ _ _ _ E3) as G3.
  apply main_extract_unpacks in E3 as (-> & C3 & bytes' & A3 & T3).
  rewrite F2, A1, Hf in A3 by (by rewrite A3).
  injection A3 as <-.
  unfold source_dir in *. rewrite C2, C1 in *.
  unfold main_build in Hrun. rewrite Hs in Hrun.
  apply bind_Ret in Hrun as (here & w4 & E4 & Hrun).
  injection E4 as <- <-. cbv zeta in Hrun. rewrite ?C3, ?C2, ?C1 in Hrun.
  apply bind_Ret in Hrun as ([] & w5 & E5 & Hrun).
  pose proof (silent_setup_zig env _ _ _ _ _ _ E5) as G5.
  apply (frame_setup_zig env (fun p => (cwd w // "compiler") `prefix_of` p))
    in E5 as [_ F5]; [|intros p q ? ?; by etrans|done].
  apply bind_Ret in Hrun as ([] & u & E6 & Hrun).
  pose proof (silent_build_ghostty env _ _ _ _ _ E6) as G6.
  apply build_ghostty_returns in E6.
  apply bind_Ret in Hrun as ([] & u' & E7 & Hrun).
  apply bind_Ret in Hrun as (ok & w8 & E8 & Hrun).
  pose proof (silent_verify_build env _ _ _ E8) as G8.
  apply verify_build_run in E8 as (-> & F8 & _).
  assert (emitting (no_report env) w8 w' ∧ fs w' = fs w8
          ∧ is_Some (stat (fs w8) (ghostty_binary env))) as (G9 & F9 & Hb).
  { case_bool_decide as Hb; [|by apply bind_Ret in Hrun as (? & ? & _ & [=])].
    rewrite F8. split; [|split; [|done]].
    - revert Hrun.
      match goal with
      | |- ?m w8 = _ -> _ =>
          assert (steps (emitting (no_report env)) m) as Hk by silent_split
      end.
      apply Hk.
    - apply bind_Ret in Hrun as ([] & ? & [= <-] & [= <-]). done. }
  split; [by rewrite F9|].
  exists u, u'. split; [done|]. split; [by rewrite F9, F8|]. split.
  - intros e. apply since_middle.
    + etrans; [exact G1|]. etrans; [exact G2|]. etrans; [exact G3|].
      etrans; [exact G5|exact G6].
    + eapply (emits_install_desktop_file env); [done| |exact E7]; done.
    + etrans; [exact G8|exact G9].
  - intros p Hp Hzig. rewrite E6, Hzig, F5, T3; [done|done|].
    apply (apart_below _ (cwd w // ("ghostty-" +:+ version args))); [| |done].
    + intros H%join_prefix. discriminate H.
    + intros H%join_prefix. discriminate H.
Qed.

End LocalSources.

(** ** The source tree of the container path *)

Lemma outside_nothing (m : gmap path node) d : stat m d = None -> outside d m = m.
Proof.
  intros Hn. apply map_eq. intros p.
  destruct (decide (d `prefix_of` p)) as [Hp|Hp].
  - by rewrite outside_below, (stat_None_below _ _ _ Hn Hp).
  - by apply outside_other.
Qed.

Lemma join_below (p : path) x : p `prefix_of` (p // x).
Proof. by apply prefix_app_r. Qed.

Section ContainerSources.
Context (env : Env).

Hint Resolve silent_log_info silent_log_warning silent_log_error silent_print
  silent_subprocess_run silent_mkdir silent_copy2 silent_chmod silent_move
  silent_mkdtemp silent_verify_build silent_container_image
  silent_podman_create silent_extract_artifacts silent_container_cleanup
  silent_temp_dir_cleanup : steps.

Ltac silent_run E G :=
  match type of E with
  | ?m ?w = (_, ?w') =>
      assert (emitting (no_report env) w w') as G
        by (assert (steps (emitting (no_report env)) m) as Hk by silent_split;
            exact (Hk _ _ _ E))
  end.

Lemma temp_dir_cleanup_returns w w' :
  temp_dir_cleanup env (tmp_dir env) w = (Ret tt, w') ->
  fs w' = outside (tmp_dir env) (fs w).
Proof.
  unfold temp_dir_cleanup. intros (present & w1 & E1 & Hrun)%bind_Ret.
  injection E1 as <- <-. case_bool_decide as Hp.
  - by apply (rmtree_returns env) in Hrun.
  - injection Hrun as <-. symmetry. apply outside_nothing.
    destruct (stat (fs w) (tmp_dir env)) eqn:E; [|done]. destruct Hp. eauto.
Qed.

(** lines 422-470: both trees have been copied below the temporary
    directory *)
Lemma extract_artifacts_fs c v t w r w' :
  extract_artifacts_from_container env c v t w = (Ret r, w') ->
  fs w' = write_tree (t // "dist")
            (container_tree env (c +:+ ":/build/ghostty-" +:+ v +:+ "/dist"))
            (write_tree (t // "ghostty")
               (container_tree env (c +:+ ":/build/output/bin/ghostty"))
               (fs w)).
Proof.
  intros Hrun. unfold extract_artifacts_from_container in Hrun.
  apply bind_Ret in Hrun as ([] & w1 & H1 & Hrun). cbv zeta in Hrun.
  injection H1 as <-.
  apply bind_Ret in Hrun as (res & w2 & H2 & Hrun).
  apply bind_Ret in Hrun as ([] & w3 & H3 & Hrun).
  destruct (decide (res.1.1 ≠ 0)) as [Hrc|Hrc].
  { apply bind_Ret in H3 as ([] & ? & _ & H3). discriminate H3. }
  apply dec_stable in Hrc.
  apply (podman_cp_returns _ _ _ _ _ _ H2) in Hrc. cbn in Hrc.
  injection H3 as <-.
  apply bind_Ret in Hrun as ([] & w4 & H4 & Hrun). injection H4 as <-.
  apply bind_Ret in Hrun as ([] & w5 & H5 & Hrun). injection H5 as <-.
  apply bind_Ret in Hrun as (res2 & w6 & H6 & Hrun).
  apply bind_Ret in Hrun as ([] & w7 & H7 & Hrun).
  destruct (decide (res2.1.1 ≠ 0)) as [Hrc2|Hrc2].
  { apply bind_Ret in H7 as ([] & ? & _ & H7). discriminate H7. }
  apply dec_stable in Hrc2.
  apply (podman_cp_returns _ _ _ _ _ _ H6) in Hrc2. cbn in Hrc2.
  injection H7 as <-.
  apply bind_Ret in Hrun as ([] & w8 & H8 & Hrun). injection H8 as <-.
  injection Hrun as _ <-. cbn. by rewrite Hrc2, Hrc.
Qed.

(** [shutil.copy2] that returns has written one file, at the
    destination or inside it *)
Lemma copy2_writes a b w w' :
  copy2 env a b w = (Ret tt, w') ->
  ∃ bytes target, (target = b ∨ target = b // name a)
    ∧ fs w' = <[target := File bytes]> (fs w).
Proof.
  unfold copy2. unfold_monad. cbn.
  destruct (fault env (Copy2 a b)); cbn; [done|].
  destruct (stat (fs w) a) as [[bytes|]|]; cbn; [|done..].
  destruct (stat (fs w) b) as [[|]|] eqn:Eb; cbv zeta; rewrite ?Eb; cbn.
  - intros [= <-]. eauto.
  - destruct (stat (fs w) (b // name a)) as [[|]|]; cbn; try done;
      intros [= <-]; eauto.
  - intros [= <-]. eauto.
Qed.

(** [shutil.move] to a place where nothing is *)
Lemma move_returns a b w w' :
  move env a b w = (Ret tt, w') -> stat (fs w) b = None ->
  fs w' = move_tree a b (fs w).
Proof.
  unfold move. unfold_monad. cbn. intros Hrun Hb. revert Hrun.
  destruct (fault env (Move a b)); cbn; [done|].
  destruct (stat (fs w) a); cbn; [|done]. rewrite Hb. by intros [= <-].
Qed.

Section Apart.
Hypothesis Htl : ¬ tmp_dir env `prefix_of` (home env // ".local").
Hypothesis Hlt : ¬ (home env // ".local") `prefix_of` tmp_dir env.

Lemma local_not_temp p :
  (home env // ".local") `prefix_of` p -> ¬ tmp_dir env `prefix_of` p.
Proof. by apply apart_below. Qed.

Lemma binary_not_temp :
  ¬ tmp_dir env `prefix_of` (home env // ".local" // "bin")
  ∧ ¬ tmp_dir env `prefix_of` ghostty_binary env
  ∧ ∀ x, ¬ tmp_dir env `prefix_of` (ghostty_binary env // x).
Proof.
  unfold ghostty_binary.
  repeat split; intros; apply local_not_temp; unfold join;
    solve [repeat first [reflexivity | apply prefix_app_r]].
Qed.

Lemma dist_copied_insert c v m k x :
  ¬ tmp_dir env `prefix_of` k -> dist_copied env c v m ->
  dist_copied env c v (<[k:=x]> m).
Proof.
  intros Hk [HA HB]. split.
  - intros rel n Hn. rewrite lookup_insert_ne; [by apply HA|].
    intros ->. apply Hk. unfold join. rewrite <- (assoc_L (++)).
    by apply prefix_app_r.
  - rewrite stat_insert_other; [done|]. intros Hp. apply Hk.
    etrans; [|exact Hp]. apply join_below.
Qed.

(** lines 552-571: the installation of the binary leaves the copy of
    the descriptor tree alone, and the tree is moved to where
    [install_desktop_file] looks for it *)
Lemma container_install_sources c v w w' :
  container_install env c v (tmp_dir env) w = (Ret tt, w') ->
  stat (fs w) (tmp_dir env // "ghostty-source") = None ->
  ∃ u, install_desktop_file env (tmp_dir env // "ghostty-source") u
       = (Ret tt, w')
    ∧ emitting (no_report env) w u
    ∧ ∀ rel n,
        write_tree []
          (container_tree env (c +:+ ":/build/ghostty-" +:+ v +:+ "/dist"))
          ∅ !! rel = Some n ->
        fs u !! ((tmp_dir env // "ghostty-source" // "dist") ++ rel) = Some n.
Proof.
  intros Hrun Hfresh. unfold container_install in Hrun.
  destruct binary_not_temp as (Hbin & Hgb & Hin).
  apply bind_Ret in Hrun as ([bp dd] & w1 & E1 & Hrun).
  silent_run E1 G1.
  pose proof (extract_artifacts_returns _ _ _ _ _ _ _ E1) as [= -> ->].
  apply extract_artifacts_fs in E1.
  assert (dist_copied env c v (fs w1)) as J1.
  { rewrite E1. split.
    - intros rel n Hn. by rewrite write_tree_lookup, write_tree_shift, Hn.
    - rewrite <- Hfresh. apply stat_agree. intros q Hq.
      rewrite !write_tree_other; [done|..];
        intros Hp; destruct (prefix_weak_total _ _ _ Hp Hq) as [H|H];
        apply join_prefix in H; discriminate H. }
  cbv beta iota zeta in Hrun.
  apply bind_Ret in Hrun as ([] & w2 & E2 & Hrun). silent_run E2 G2.
  injection E2 as <-.
  apply bind_Ret in Hrun as ([] & w3 & E3 & Hrun). silent_run E3 G3.
  apply (mkdir_returns env) in E3. cbn in E3.
  assert (dist_copied env c v (fs w3)) as J3.
  { destruct E3 as [->|[_ ->]]; [done|]. by apply dist_copied_insert. }
  apply bind_Ret in Hrun as ([] & w4 & E4 & Hrun). silent_run E4 G4.
  apply copy2_writes in E4 as (bytes & target & Ht & E4).
  assert (dist_copied env c v (fs w4)) as J4.
  { rewrite E4. apply dist_copied_insert; [|done].
    destruct Ht as [->| ->]; [done|apply Hin]. }
  apply bind_Ret in Hrun as ([] & w5 & E5 & Hrun). silent_run E5 G5.
  apply (frame_chmod env (fun _ => False)), untouched_nothing in E5.
  apply bind_Ret in Hrun as ([] & w6 & E6 & Hrun). silent_run E6 G6.
  injection E6 as <-.
  apply bind_Ret in Hrun as ([] & w7 & E7 & Hrun). silent_run E7 G7.
  injection E7 as <-. cbn in *.
  apply bind_Ret in Hrun as ([] & w8 & E8 & Hrun). silent_run E8 G8.
  apply (mkdir_returns env) in E8. cbn in E8. rewrite E5 in E8.
  destruct J4 as [HA HB].
  assert ((∀ rel n,
             write_tree []
               (container_tree env (c +:+ ":/build/ghostty-" +:+ v +:+ "/dist"))
               ∅ !! rel = Some n ->
             fs w8 !! ((tmp_dir env // "dist") ++ rel) = Some n)
          ∧ stat (fs w8) (tmp_dir env // "ghostty-source" // "dist") = None)
    as [HA8 HB8].
  { destruct E8 as [->|[_ ->]].
    - split; [done|]. apply stat_nothing. intros p Hp.
      apply (stat_None_below _ _ _ HB). etrans; [|exact Hp]. apply join_below.
    - split.
      + intros rel n Hn. rewrite lookup_insert_ne; [by apply HA|].
        unfold join. rewrite <- (assoc_L (++)).
        intros Heq%app_inv_head. discriminate Heq.
      + apply stat_nothing. intros p Hp.
        rewrite lookup_insert_ne.
        * apply (stat_None_below _ _ _ HB). etrans; [|exact Hp].
          apply join_below.
        * intros <-. revert Hp. by apply longer_not_prefix. }
  apply bind_Ret in Hrun as ([] & u & E9 & Hrun). silent_run E9 G9.
  apply move_returns in E9; [|done].
  exists u. split; [done|]. split.
  - etrans; [exact G1|]. etrans; [exact G2|]. etrans; [exact G3|].
    etrans; [exact G4|]. etrans; [exact G5|]. etrans; [exact G6|].
    etrans; [exact G7|]. etrans; [exact G8|exact G9].
  - intros rel n Hn. rewrite E9. apply move_tree_below. by apply HA8.
Qed.

Ltac frame_quiet :=
  first [ apply frame_log_info | apply frame_log_success
        | apply frame_log_error | apply frame_log_warning
        | apply frame_print | apply frame_container_image
        | apply frame_podman_create | apply frame_container_cleanup
        | apply frame_verify_build ].

Ltac same_disk E F :=
  match type of E with
  | ?m ?w = (_, ?w') =>
      assert (fs w' = fs w) as F
        by (assert (steps (untouched (fun _ => False)) m) as Hk
              by steps_split frame_quiet;
            exact (untouched_nothing _ _ (Hk _ _ _ E)))
  end.

(** lines 681-597 with a fresh temporary directory: the run comes to the
    descriptor installation with the container's descriptor tree below
    the source directory in the temporary directory, and after the
    installation only removes that directory and looks for the binary *)
Lemma main_container_sources args w w' :
  main_container env args w = (Ret tt, w') ->
  stat (fs w) (tmp_dir env) = None ->
  is_Some (stat (fs w') (ghostty_binary env))
  ∧ ∃ u u',
    install_desktop_file env (tmp_dir env // "ghostty-source") u = (Ret tt, u')
    ∧ fs w' = outside (tmp_dir env) (fs u')
    ∧ (∀ e, e ∈ since w w' -> e ∈ since u u' ∨ no_report env e)
    ∧ ∀ rel n,
        write_tree []
          (container_tree env
             (container_name env +:+ ":/build/ghostty-" +:+ version args
              +:+ "/dist")) ∅ !! rel = Some n ->
        fs u !! ((tmp_dir env // "ghostty-source" // "dist") ++ rel) = Some n.
Proof.
  intros Hrun Hfresh. unfold main_container in Hrun.
  apply bind_Ret in Hrun as ([] & wa & Ea & Hrun).
  silent_run Ea Ga. same_disk Ea Fa.
  apply bind_Ret in Hrun as ([] & wb & Eb & Hrun).
  silent_run Eb Gb. same_disk Eb Fb.
  apply bind_Ret in Hrun as ([] & wc & Ec & Hrun).
  silent_run Ec Gc. same_disk Ec Fc.
  apply bind_Ret in Hrun as ([] & wd & Ed & Hrun).
  silent_run Ed Gd. same_disk Ed Fd.
  unfold build_ghostty_container in Hrun.
  apply bind_Ret in Hrun as ([] & w0 & E0 & Hrun). cbv zeta in Hrun.
  silent_run E0 G0. same_disk E0 F0.
  apply bind_Ret in Hrun as (t & w1 & E1 & Hrun).
  silent_run E1 G1.
  pose proof (mkdtemp_returns _ _ _ _ E1) as ->.
  assert (fs w1 = <[tmp_dir env := Dir]> (fs w0)) as F1.
  { revert E1. unfold mkdtemp. unfold_monad. cbn.
    destruct (fault env Mkdtemp); cbn; [done|]. by intros [= <-]. }
  apply bind_Ret in Hrun as ([] & w2 & E2 & Hrun).
  unfold container_extract in E2.
  apply try_finally_run in E2 as (ob & w3 & [[]|?|?] & E3 & E4 & Ho);
    try discriminate Ho. subst ob.
  silent_run E4 G4. apply temp_dir_cleanup_returns in E4.
  apply bind_Ret in E3 as ([] & w5 & E5 & E3).
  silent_run E5 G5. same_disk E5 F5.
  apply bind_Ret in E3 as (res & w6 & E6 & E3).
  silent_run E6 G6. same_disk E6 F6.
  apply bind_Ret in E3 as ([] & w7 & E7 & E3).
  silent_run E7 G7. same_disk E7 F7.
  apply try_finally_run in E3 as (ob & u' & [[]|?|?] & E8 & E9 & Ho);
    try discriminate Ho. subst ob.
  silent_run E9 G9. same_disk E9 F9.
  apply container_install_sources in E8 as (u & E8 & G8 & Hsrc).
  2:{ rewrite F7, F6, F5, F1. rewrite stat_insert_other
        by (by apply longer_not_prefix).
      rewrite F0, Fd, Fc, Fb, Fa. apply stat_nothing. intros p Hp.
      apply (stat_None_below _ _ _ Hfresh). etrans; [|exact Hp].
      apply join_below. }
  apply bind_Ret in Hrun as (ok & w10 & E10 & Hrun).
  silent_run E10 G10.
  apply verify_build_run in E10 as (-> & F10 & _).
  assert (emitting (no_report env) w10 w' ∧ fs w' = fs w10
          ∧ is_Some (stat (fs w10) (ghostty_binary env))) as (G11 & F11 & Hb).
  { case_bool_decide as Hb; [|by apply bind_Ret in Hrun as (? & ? & _ & [=])].
    rewrite F10. split; [|split; [|done]].
    - silent_run Hrun G11. exact G11.
    - same_disk Hrun F11. by rewrite F11. }
  split; [by rewrite F11|].
  exists u, u'. split; [done|]. split; [by rewrite F11, F10, E4, F9|].
  split; [|done].
  intros e. apply since_middle.
  - etrans; [exact Ga|]. etrans; [exact Gb|]. etrans; [exact Gc|].
    etrans; [exact Gd|]. etrans; [exact G0|]. etrans; [exact G1|].
    etrans; [exact G5|]. etrans; [exact G6|]. etrans; [exact G7|exact G8].
  - eapply (emits_install_desktop_file env); [done| |exact E8]; done.
  - etrans; [exact G9|]. etrans; [exact G4|]. etrans; [exact G10|exact G11].
Qed.

End Apart.

End ContainerSources.

(** ** The two paths end in the same installed state *)

Section Converge.
Context (env : Env).

(** a directory in the way of a descriptor is still there after the
    installation *)
Lemma install_desktop_file_keeps_directory gd d :
  steps (keeping (fun w => stat (fs w) d = Some Dir))
    (install_desktop_file env gd).
Proof.
  apply keeps_install_desktop_file; unfold steps, keeping.
  - done.
  - intros p w o w'. unfold mkdir. unfold_monad. cbn.
    destruct (fault env (Mkdir p)); cbn; [by intros [= <- <-] ?|].
    destruct (stat (fs w) p) as [[|]|] eqn:Ep; cbn; intros [= <- <-] HI;
      cbn; try done.
    apply stat_Dir_insert; [done|]. intros ->. congruence.
  - intros p c w o w'. unfold write_text. unfold_monad. cbn.
    destruct (fault env (Write p)); cbn; [by intros [= <- <-] ?|].
    destruct (stat (fs w) p) as [[|]|] eqn:Ep; cbn; intros [= <- <-] HI;
      cbn; try done; (apply stat_Dir_insert; [done|]); intros ->; congruence.
  - intros a b w o w'. unfold copy2. unfold_monad. cbn.
    destruct (fault env (Copy2 a b)); cbn; [by intros [= <- <-] ?|].
    destruct (stat (fs w) a) as [[bytes|]|]; cbn; [|by intros [= <- <-] ?..].
    destruct (stat (fs w) b) as [[|]|] eqn:Eb; cbv zeta; rewrite ?Eb; cbn.
    + intros [= <- <-] HI. cbn. apply stat_Dir_insert; [done|].
      intros ->. congruence.
    + destruct (stat (fs w) (b // name a)) as [[|]|] eqn:Et; cbn;
        intros [= <- <-] HI; cbn; try done;
        (apply stat_Dir_insert; [done|]); intros <-; congruence.
    + intros [= <- <-] HI. cbn. apply stat_Dir_insert; [done|].
      intros ->. congruence.
Qed.

Lemma descriptors_below_local :
  (home env // ".local") `prefix_of` app_desktop env
  ∧ (home env // ".local") `prefix_of` dolphin_desktop env.
Proof.
  unfold app_desktop, dolphin_desktop, join.
  split; solve [repeat first [reflexivity | apply prefix_app_r]].
Qed.

(** lines 737-760: a local build that returns has found the binary *)
Lemma main_local_verified args w w' :
  skip_build args = false ->
  main_local env args w = (Ret tt, w') ->
  is_Some (stat (fs w') (ghostty_binary env)).
Proof.
  unfold main_local. intros Hs ([a sg] & w1 & _ & Hrun)%bind_Ret.
  cbv beta iota zeta in Hrun.
  apply bind_Ret in Hrun as ([] & w2 & _ & Hrun).
  apply bind_Ret in Hrun as (gd & w3 & _ & Hrun).
  unfold main_build in Hrun. rewrite Hs in Hrun.
  apply bind_Ret in Hrun as (here & w4 & _ & Hrun). cbv zeta in Hrun.
  do 3 (apply bind_Ret in Hrun as ([] & ? & _ & Hrun)).
  apply bind_Ret in Hrun as (ok & w6 & Hv & Hrun).
  apply verify_build_run in Hv as (-> & Hfs & _).
  case_bool_decide as Hb; [|by simplify_eq].
  revert Hrun. unfold_monad. cbn. intros [= <-]. cbn. by rewrite Hfs.
Qed.

(** lines 591-597: a container build that returns has found the binary *)
Lemma main_container_verified args w w' :
  main_container env args w = (Ret tt, w') ->
  is_Some (stat (fs w') (ghostty_binary env)).
Proof.
  unfold main_container. intros Hrun.
  do 4 (apply bind_Ret in Hrun as ([] & ? & _ & Hrun)).
  unfold build_ghostty_container in Hrun.
  apply bind_Ret in Hrun as ([] & w0 & _ & Hrun). cbv zeta in Hrun.
  apply bind_Ret in Hrun as (t & w1 & _ & Hrun).
  apply bind_Ret in Hrun as ([] & w2 & _ & Hrun).
  apply bind_Ret in Hrun as (ok & w3 & Hv & Hrun).
  apply verify_build_run in Hv as (-> & Hfs & _).
  case_bool_decide as Hb; [|by simplify_eq].
  revert Hrun. unfold_monad. cbn. intros [= <-]. cbn. by rewrite Hfs.
Qed.

(** C9: when both paths succeed they end in the same installed state.
    Each has passed its final gate, so the binary is at its fixed path.
    For the same source tree, that is when the release archive the local
    path unpacks and the [dist] directory copied out of the container
    hold the same template and the same service menu file, the
    descriptors on disk at the end are byte for byte the same on both
    paths: the template with the three fixed substitutions, and the
    service menu file as it is.  This is said of an installation that
    both runs report as done (a failure there is logged and does not
    stop the run), with a toolchain that leaves the two sources of its
    tree alone, and with a fresh temporary directory that does not lie
    inside [~/.local] or around it. *)
Theorem paths_converge local_args container_args wl wl' wc wc' :
  uninstall local_args = false -> container local_args = false ->
  skip_build local_args = false ->
  main env local_args wl = (Ret tt, wl') ->
  uninstall container_args = false -> container container_args = true ->
  main env container_args wc = (Ret tt, wc') ->
  is_Some (stat (fs wl') (ghostty_binary env))
  ∧ is_Some (stat (fs wc') (ghostty_binary env))
  ∧ ∀ bytes template content,
      fetched env (release_url (version local_args))
        (release_archive (cwd wl) (version local_args))
        (pull_always local_args) (fs wl) = Some (File bytes) ->
      release_dist env local_args bytes ["linux"; "app.desktop.in"]
        = Some (File template) ->
      container_dist env container_args ["linux"; "app.desktop.in"]
        = Some (File template) ->
      release_dist env local_args bytes ["linux"; "ghostty_dolphin.desktop"]
        = Some (File content) ->
      container_dist env container_args ["linux"; "ghostty_dolphin.desktop"]
        = Some (File content) ->
      build_keeps env (app_template (source_dir local_args wl)) ->
      build_keeps env (dolphin_source (source_dir local_args wl)) ->
      stat (fs wc) (tmp_dir env) = None ->
      ¬ tmp_dir env `prefix_of` (home env // ".local") ->
      ¬ (home env // ".local") `prefix_of` tmp_dir env ->
      (app_installed env ∈ since wl wl' ->
       app_installed env ∈ since wc wc' ->
         fs wl' !! app_desktop env = Some (File (render env template))
         ∧ fs wc' !! app_desktop env = Some (File (render env template)))
      ∧ (dolphin_installed env ∈ since wl wl' ->
         dolphin_installed env ∈ since wc wc' ->
         stat (fs wl') (dolphin_desktop env) ≠ Some Dir ->
         stat (fs wc') (dolphin_desktop env) ≠ Some Dir ->
           fs wl' !! dolphin_desktop env = Some (File content)
           ∧ fs wc' !! dolphin_desktop env = Some (File content)).
Proof.
  intros Hlu Hlc Hls Hl Hcu Hcc Hc.
  unfold main in Hl, Hc. rewrite Hlu, Hlc in Hl. rewrite Hcu, Hcc in Hc.
  split; [by eapply main_local_verified|].
  split; [by eapply main_container_verified|].
  intros bytes template content Hf Hta Htc Hda Hdc Hka Hkd Hfresh Htl Hlt.
  destruct (main_local_sources env _ _ _ _ Hls Hl Hf)
    as (_ & ul & ul' & Eil & Fl & Sl & Tl).
  destruct (main_container_sources env Htl Hlt _ _ _ Hc Hfresh)
    as (_ & uc & uc' & Eic & Fc & Sc & Tc).
  assert (fs ul !! app_template (source_dir local_args wl)
            = Some (File template)
          ∧ fs ul !! dolphin_source (source_dir local_args wl)
            = Some (File content)) as [Hal Hdl].
  { split; (rewrite Tl; [| |done]).
    - rewrite <- Hta. unfold release_dist, app_template, source_dir, join.
      rewrite <- !(assoc_L (++)). apply write_tree_shift.
    - unfold app_template, join.
      solve [repeat first [reflexivity | apply prefix_app_r]].
    - rewrite <- Hda. unfold release_dist, dolphin_source, source_dir, join.
      rewrite <- !(assoc_L (++)). apply write_tree_shift.
    - unfold dolphin_source, join.
      solve [repeat first [reflexivity | apply prefix_app_r]]. }
  assert (fs uc !! app_template (tmp_dir env // "ghostty-source")
            = Some (File template)
          ∧ fs uc !! dolphin_source (tmp_dir env // "ghostty-source")
            = Some (File content)) as [Hac Hdc'].
  { split.
    - specialize (Tc _ _ Htc). revert Tc. unfold app_template, join.
      by rewrite <- !(assoc_L (++)).
    - specialize (Tc _ _ Hdc). revert Tc. unfold dolphin_source, join.
      by rewrite <- !(assoc_L (++)). }
  destruct (install_desktop_file_outputs env _ _ _ _ _ _ Eil Hal Hdl)
    as [Happ_l Hdol_l].
  destruct (install_desktop_file_outputs env _ _ _ _ _ _ Eic Hac Hdc')
    as [Happ_c Hdol_c].
  destruct descriptors_below_local as [Happ_below Hdol_below].
  assert (∀ e w w' u u',
            (∀ e, e ∈ since w w' -> e ∈ since u u' ∨ no_report env e) ->
            e = app_installed env ∨ e = dolphin_installed env ->
            e ∈ since w w' -> e ∈ since u u') as Hfrom.
  { intros e w w' u u' Hs He [Hin|[Hn1 Hn2]]%Hs; [done|].
    by destruct He. }
  rewrite Fl, Fc. split.
  - intros Hrl Hrc.
    rewrite outside_other by (by apply (local_not_temp env)).
    split.
    + apply Happ_l. eapply Hfrom; [exact Sl|by left|done].
    + apply Happ_c. eapply Hfrom; [exact Sc|by left|done].
  - intros Hrl Hrc Hnl Hnc.
    rewrite outside_other by (by apply (local_not_temp env)).
    split.
    + apply Hdol_l; [eapply Hfrom; [exact Sl|by right|done]|].
      intros Hdir. apply Hnl.
      exact (install_desktop_file_keeps_directory _ _ _ _ _ Eil Hdir).
    + apply Hdol_c; [eapply Hfrom; [exact Sc|by right|done]|].
      intros Hdir. apply Hnc.
      rewrite <- (install_desktop_file_keeps_directory _ _ _ _ _ Eic Hdir).
      apply stat_agree. intros q Hq. apply outside_other.
      apply (local_not_temp env); [done..|]. by etrans.
Qed.

End Converge.

(** ** The theorems at sample runs *)

Lemma run_eq {A} (m : M A) w o : (m w).1 = o -> m w = (o, (m w).2).
Proof. intros <-. apply surjective_pairing. Qed.

(** [signature_gate] at a verifier that rejects the archive: the process
    exits with status 1 and nothing was unpacked. *)
Lemma signature_gate_witness :
  ∃ w3, main rejecting_env sample_args empty_world = (Exit 1, w3)
        ∧ Forall (fun e => is_extraction e = false) (since empty_world w3).
Proof.
  assert ((main_fetch rejecting_env sample_args empty_world).1
          = Ret (["work"; "ghostty-1.2.0.tar.gz"],
                 ["work"; "ghostty-1.2.0.tar.gz.minisig"])) as Hfetch
    by (vm_compute; reflexivity).
  assert ((validate_signature rejecting_env ["work"; "ghostty-1.2.0.tar.gz"]
             ["work"; "ghostty-1.2.0.tar.gz.minisig"] public_key
             (main_fetch rejecting_env sample_args empty_world).2).1
          = Ret false) as Hvalidate
    by (vm_compute; reflexivity).
  exact (proj1 (signature_gate rejecting_env sample_args empty_world _ _ _
                  eq_refl eq_refl (run_eq _ _ _ Hfetch))
           eq_refl _ (run_eq _ _ _ Hvalidate)).
Defined.

(** [uninstall_exit_status] with nothing installed: the warning, and exit
    status 0. *)
Lemma uninstall_exit_status_witness :
  (run_script quiet_env uninstall_args empty_world).1 = 0
  ∧ last (trace (run_script quiet_env uninstall_args empty_world).2)
    = Some (EvLog WARNING "No Ghostty artifacts found to remove").
Proof.
  refine (proj2 (uninstall_exit_status quiet_env uninstall_args empty_world
                   eq_refl) _).
  intros a Ha. unfold artifacts in Ha. set_unfold in Ha.
  destruct Ha as [-> | [-> | [-> | []]]]; vm_compute; reflexivity.
Defined.

(** [container_cleanup_guaranteed] at a container whose files cannot be
    copied out: the container and the temporary directory are removed all
    the same. *)
Lemma container_cleanup_guaranteed_witness :
  EvOp (Rmtree (tmp_dir copy_failing_env))
    ∈ since recipe_world
        (build_ghostty_container copy_failing_env "1.2.0" "0.14.1" false
           recipe_world).2
  ∧ stat (fs (build_ghostty_container copy_failing_env "1.2.0" "0.14.1" false
                recipe_world).2) (tmp_dir copy_failing_env) = None
  ∧ container_name copy_failing_env
      ∉ containers (build_ghostty_container copy_failing_env "1.2.0" "0.14.1"
                      false recipe_world).2.
Proof.
  assert (EvOp Mkdtemp
            ∈ since recipe_world
                (build_ghostty_container copy_failing_env "1.2.0" "0.14.1" false
                   recipe_world).2) as Hmade
    by decide_by_compute.
  destruct (container_cleanup_guaranteed copy_failing_env "1.2.0" "0.14.1" false
              recipe_world _ _ (surjective_pairing _) Hmade eq_refl)
    as (Hrmtree & Hgone & Hcontainer).
  split; [exact Hrmtree|]. split; [exact (Hgone eq_refl)|].
  refine (proj2 (Hcontainer _) _); split; vm_compute; reflexivity.
Defined.

(** [main_extract_clean] at a working directory with a stale tree: the
    stale file is gone, the unpacked one is there. *)
Lemma main_extract_clean_witness :
  fs (main_extract quiet_env sample_args ["work"; "ghostty-1.2.0.tar.gz"]
        stale_world).2 !! ["work"; "ghostty-1.2.0"; "old.zig"] = None
  ∧ fs (main_extract quiet_env sample_args ["work"; "ghostty-1.2.0.tar.gz"]
          stale_world).2 !! ["work"; "ghostty-1.2.0"; "build.zig"]
    = Some (File "build").
Proof.
  assert ((main_extract quiet_env sample_args ["work"; "ghostty-1.2.0.tar.gz"]
             stale_world).1 = Ret ["work"; "ghostty-1.2.0"]) as Hrun
    by (vm_compute; reflexivity).
  destruct (main_extract_clean quiet_env sample_args _ _ _ _ (run_eq _ _ _ Hrun))
    as (_ & bytes & Harchive & _ & Hbelow).
  assert (bytes = "archive") as ->
    by (vm_compute in Harchive; congruence).
  split.
  - destruct (Hbelow ["work"; "ghostty-1.2.0"; "old.zig"]) as [-> _];
      [by exists ["old.zig"]|].
    vm_compute. reflexivity.
  - destruct (Hbelow ["work"; "ghostty-1.2.0"; "build.zig"]) as [-> _];
      [by exists ["build.zig"]|].
    vm_compute. reflexivity.
Defined.

(** [paths_converge] at a local build and a container build of the same
    release, whose archive and whose container hold the same two
    descriptor sources: both end with the binary in place and with the
    same two descriptors. *)
Lemma paths_converge_witness :
  (is_Some (stat (fs (main quiet_env sample_args empty_world).2)
              (ghostty_binary quiet_env))
   ∧ is_Some (stat (fs (main quiet_env container_args recipe_world).2)
                (ghostty_binary quiet_env)))
  ∧ (fs (main quiet_env sample_args empty_world).2 !! app_desktop quiet_env
     = Some (File "Exec=/home/user/.local/bin/ghostty Name=Ghostty Id=com.mitchellh.ghostty")
     ∧ fs (main quiet_env container_args recipe_world).2 !! app_desktop quiet_env
       = Some (File "Exec=/home/user/.local/bin/ghostty Name=Ghostty Id=com.mitchellh.ghostty"))
  ∧ (fs (main quiet_env sample_args empty_world).2 !! dolphin_desktop quiet_env
     = Some (File "dolphin")
     ∧ fs (main quiet_env container_args recipe_world).2
         !! dolphin_desktop quiet_env
       = Some (File "dolphin")).
Proof.
  assert ((main quiet_env sample_args empty_world).1 = Ret tt) as Hlocal
    by (vm_compute; reflexivity).
  assert ((main quiet_env container_args recipe_world).1 = Ret tt) as Hcontainer
    by (vm_compute; reflexivity).
  destruct (paths_converge quiet_env sample_args container_args _ _ _ _
              eq_refl eq_refl eq_refl (run_eq _ _ _ Hlocal)
              eq_refl eq_refl (run_eq _ _ _ Hcontainer))
    as (Hl & Hc & Hsame).
  split; [by split|].
  destruct (Hsame
              "bytes of https://release.files.ghostty.org/1.2.0/ghostty-1.2.0.tar.gz"
              "Exec=@GHOSTTY@ Name=@NAME@ Id=@APPID@" "dolphin")
    as (Happ & Hdol).
  - vm_compute. reflexivity.
  - vm_compute. reflexivity.
  - vm_compute. reflexivity.
  - vm_compute. reflexivity.
  - vm_compute. reflexivity.
  - intros m. apply lookup_insert_ne. discriminate.
  - intros m. apply lookup_insert_ne. discriminate.
  - vm_compute. reflexivity.
  - decide_by_compute.
  - decide_by_compute.
  - split.
    + apply Happ; decide_by_compute.
    + apply Hdol; try decide_by_compute; vm_compute; discriminate.
Defined.

Lemma extractors_exit_on_failure_witness :
  (extract_zip quiet_env ["work"; "ghostty.zip"] ["work"] empty_world).1 = Exit 1
  ∧ fs (extract_zip quiet_env ["work"; "ghostty.zip"] ["work"] empty_world).2
    = fs empty_world.
Proof.
  refine (proj2 (proj2 (proj2 (extractors_exit_on_failure quiet_env
            ["work"; "ghostty.zip"] ["work"] empty_world _ _))) _).
  - do 2 apply list_elem_of_further. apply list_elem_of_here.
  - intros bytes. vm_compute. discriminate.
Defined.

Lemma validate_signature_needs_verifier_witness :
  ∃ w', fs w' = fs empty_world
        ∧ ∀ o, EvOp o ∈ since empty_world w' -> o = Run minisign_probe ["work"] None.
Proof.
  destruct (validate_signature_needs_verifier
              (sample_env verifier_not_installed all_succeed)
              ["work"; "ghostty-1.2.0.tar.gz"]
              ["work"; "ghostty-1.2.0.tar.gz.minisig"] public_key empty_world)
    as (w' & _ & Hfs & Hops).
  - intros [H _]. vm_compute in H. discriminate.
  - exists w'. split; [exact Hfs|exact Hops].
Defined.

Lemma validate_signature_verdict_witness :
  ∃ w', validate_signature quiet_env ["work"; "ghostty-1.2.0.tar.gz"]
          ["work"; "ghostty-1.2.0.tar.gz.minisig"] public_key stale_world
        = (Ret true, w')
        ∧ fs w' = delete (tmp_key_file quiet_env) (fs stale_world).
Proof.
  destruct (validate_signature_verdict quiet_env ["work"; "ghostty-1.2.0.tar.gz"]
              ["work"; "ghostty-1.2.0.tar.gz.minisig"] public_key stale_world)
    as (w' & Hrun & Hfs & _).
  - split; reflexivity.
  - intros [[x Hx]|[[x Hx]|[[x Hx]|[x Hx]]]]; vm_compute in Hx; discriminate.
  - exists w'. split; [exact Hrun|exact Hfs].
Defined.

Lemma extract_artifacts_result_witness :
  (extract_artifacts_from_container copy_failing_env "ghostty-extract-k3x9q2m7"
     "1.2.0" ["tmp"; "ghostty-container-r4t5"] recipe_world).1
  = Raise (Exn RuntimeError "Binary extraction failed").
Proof.
  refine (proj1 (proj1 (proj2 (proj2 (extract_artifacts_result copy_failing_env
            "ghostty-extract-k3x9q2m7" "1.2.0" ["tmp"; "ghostty-container-r4t5"]
            recipe_world _ _ (surjective_pairing _)))) _ _)).
  - reflexivity.
  - vm_compute. discriminate.
Defined.

Lemma container_preflight_witness :
  ∃ w', build_ghostty_container quiet_env "1.2.0" "0.14.1" false empty_world
        = (Exit 1, w')
        ∧ fs w' = fs empty_world.
Proof.
  destruct (container_preflight quiet_env "1.2.0" "0.14.1" false empty_world)
    as (w' & Hrun & Hfs & _).
  - right. split; [split; reflexivity|]. left. vm_compute. reflexivity.
  - exists w'. split; [exact Hrun|exact Hfs].
Defined.

Lemma failed_extraction_installs_nothing_witness :
  ∃ w', build_ghostty_container copy_failing_env "1.2.0" "0.14.1" false
          recipe_world
        = (Raise (Exn RuntimeError "Binary extraction failed"), w')
        ∧ fs w' !! ghostty_binary copy_failing_env
          = fs recipe_world !! ghostty_binary copy_failing_env.
Proof.
  destruct (failed_extraction_installs_nothing copy_failing_env "1.2.0" "0.14.1"
              false recipe_world)
    as (e & w' & Hrun & He & Hfs & _).
  - split; reflexivity.
  - vm_compute. eauto.
  - reflexivity.
  - reflexivity.
  - split; reflexivity.
  - reflexivity.
  - vm_compute. discriminate.
  - exists w'. rewrite Hrun, (He eq_refl eq_refl). split; [reflexivity|].
    apply Hfs. decide_by_compute.
Defined.

Lemma install_desktop_file_never_fatal_witness :
  (install_desktop_file quiet_env ["work"; "ghostty-1.2.0"] empty_world).1 = Ret tt
  ∧ fs (install_desktop_file quiet_env ["work"; "ghostty-1.2.0"] empty_world).2
    = fs empty_world.
Proof.
  destruct (proj2 (proj2 (install_desktop_file_never_fatal quiet_env
              ["work"; "ghostty-1.2.0"] empty_world _ _ (surjective_pairing _))))
    as (Ho & Hfs & _).
  - vm_compute. reflexivity.
  - vm_compute. reflexivity.
  - split; [exact Ho|exact Hfs].
Defined.


Lemma validate_signature_touches_only_key_file_witness :
  fs (validate_signature rejecting_env ["work"; "ghostty-1.2.0.tar.gz"]
        ["work"; "ghostty-1.2.0.tar.gz.minisig"] public_key stale_world).2
    !! ["work"; "ghostty-1.2.0.tar.gz"]
  = Some (File "archive").
Proof.
  destruct (validate_signature_touches_only_key_file rejecting_env
              ["work"; "ghostty-1.2.0.tar.gz"]
              ["work"; "ghostty-1.2.0.tar.gz.minisig"] public_key stale_world
              _ _ (surjective_pairing _))
    as [_ Hfs].
  rewrite Hfs by decide_by_compute. vm_compute. reflexivity.
Defined.


Lemma container_ignores_local_flags_witness :
  (main quiet_env container_args recipe_world).1
  = (main quiet_env container_args_with_local_flags recipe_world).1
  ∧ fs (main quiet_env container_args recipe_world).2
    = fs (main quiet_env container_args_with_local_flags recipe_world).2.
Proof.
  destruct (container_ignores_local_flags quiet_env container_args
              container_args_with_local_flags recipe_world
              eq_refl eq_refl eq_refl eq_refl eq_refl eq_refl eq_refl)
    as (Ho & Hfs & _).
  split; [exact Ho|exact Hfs].
Defined.

Lemma setup_zig_installs_witness :
  fs (setup_zig toolchain_env ["work"; "compiler"] "0.14.1" false empty_world).2
    !! ["work"; "compiler"; "zig"]
  = Some (File "zig ELF").
Proof.
  assert ((setup_zig toolchain_env ["work"; "compiler"] "0.14.1" false
             empty_world).1 = Ret tt) as Hrun
    by (vm_compute; reflexivity).
  refine (proj1 (setup_zig_installs toolchain_env ["work"; "compiler"] "0.14.1"
                   false empty_world _
                   "bytes of https://ziglang.org/download/0.14.1/zig-x86_64-linux-0.14.1.tar.xz"
                   "zig ELF" (run_eq _ _ _ Hrun) _ _ _ _ _ _)).
  - intros [[n Hn] _]. vm_compute in Hn. discriminate.
  - vm_compute. discriminate.
  - vm_compute. reflexivity.
  - decide_by_compute.
  - decide_by_compute.
  - apply list_elem_of_further, list_elem_of_here.
Defined.

Lemma failed_download_is_kept_witness :
  ∃ w1,
    download_file (sample_env connection_lost all_succeed)
      "https://release.files.ghostty.org/1.2.0/ghostty-1.2.0.tar.gz"
      ["work"; "ghostty-1.2.0.tar.gz"] false empty_world
    = (Exit 1, w1)
    ∧ fs w1 !! ["work"; "ghostty-1.2.0.tar.gz"] = Some (File "byt")
    ∧ ∃ w2,
        download_file (sample_env connection_lost all_succeed)
          "https://release.files.ghostty.org/1.2.0/ghostty-1.2.0.tar.gz"
          ["work"; "ghostty-1.2.0.tar.gz"] false w1
        = (Ret tt, w2)
        ∧ fs w2 = fs w1.
Proof.
  destruct (failed_download_is_kept (sample_env connection_lost all_succeed)
              "https://release.files.ghostty.org/1.2.0/ghostty-1.2.0.tar.gz"
              ["work"; "ghostty-1.2.0.tar.gz"] empty_world
              (Exn OtherError "<urlopen error [Errno 104] Connection reset by peer>")
              "byt")
    as (w1 & Hrun & Hfile & Hagain).
  - vm_compute. reflexivity.
  - reflexivity.
  - vm_compute. reflexivity.
  - exists w1. split; [exact Hrun|]. split; [exact Hfile|].
    destruct (Hagain w1 eq_refl) as (w2 & Hrun2 & Hfs2 & _).
    exists w2. split; [exact Hrun2|exact Hfs2].
Defined.

Lemma uninstall_twice_witness :
  ∃ w2,
    uninstall_ghostty quiet_env (uninstall_ghostty quiet_env installed_world).2
    = (Ret tt, w2)
    ∧ last (trace w2) = Some (EvLog WARNING "No Ghostty artifacts found to remove").
Proof.
  assert ((uninstall_ghostty quiet_env installed_world).1 = Ret tt) as Hrun
    by (vm_compute; reflexivity).
  destruct (uninstall_twice quiet_env installed_world _ (run_eq _ _ _ Hrun))
    as (w2 & Hrun2 & _ & _ & Hlast).
  - intros a q Ha Hp Hne. unfold installed_world, sample_world. cbn [fs list_to_map foldr].
    apply lookup_insert_None. split; [apply lookup_empty|].
    intros <-. unfold artifacts in Ha. set_unfold in Ha.
    destruct Ha as [-> | [-> | [-> | []]]]; cbn in Hp, Hne;
      [done|revert Hp; decide_by_compute..].
  - exists w2. split; [exact Hrun2|exact Hlast].
Defined.

Lemma extraction_requires_verification_witness :
  (completed quiet_env
     (minisign_verify (tmp_key_file quiet_env) ["work"; "ghostty-1.2.0.tar.gz"])
     ["work"] None).1.1 = 0
  ∧ EvOp (Run (minisign_verify (tmp_key_file quiet_env)
                 ["work"; "ghostty-1.2.0.tar.gz"]) ["work"] None)
      ∈ since empty_world (main quiet_env sample_args empty_world).2.
Proof.
  destruct (extraction_requires_verification quiet_env sample_args empty_world
              _ _ (EvOp (TarExtract "r:gz" ["work"; "ghostty-1.2.0.tar.gz"] ["work"]))
              eq_refl eq_refl eq_refl (surjective_pairing _))
    as (_ & Hrc & Hin).
  - decide_by_compute.
  - reflexivity.
  - split; [exact Hrc|exact Hin].
Defined.

(** [container_installs_built_binary] over the binary of an earlier
    release: the container's file has taken its place. *)
Lemma container_installs_built_binary_witness :
  fs upgrade_world !! ghostty_binary quiet_env = Some (File "ELF of 1.1.0")
  ∧ fs (build_ghostty_container quiet_env "1.2.0" "0.14.1" false
          upgrade_world).2 !! ghostty_binary quiet_env
    = Some (File "ELF").
Proof.
  split; [vm_compute; reflexivity|].
  assert ((build_ghostty_container quiet_env "1.2.0" "0.14.1" false
             upgrade_world).1 = Ret tt) as Hrun
    by (vm_compute; reflexivity).
  apply (container_installs_built_binary quiet_env "1.2.0" "0.14.1" false
           upgrade_world _ "ELF" (run_eq _ _ _ Hrun)).
  - vm_compute. reflexivity.
  - vm_compute. discriminate.
  - decide_by_compute.
  - decide_by_compute.
Defined.
